(** * Fraud-detection front end: CSV normalisation and result reconciliation

    A shallow embedding of [src/pages/About.tsx] (the service module of the
    upload page): [preprocessCSV], [processCSV], [predictTransaction],
    [processTransactions], [calculateRiskDistribution] and
    [generateMockTransactions], followed by the properties of the
    specification that concern them.

    Conventions of the embedding.
    - A JavaScript string is a [string] of ASCII characters, on which
      the case mappings are the ones of the ASCII letters; a byte outside
      ASCII is left as it is.
    - A JavaScript number is the real number it denotes before rounding to
      a double ([Fin q]) or [NaN].
    - An object is an association list in property insertion order, as
      [Object.keys] and [Object.entries] observe it.
    - What the host decides (number printing, [Date], the serializer, the
      network) is a field of the record [Host]; [Math.random] is a stream
      of draws threaded through the monad [M], which also carries [throw]. *)

From Stdlib Require Import List String Ascii Bool Arith ZArith QArith Qround Lia.
From Stdlib Require Import DecimalString Lqa Permutation Sorted.
Import ListNotations.

Local Open Scope string_scope.
Local Open Scope list_scope.

(** ** Numbers and values *)

Inductive number : Type :=
| Fin (q : Q)
| NaN.

Inductive value : Type :=
| VUndef
| VNull
| VBool (b : bool)
| VNum (n : number)
| VStr (s : string).

Definition num (z : Z) : value := VNum (Fin (inject_Z z)).

(** [Boolean(v)]: the falsy values are undefined, null, false, 0, NaN and
    the empty string. *)
Definition truthy (v : value) : bool :=
  match v with
  | VUndef | VNull => false
  | VBool b => b
  | VNum (Fin q) => negb (Qeq_bool q 0)
  | VNum NaN => false
  | VStr s => negb (String.eqb s "")
  end.

(** [a || b] on values: the first operand when it is truthy. *)
Definition or_else (a b : value) : value := if truthy a then a else b.

Definition isNaN (n : number) : bool :=
  match n with NaN => true | Fin _ => false end.

Definition num_add (a b : number) : number :=
  match a, b with
  | Fin x, Fin y => Fin (x + y)
  | _, _ => NaN
  end.

Definition num_mul (a b : number) : number :=
  match a, b with
  | Fin x, Fin y => Fin (x * y)
  | _, _ => NaN
  end.

(** Division; the divisor is never zero where the program divides (see
    [totalRisk_nonzero]), so the infinities are left out of [number]. *)
Definition num_div (a b : number) : number :=
  match a, b with
  | Fin x, Fin y => if Qeq_bool y 0 then NaN else Fin (x / y)
  | _, _ => NaN
  end.

Definition Qltb (x y : Q) : bool := negb (Qle_bool y x).

(** [a < b] and [a > b] on numbers: false as soon as one side is NaN. *)
Definition num_lt (a b : number) : bool :=
  match a, b with
  | Fin x, Fin y => Qltb x y
  | _, _ => false
  end.

Definition num_gt (a b : number) : bool := num_lt b a.

(** [Math.floor] of a finite number, as an integer. *)
Definition floorZ (q : Q) : Z := Qfloor q.

(** Strict equality [===] of two values (numbers by their value, NaN
    different from itself). *)
Definition strict_eq (a b : value) : bool :=
  match a, b with
  | VUndef, VUndef | VNull, VNull => true
  | VBool x, VBool y => Bool.eqb x y
  | VNum (Fin x), VNum (Fin y) => Qeq_bool x y
  | VStr x, VStr y => String.eqb x y
  | _, _ => false
  end.

(** ** Strings *)

Definition string_of_Z (z : Z) : string := NilZero.string_of_int (Z.to_int z).

Definition is_digit (c : ascii) : bool :=
  let n := nat_of_ascii c in (48 <=? n)%nat && (n <=? 57)%nat.

Definition digit_val (c : ascii) : Z := Z.of_nat (nat_of_ascii c) - 48.

Definition lower_char (c : ascii) : ascii :=
  let n := nat_of_ascii c in
  if (65 <=? n)%nat && (n <=? 90)%nat then ascii_of_nat (n + 32) else c.

Definition upper_char (c : ascii) : ascii :=
  let n := nat_of_ascii c in
  if (97 <=? n)%nat && (n <=? 122)%nat then ascii_of_nat (n - 32) else c.

Fixpoint map_string (f : ascii -> ascii) (s : string) : string :=
  match s with
  | EmptyString => EmptyString
  | String c s' => String (f c) (map_string f s')
  end.

Fixpoint filter_string (p : ascii -> bool) (s : string) : string :=
  match s with
  | EmptyString => EmptyString
  | String c s' => if p c then String c (filter_string p s') else filter_string p s'
  end.

Definition toLowerCase : string -> string := map_string lower_char.
Definition toUpperCase : string -> string := map_string upper_char.

Definition startsWith (s pre : string) : bool := String.prefix pre s.

(** [s.includes(pat)]: [pat] occurs in [s] at some position. *)
Fixpoint includes (s pat : string) : bool :=
  String.prefix pat s ||
  match s with
  | EmptyString => false
  | String _ s' => includes s' pat
  end.

(** [s.split(' ')[0]]: the text before the first space. *)
Fixpoint before_space (s : string) : string :=
  match s with
  | EmptyString => EmptyString
  | String c s' => if Ascii.eqb c " " then EmptyString else String c (before_space s')
  end.

Fixpoint string_mem (s : string) (l : list string) : bool :=
  match l with
  | [] => false
  | x :: l' => String.eqb s x || string_mem s l'
  end.

(** *** [parseFloat] and [Number] on strings *)

(** Reads a run of decimal digits: the accumulated value, how many digits
    were read, and the rest of the string. *)
Fixpoint read_digits (s : string) (acc : Z) (n : nat) : Z * nat * string :=
  match s with
  | String c s' =>
      if is_digit c then read_digits s' (10 * acc + digit_val c) (S n)
      else (acc, n, s)
  | EmptyString => (acc, n, s)
  end.

(** [parseFloat] on a string made of digits and dots, which is all the
    program applies it to (signs, exponents and leading blanks have been
    filtered out): the longest prefix [digits], [digits.digits], [digits.]
    or [.digits], and NaN when that prefix has no digit. *)
Definition parseFloat (s : string) : number :=
  let '(ip, ni, rest) := read_digits s 0 0 in
  match rest with
  | String "." rest' =>
      let '(fp, nf, _) := read_digits rest' ip 0 in
      if (ni + nf =? 0)%nat then NaN
      else Fin (fp # Z.to_pos (10 ^ Z.of_nat nf))
  | _ => if (ni =? 0)%nat then NaN else Fin (ip # 1)
  end.

Definition is_ws (c : ascii) : bool :=
  let n := nat_of_ascii c in
  ((9 <=? n)%nat && (n <=? 13)%nat) || (n =? 32)%nat.

Fixpoint drop_ws (l : list ascii) : list ascii :=
  match l with
  | c :: l' => if is_ws c then drop_ws l' else l
  | [] => []
  end.

Definition trim_ws (l : list ascii) : list ascii :=
  rev (drop_ws (rev (drop_ws l))).

Fixpoint skip_digits (l : list ascii) : nat * list ascii :=
  match l with
  | c :: l' =>
      if is_digit c then let (n, r) := skip_digits l' in (S n, r) else (0%nat, l)
  | [] => (0%nat, [])
  end.

Definition is_sign (c : ascii) : bool := Ascii.eqb c "+" || Ascii.eqb c "-".

Definition exponent_ok (l : list ascii) : bool :=
  match l with
  | [] => true
  | c :: l' =>
      if Ascii.eqb c "e" || Ascii.eqb c "E" then
        let l'' := match l' with
                   | s :: r => if is_sign s then r else l'
                   | [] => l'
                   end in
        let (n, r) := skip_digits l'' in
        (0 <? n)%nat && match r with [] => true | _ => false end
      else false
  end.

Definition decimal_ok (l : list ascii) : bool :=
  let (ni, r) := skip_digits l in
  match r with
  | "."%char :: r' =>
      let (nf, r'') := skip_digits r' in (0 <? ni + nf)%nat && exponent_ok r''
  | _ => (0 <? ni)%nat && exponent_ok r
  end.

Definition is_hex (c : ascii) : bool :=
  let n := nat_of_ascii c in
  is_digit c || ((65 <=? n)%nat && (n <=? 70)%nat) || ((97 <=? n)%nat && (n <=? 102)%nat).
Definition is_oct (c : ascii) : bool :=
  let n := nat_of_ascii c in (48 <=? n)%nat && (n <=? 55)%nat.
Definition is_bin (c : ascii) : bool :=
  let n := nat_of_ascii c in (48 <=? n)%nat && (n <=? 49)%nat.

Definition all_nonempty (p : ascii -> bool) (l : list ascii) : bool :=
  match l with [] => false | _ => forallb p l end.

(** [!isNaN(Number(key))]: whether the string is a numeric literal for
    [Number]: blank, a decimal literal with optional sign, fraction and
    exponent, [Infinity], or a hexadecimal, octal or binary integer. *)
Definition numeric_string (s : string) : bool :=
  match trim_ws (list_ascii_of_string s) with
  | [] => true
  | "0"%char :: x :: r =>
      if Ascii.eqb x "x" || Ascii.eqb x "X" then all_nonempty is_hex r
      else if Ascii.eqb x "o" || Ascii.eqb x "O" then all_nonempty is_oct r
      else if Ascii.eqb x "b" || Ascii.eqb x "B" then all_nonempty is_bin r
      else decimal_ok ("0"%char :: x :: r)
  | c :: r =>
      let body := if is_sign c then r else c :: r in
      String.eqb (string_of_list_ascii body) "Infinity" || decimal_ok body
  end.

(** ** Objects *)

(** An object: its own properties in insertion order. *)
Definition obj : Type := list (string * value).

Fixpoint get (k : string) (o : obj) : option value :=
  match o with
  | [] => None
  | (k', v) :: o' => if String.eqb k k' then Some v else get k o'
  end.

(** [o.k] or [o[k]]: undefined when the property is absent. *)
Definition getv (k : string) (o : obj) : value :=
  match get k o with Some v => v | None => VUndef end.

(** [o[k] = v]: overwrite in place, or append a new property. *)
Fixpoint set (k : string) (v : value) (o : obj) : obj :=
  match o with
  | [] => [(k, v)]
  | (k', v') :: o' =>
      if String.eqb k k' then (k', v) :: o' else (k', v') :: set k v o'
  end.

(** [delete o[k]]. *)
Fixpoint del (k : string) (o : obj) : obj :=
  match o with
  | [] => []
  | (k', v') :: o' =>
      if String.eqb k k' then del k o' else (k', v') :: del k o'
  end.

(** [Object.keys(o)]. *)
Definition keys (o : obj) : list string := map fst o.

(** [{...a, ...b}]: the properties of [b] written over those of [a]. *)
Definition spread (a b : obj) : obj :=
  fold_left (fun o kv => set (fst kv) (snd kv) o) b a.

(** Writes the same value under every key of a list, in order. *)
Definition set_all (ks : list string) (v : value) (o : obj) : obj :=
  fold_left (fun o k => set k v o) ks o.

(** ** Errors, randomness and the host *)

(** A thrown [Error] object: its [name] and [message]. *)
Record exn : Type := mkExn { exn_name : string; exn_message : string }.

Definition TypeError (msg : string) : exn := mkExn "TypeError" msg.
Definition Error (msg : string) : exn := mkExn "Error" msg.

Inductive result (A : Type) : Type :=
| Ok (a : A)
| Throw (e : exn).
Arguments Ok {A} a.
Arguments Throw {A} e.

(** The successive results of [Math.random()]. *)
Definition rng : Type := nat -> Q.

(** Every draw lies in [0, 1). *)
Definition rng_ok (g : rng) : Prop := forall n, 0 <= g n /\ g n < 1.

Definition rng_tail (g : rng) : rng := fun n => g (S n).

(** Computations that draw random numbers and may throw.  A throw keeps
    the draws consumed so far, as a handler may draw again. *)
Definition M (A : Type) : Type := rng -> result A * rng.

Definition ret {A} (a : A) : M A := fun g => (Ok a, g).

Definition bind {A B} (m : M A) (k : A -> M B) : M B :=
  fun g =>
    match m g with
    | (Ok a, g') => k a g'
    | (Throw e, g') => (Throw e, g')
    end.

Definition throw {A} (e : exn) : M A := fun g => (Throw e, g).

(** [try { m } catch (e) { h e }]. *)
Definition try_catch {A} (m : M A) (h : exn -> M A) : M A :=
  fun g =>
    match m g with
    | (Ok a, g') => (Ok a, g')
    | (Throw e, g') => h e g'
    end.

(** [Math.random()]. *)
Definition random : M Q := fun g => (Ok (g 0%nat), rng_tail g).

(** Lifts a result that draws nothing. *)
Definition lift {A} (r : result A) : M A := fun g => (r, g).

Declare Scope js_scope.
Delimit Scope js_scope with js.
Notation "x <- m ;; k" := (bind m (fun x => k))
  (at level 61, m at next level, right associativity) : js_scope.
Notation "' pat <- m ;; k" := (bind m (fun x => match x with pat => k end))
  (at level 61, pat pattern, m at next level, right associativity) : js_scope.
Local Open Scope js_scope.

(** [xs.map(f)] for a callback with effects: in order, stopping at the
    first throw. *)
Fixpoint mapM {A B} (f : A -> M B) (xs : list A) : M (list B) :=
  match xs with
  | [] => ret []
  | x :: xs' => y <- f x ;; ys <- mapM f xs' ;; ret (y :: ys)
  end.

(** The fields of a valid [Date]: [getHours], [getFullYear], [getMonth],
    [getDate] in local time and [getTime] in milliseconds. *)
Record DateParts : Type := mkDate {
  getHours : Z;
  getFullYear : Z;
  getMonth : Z;
  getDate : Z;
  getTime : Z
}.

(** A [File]: its name and its text. *)
Record File : Type := mkFile { file_name : string; file_text : string }.

Definition file_size (f : File) : nat := String.length (file_text f).

(** What [fetch] and the reading of the response come to. *)
Inductive FetchResult (P : Type) : Type :=
| FetchRejected (e : exn)
| FetchResponded (ok : bool) (status : Z) (statusText : string)
    (text : result string) (json : result P).
Arguments FetchRejected {P} e.
Arguments FetchResponded {P} ok status statusText text json.

(** ** The prediction response *)

(** One of the three lists of the response as the reconciler meets it:
    absent (or otherwise falsy, so that [|| []] applies), an array whose
    elements are objects or null, or a truthy value that is not an array
    and so has no [map]. *)
Inductive Bucket : Type :=
| BucketMissing
| BucketArray (txs : list (option obj))
| BucketMalformed.

Record RiskDistribution : Type := mkRiskDistribution {
  High : number;
  Medium : number;
  Low : number
}.

(** The parsed JSON body: [null], or an object with the three lists and
    the optional [riskDistribution].  (A body that is a bare number, string
    or boolean has none of the four properties and behaves as the object
    with all of them missing.) *)
Inductive Prediction : Type :=
| PredNull
| PredObject (highRiskTransactions mediumRiskTransactions lowRiskTransactions : Bucket)
    (riskDistribution : option RiskDistribution).

(** What the CSV library reports while it reads the uploaded file: chunks
    of rows in order, or a read/parse error.  The end of the list is the
    end of the file. *)
Inductive ParseEvent : Type :=
| Chunk (rows : list obj)
| ParseError (e : exn).

Record Upload : Type := mkUpload { upload_name : string; upload_events : list ParseEvent }.

Record ApiError : Type := mkApiError { message : string; statusCode : Z }.

Record Outcome : Type := mkOutcome {
  processedTransactions : list obj;
  error : option ApiError
}.

(** The environment of the page. *)
Record Host : Type := mkHost {
  (** [String(n)] for a number. *)
  numberToString : number -> string;
  (** [new Date(s)]: its fields, or [None] for an invalid date. *)
  parseDate : string -> option DateParts;
  (** [new Date().toISOString().slice(0, 10)]. *)
  today : string;
  (** [Date.now()], in milliseconds. *)
  now : Z;
  (** [Papa.unparse({fields, data})]. *)
  unparse : list string -> list obj -> result string;
  (** The POST of the file to [/predict]. *)
  fetch : File -> FetchResult Prediction
}.

(** ** Constants *)

Definition USE_DEMO_DATA_ON_ERROR : bool := true.
Definition CHUNK_SIZE : nat := Z.to_nat 10000.
Definition ROW_LIMIT : nat := Z.to_nat 100000.

Definition states : list string :=
  ["AL"; "AR"; "AZ"; "CA"; "CO"; "CT"; "DC"; "DE"; "FL"; "GA";
   "HI"; "IA"; "ID"; "IL"; "IN"; "KS"; "KY"; "LA"; "MA"; "MD";
   "ME"; "MI"; "MN"; "MO"; "MS"; "MT"; "NC"; "ND"; "NE"; "NH";
   "NJ"; "NM"; "NV"; "NY"; "OH"; "OK"; "OR"; "PA"; "RI"; "SC";
   "SD"; "TN"; "TX"; "UT"; "VA"; "VT"; "WA"; "WI"; "WV"; "WY"].

Definition state_key (code : string) : string := "state_" ++ code.
Definition state_keys : list string := map state_key states.

Definition category_key (i : nat) : string :=
  "category_" ++ NilEmpty.string_of_uint (Nat.to_uint i).
Definition category_keys : list string := map category_key (seq 1 13).

(** [`TX-${Math.floor(1000000 + r * 9000000)}`] for a draw [r]. *)
Definition tx_id (r : Q) : string :=
  "TX-" ++ string_of_Z (floorZ (1000000 + r * 9000000)).

(** ** The row normalizer and the batch preprocessor *)

Section Pipeline.

Variable host : Host.

(** [String(v)] and [v.toString()] on a value that is not null or
    undefined. *)
Definition toStr (v : value) : string :=
  match v with
  | VUndef => "undefined"
  | VNull => "null"
  | VBool true => "true"
  | VBool false => "false"
  | VNum n => numberToString host n
  | VStr s => s
  end.

(** Drops the columns whose name is numeric or starts with Unnamed. *)
Definition dropped_key (key : string) : bool :=
  numeric_string key || startsWith key "Unnamed".

Definition drop_columns (row processedRow : obj) : obj :=
  fold_left (fun p key => if dropped_key key then del key p else p)
    (keys row) processedRow.

(** The id: [row.trans_num || row.id || `TX-...`], the random draw being
    made only when both are falsy. *)
Definition choose_id (row : obj) : M value :=
  if truthy (getv "trans_num" row) then ret (getv "trans_num" row)
  else if truthy (getv "id" row) then ret (getv "id" row)
  else r <- random ;; ret (VStr (tx_id r)).

Definition fix_cc_num (row p : obj) : obj :=
  if truthy (getv "cc_num" row)
  then set "cc_num" (VStr (filter_string is_digit (toStr (getv "cc_num" row)))) p
  else p.

Definition digit_or_dot (c : ascii) : bool := is_digit c || Ascii.eqb c ".".

Definition fix_amount (row p : obj) : obj :=
  if truthy (getv "amt" row) then
    let amt := parseFloat (filter_string digit_or_dot (toStr (getv "amt" row))) in
    let p := set "amt" (VNum (if isNaN amt then Fin 0 else amt)) p in
    set "amount" (getv "amt" p) p
  else p.

(** The fields derived from a valid date; [unix_time] only when the row
    has no truthy one. *)
Definition set_date_fields (d : DateParts) (p : obj) : obj :=
  let p := set "transaction_hour" (num (getHours d)) p in
  let p := set "year" (num (getFullYear d)) p in
  let p := set "month" (num (getMonth d + 1)) p in
  let p := set "day" (num (getDate d)) p in
  let p := set "hour" (num (getHours d)) p in
  if negb (truthy (getv "unix_time" p))
  then set "unix_time" (num (getTime d / 1000)) p
  else p.

(** The date step.  [split] exists on strings only: any other truthy value
    makes the call throw. *)
Definition fix_date (row p : obj) : M obj :=
  let v := getv "trans_date_trans_time" row in
  if truthy v then
    match v with
    | VStr s =>
        let p := set "date" (VStr (before_space s)) p in
        let p := set "trans_date_trans_time" v p in
        ret (match parseDate host s with
             | Some d => set_date_fields d p
             | None => p
             end)
    | _ => throw (TypeError "row.trans_date_trans_time.split is not a function")
    end
  else ret p.

(** The keyword groups of the category mapping, in the order tested. *)
Definition category_of (category : string) : nat :=
  if includes category "grocery" then 1
  else if includes category "gas" || includes category "transport" then 2
  else if includes category "entertain" then 3
  else if includes category "misc" then 4
  else if includes category "health" then 5
  else if includes category "food" || includes category "dining" then 6
  else if includes category "shop" then 7
  else if includes category "personal" then 8
  else if includes category "home" then 9
  else if includes category "kids" then 10
  else if includes category "travel" then 11
  else if includes category "service" then 12
  else 1.

Definition fix_category (row p : obj) : obj :=
  let p := set_all category_keys (num 0) p in
  if truthy (getv "category" row) then
    let category := toLowerCase (toStr (getv "category" row)) in
    set (category_key (category_of category)) (num 1) p
  else set "category_1" (num 1) p.

Definition fix_gender (row p : obj) : obj :=
  if truthy (getv "gender" row) then
    set "gender_M"
      (if String.eqb (toUpperCase (toStr (getv "gender" row))) "M" then num 1 else num 0) p
  else set "gender_M" (num 0) p.

Definition set_state_flag (v : value) (p : obj) : obj :=
  let stateCode := toUpperCase (toStr v) in
  if string_mem stateCode states then set (state_key stateCode) (num 1) p else p.

Definition fix_state (row p : obj) : obj :=
  let p := set_all state_keys (num 0) p in
  if truthy (getv "state" row) then set_state_flag (getv "state" row) p
  else if truthy (getv "state" p) then set_state_flag (getv "state" p) p
  else set "state_CA" (num 1) p.

Definition fix_age (row p : obj) : obj :=
  if negb (truthy (getv "age" row)) then set "age" (num 30) p else p.

(** The callback of [batchData.map] in [preprocessCSV]: one raw row to one
    normalized row. *)
Definition normalizeRow (row : obj) : M obj :=
  let p := drop_columns row row in
  id <- choose_id row ;;
  let p := set "id" id p in
  let p := set "trans_num" (getv "id" p) p in
  let p := fix_cc_num row p in
  let p := fix_amount row p in
  p <- fix_date row p ;;
  let p := fix_category row p in
  let p := fix_gender row p in
  let p := fix_state row p in
  ret (fix_age row p).

(** [data.slice(start, stop)]. *)
Definition slice {A} (start stop : nat) (l : list A) : list A :=
  firstn (stop - start)%nat (skipn start l).

(** [Math.ceil(a / b)] on lengths. *)
Definition ceil_div (a b : nat) : nat := ((a + b - 1) / b)%nat.

(** The loop over the batches: [remaining] batches are left, the next one
    is number [batchIndex]. *)
Fixpoint process_batches (remaining batchIndex : nat) (data processedData : list obj)
  : M (list obj) :=
  match remaining with
  | O => ret processedData
  | S remaining' =>
      let startIdx := (batchIndex * CHUNK_SIZE)%nat in
      let endIdx := Nat.min (startIdx + CHUNK_SIZE)%nat (List.length data) in
      let batchData := slice startIdx endIdx data in
      processedBatch <- mapM normalizeRow batchData ;;
      process_batches remaining' (S batchIndex) data (processedData ++ processedBatch)
  end.

Definition preprocessCSV (data : list obj) : M (list obj) :=
  if (List.length data =? 0)%nat then ret []
  else
    let totalBatches := ceil_div (List.length data) CHUNK_SIZE in
    process_batches totalBatches 0 data [].

(** ** The CSV parser *)

(** The [chunk] callback folded over what the library delivers: [results]
    when [complete] is called, at the end of the file or by [abort]; the
    error when the library reports one. *)
Fixpoint parse_chunks (events : list ParseEvent) (results : list obj)
  : result (list obj) :=
  match events with
  | [] => Ok results
  | Chunk rows :: events' =>
      let results := results ++ rows in
      if (ROW_LIMIT <? List.length results)%nat then Ok results
      else parse_chunks events' results
  | ParseError e :: _ => Throw e
  end.

Definition processCSV (file : Upload) : M (list obj) :=
  match parse_chunks (upload_events file) [] with
  | Ok results => preprocessCSV results
  | Throw e => throw e
  end.

End Pipeline.

(** ** The prediction client *)

Section Client.

Variable host : Host.

Definition timeout_message : string :=
  "Request timeout: The cloud server is taking too long to process your file. This might be due to first-time container startup. Please try again in a moment.".

(** The body of the [try] of [predictTransaction]. *)
Definition predict_body (file : File) : result Prediction :=
  if (file_size file =? 0)%nat then Throw (Error "Invalid or empty file")
  else
    match fetch host file with
    | FetchRejected e => Throw e
    | FetchResponded ok status statusText text json =>
        if negb ok then
          let errorText :=
            match text with
            | Ok t => t
            | Throw _ => "Could not retrieve error details"
            end in
          Throw (Error ("Server error: " ++ string_of_Z status ++ " - "
                        ++ (if String.eqb errorText "" then statusText else errorText)))
        else
          match json with
          | Ok data => Ok data
          | Throw _ => Throw (Error "Invalid response format from server")
          end
    end.

Definition predictTransaction (file : File) : result Prediction :=
  match predict_body file with
  | Ok data => Ok data
  | Throw error =>
      if String.eqb (exn_name error) "AbortError"
      then Throw (Error timeout_message)
      else Throw error
  end.

End Client.

(** ** The result reconciler and the orchestration *)

(** [SameValueZero], the key comparison of a [Map]. *)
Definition same_value_zero (a b : value) : bool :=
  match a, b with
  | VNum NaN, VNum NaN => true
  | _, _ => strict_eq a b
  end.

(** A [Map]: its entries in insertion order. *)
Definition jsmap : Type := list (value * obj).

Fixpoint map_get (k : value) (m : jsmap) : option obj :=
  match m with
  | [] => None
  | (k', o) :: m' => if same_value_zero k k' then Some o else map_get k m'
  end.

Fixpoint map_set (k : value) (o : obj) (m : jsmap) : jsmap :=
  match m with
  | [] => [(k, o)]
  | (k', o') :: m' =>
      if same_value_zero k k' then (k', o) :: m' else (k', o') :: map_set k o m'
  end.

(** The index of the normalized rows by id. *)
Definition originalTransactionMap (preprocessedData : list obj) : jsmap :=
  fold_left
    (fun m tx =>
       if truthy (getv "id" tx) then map_set (getv "id" tx) tx m
       else if truthy (getv "trans_num" tx) then map_set (getv "trans_num" tx) tx m
       else m)
    preprocessedData [].

Section Reconciler.

Variable host : Host.

(** [tx.id || tx.trans_num || tx.cc_num || `TX-...`]. *)
Definition resolve_id (tx : obj) : M value :=
  if truthy (getv "id" tx) then ret (getv "id" tx)
  else if truthy (getv "trans_num" tx) then ret (getv "trans_num" tx)
  else if truthy (getv "cc_num" tx) then ret (getv "cc_num" tx)
  else r <- random ;; ret (VStr (tx_id r)).

Definition is_number (v : value) : bool :=
  match v with VNum _ => true | _ => false end.

(** [enhanceTransaction(tx, riskLevel, defaultProb)]; an element that is
    null has no property to read. *)
Definition enhanceTransaction (m : jsmap) (riskLevel : string) (defaultProb : Q)
    (tx : option obj) : M obj :=
  match tx with
  | None => throw (TypeError "Cannot read properties of null (reading 'id')")
  | Some tx =>
      txId <- resolve_id tx ;;
      let origTx := match map_get txId m with Some o => o | None => [] end in
      let r := spread origTx tx in
      let r := set "id" txId r in
      let r := set "merchant"
                 (or_else (getv "merchant" tx)
                    (or_else (getv "merchant" origTx) (VStr "Unknown Merchant"))) r in
      let r := set "amount"
                 (if is_number (getv "amt" tx) then getv "amt" tx
                  else or_else (getv "amount" origTx) (num 0)) r in
      let r := set "date"
                 (or_else (getv "date" tx)
                    (or_else (getv "date" origTx) (VStr (today host)))) r in
      let r := set "fraud_probability"
                 (or_else (getv "fraud_probability" tx) (VNum (Fin defaultProb))) r in
      ret (set "risk_level" (VStr riskLevel) r)
  end.

(** [(bucket || []).map(f)]. *)
Definition map_bucket (b : Bucket) (f : option obj -> M obj) : M (list obj) :=
  match b with
  | BucketMissing => ret []
  | BucketArray txs => mapM f txs
  | BucketMalformed => throw (TypeError "(intermediate value).map is not a function")
  end.

Definition zero_distribution : RiskDistribution :=
  mkRiskDistribution (Fin 0) (Fin 0) (Fin 0).

(** [riskDist.High + riskDist.Medium + riskDist.Low || 1]. *)
Definition totalRisk (riskDist : RiskDistribution) : number :=
  let sum := num_add (num_add (High riskDist) (Medium riskDist)) (Low riskDist) in
  if truthy (VNum sum) then sum else Fin 1.

(** One step of the simulated classification: the three lists so far and
    the next normalized row. *)
Definition simulate_row (riskDist : RiskDistribution)
    (acc : list obj * list obj * list obj) (tx : obj)
  : M (list obj * list obj * list obj) :=
  let '(highRiskTxs, medRiskTxs, lowRiskTxs) := acc in
  rnd <- random ;;
  let highThreshold := num_div (High riskDist) (totalRisk riskDist) in
  let mediumThreshold :=
    num_add highThreshold (num_div (Medium riskDist) (totalRisk riskDist)) in
  if num_lt (Fin rnd) highThreshold then
    r <- random ;;
    ret (highRiskTxs ++ [set "risk_level" (VStr "High")
                           (set "fraud_probability" (VNum (Fin (0.7 + r * 0.3))) tx)],
         medRiskTxs, lowRiskTxs)
  else if num_lt (Fin rnd) mediumThreshold then
    r <- random ;;
    ret (highRiskTxs,
         medRiskTxs ++ [set "risk_level" (VStr "Medium")
                          (set "fraud_probability" (VNum (Fin (0.4 + r * 0.3))) tx)],
         lowRiskTxs)
  else
    r <- random ;;
    ret (highRiskTxs, medRiskTxs,
         lowRiskTxs ++ [set "risk_level" (VStr "Low")
                          (set "fraud_probability" (VNum (Fin (r * 0.4))) tx)]).

Fixpoint simulate (riskDist : RiskDistribution) (data : list obj)
    (acc : list obj * list obj * list obj) : M (list obj * list obj * list obj) :=
  match data with
  | [] => ret acc
  | tx :: data' => acc' <- simulate_row riskDist acc tx ;; simulate riskDist data' acc'
  end.

(** A row with a fully random probability and risk level. *)
Definition random_risk (tx : obj) : M obj :=
  p <- random ;;
  r1 <- random ;;
  level <- (if Qltb 0.7 r1 then ret "High"
            else r2 <- random ;; ret (if Qltb 0.4 r2 then "Medium" else "Low")) ;;
  ret (set "risk_level" (VStr level) (set "fraud_probability" (VNum (Fin p)) tx)).

(** The part of [processTransactions] that follows a successful
    prediction. *)
Definition reconcile (preprocessedData : list obj) (prediction : Prediction)
  : M Outcome :=
  match prediction with
  | PredNull =>
      throw (TypeError "Cannot read properties of null (reading 'highRiskTransactions')")
  | PredObject high medium low riskDistribution =>
      let m := originalTransactionMap preprocessedData in
      highRiskTxs <- map_bucket high (enhanceTransaction m "High" 0.8) ;;
      medRiskTxs <- map_bucket medium (enhanceTransaction m "Medium" 0.5) ;;
      lowRiskTxs <- map_bucket low (enhanceTransaction m "Low" 0.2) ;;
      '(highRiskTxs, medRiskTxs, lowRiskTxs) <-
        (if (List.length highRiskTxs =? 0)%nat && (List.length medRiskTxs =? 0)%nat
            && (List.length lowRiskTxs =? 0)%nat
         then
           let riskDist :=
             match riskDistribution with Some d => d | None => zero_distribution end in
           simulate riskDist preprocessedData (highRiskTxs, medRiskTxs, lowRiskTxs)
         else ret (highRiskTxs, medRiskTxs, lowRiskTxs)) ;;
      let processedTransactions := highRiskTxs ++ medRiskTxs ++ lowRiskTxs in
      if (List.length processedTransactions =? 0)%nat then
        fallbackTxs <- mapM random_risk preprocessedData ;;
        ret (mkOutcome fallbackTxs None)
      else ret (mkOutcome processedTransactions None)
  end.

(** [generateMockTransactions(count)]: the loop from [i] on, [remaining]
    iterations being left. *)
Definition riskLevels : list string := ["Low"; "Medium"; "High"].
Definition merchants : list string :=
  ["Amazon"; "Walmart"; "Target"; "Best Buy"; "Apple Store";
   "Gas Station"; "Restaurant"; "Hotel"; "Airlines"; "Online Service"].

Definition pick (l : list string) (r : Q) : value :=
  match nth_error l (Z.to_nat (floorZ (r * inject_Z (Z.of_nat (List.length l))))) with
  | Some s => VStr s
  | None => VUndef
  end.

(** [Math.round(r * 1000 * 100) / 100]. *)
Definition round_cents (r : Q) : value :=
  VNum (Fin (inject_Z (floorZ (r * 1000 * 100 + 0.5)) / 100)).

Definition mock_transaction (i : nat) : M obj :=
  r0 <- random ;;
  let riskLevel := pick riskLevels r0 in
  r1 <- random ;;
  let fraudProbability :=
    if strict_eq riskLevel (VStr "High") then r1 * 0.3 + 0.7
    else if strict_eq riskLevel (VStr "Medium") then r1 * 0.3 + 0.4
    else r1 * 0.4 in
  r2 <- random ;;
  r3 <- random ;;
  r4 <- random ;;
  r5 <- random ;;
  r6 <- random ;;
  ret [("id", VStr ("TX-" ++ string_of_Z (1000 + Z.of_nat i)));
       ("cc_num",
        VStr (substring 0 16
                ("4532" ++ string_of_Z
                   (floorZ (1000000000000000 + r2 * 9000000000000000)))));
       ("amount", round_cents r3);
       ("amt", round_cents r4);
       ("date", VStr (today host));
       ("unix_time", num (now host / 1000));
       ("merchant", pick merchants r5);
       ("category_1", pick merchants r6);
       ("risk_level", riskLevel);
       ("fraud_probability", VNum (Fin fraudProbability))].

Definition generateMockTransactions (count : nat) : M (list obj) :=
  mapM mock_transaction (seq 0 count).

(** The fallback of the prediction stage: the uploaded rows with random
    risks, and the error. *)
Definition prediction_fallback (preprocessedData : list obj) (error : exn) : M Outcome :=
  if USE_DEMO_DATA_ON_ERROR then
    processedUploadedData <- mapM random_risk preprocessedData ;;
    ret (mkOutcome processedUploadedData
           (Some (mkApiError
                    ("Apache Spark cluster error: " ++ exn_message error
                     ++ ". Using Dask for local processing with simulated fraud probabilities.")
                    500)))
  else
    ret (mkOutcome []
           (Some (mkApiError
                    ("Apache Spark backend service error: " ++ exn_message error
                     ++ ". Please try again or use the demo data option.")
                    500))).

Definition csv_failure (csvError : exn) : M Outcome :=
  ret (mkOutcome []
         (Some (mkApiError
                  ("Invalid CSV format for Spark/Dask processing: " ++ exn_message csvError)
                  400))).

Definition general_failure (error : exn) : M Outcome :=
  if USE_DEMO_DATA_ON_ERROR then
    demoTransactions <- generateMockTransactions 50 ;;
    ret (mkOutcome demoTransactions
           (Some (mkApiError
                    ("Error with Spark cluster: " ++ exn_message error
                     ++ ". Using Dask-powered demo data instead.")
                    500)))
  else
    ret (mkOutcome []
           (Some (mkApiError
                    ("Error in Spark/Dask distributed processing pipeline: "
                     ++ exn_message error
                     ++ ". Please try again or use the demo data option.")
                    500))).

(** [processTransactions(file)]: the three nested [try] blocks.  The
    preview parse of the re-serialized file only logs and is left out. *)
Definition processTransactions (file : Upload) : M Outcome :=
  try_catch
    (try_catch
       (preprocessedData <- processCSV host file ;;
        let csvFields := keys (hd [] preprocessedData) in
        text <- lift (unparse host csvFields preprocessedData) ;;
        let preprocessedFile := mkFile (upload_name file) text in
        try_catch
          (prediction <- lift (predictTransaction host preprocessedFile) ;;
           reconcile preprocessedData prediction)
          (prediction_fallback preprocessedData))
       csv_failure)
    general_failure.

(** ** Aggregation *)

(** The property key a value is converted to. *)
Definition to_key (v : value) : string := toStr host v.

(** [riskCounts[k]++]: an absent property reads as undefined (or as what
    [Object.prototype] holds under that name), whose increment is NaN and
    is stored as a new property; [__proto__] alone is an accessor, which
    ignores the number assigned to it. *)
Definition increment (k : string) (riskCounts : obj) : obj :=
  if String.eqb k "__proto__" then riskCounts
  else
    let old :=
      match getv k riskCounts with
      | VNum n => n
      | _ => NaN
      end in
    set k (VNum (num_add old (Fin 1))) riskCounts.

Record Entry : Type := mkEntry { name : string; value_of : value }.

Definition calculateRiskDistribution (transactions : list obj) : list Entry :=
  let riskCounts := [("Low", num 0); ("Medium", num 0); ("High", num 0)] in
  let riskCounts :=
    fold_left (fun rc tx => increment (to_key (getv "risk_level" tx)) rc)
      transactions riskCounts in
  map (fun kv => mkEntry (fst kv) (snd kv)) riskCounts.

End Reconciler.

(** ** The views of the result *)

(** [transactions.map((tx, idx) => ({id: idx + 1, value: tx.fraud_probability}))],
    the callback being applied from index [idx] on. *)
Fixpoint trend_from (idx : nat) (transactions : list obj) : list obj :=
  match transactions with
  | [] => []
  | tx :: transactions' =>
      [("id", num (Z.of_nat idx + 1)); ("value", getv "fraud_probability" tx)]
      :: trend_from (S idx) transactions'
  end.

Definition createProbabilityTrendData (transactions : list obj) : list obj :=
  trend_from 0 transactions.

Definition num_sub (a b : number) : number :=
  match a, b with
  | Fin x, Fin y => Fin (x - y)
  | _, _ => NaN
  end.

(** [arr.slice(0, limit)] for an integer [limit]: a negative one counts
    from the end. *)
Definition slice_to {A} (limit : Z) (l : list A) : list A :=
  if (0 <=? limit)%Z then firstn (Z.to_nat limit) l
  else firstn (Z.to_nat (Z.of_nat (List.length l) + limit)) l.

Section Views.

(** [Number(s)] for a string, which the comparator applies when a
    probability is not a number. *)
Variable stringToNumber : string -> number.

(** [ToNumber]. *)
Definition to_number (v : value) : number :=
  match v with
  | VUndef => NaN
  | VNull => Fin 0
  | VBool true => Fin 1
  | VBool false => Fin 0
  | VNum n => n
  | VStr s => stringToNumber s
  end.

(** The comparator [(a, b) => b.fraud_probability - a.fraud_probability]. *)
Definition by_probability_desc (a b : obj) : number :=
  num_sub (to_number (getv "fraud_probability" b))
          (to_number (getv "fraud_probability" a)).

(** [Array.prototype.sort] is stable: an element goes before the first
    element the comparator puts strictly after it, and after all the
    others.  (For a comparator that is not a consistent order, as with NaN
    results, the order is the engine's choice among the permutations.) *)
Fixpoint insert_sorted (cmp : obj -> obj -> number) (x : obj) (sorted : list obj)
  : list obj :=
  match sorted with
  | [] => [x]
  | y :: sorted' =>
      if num_lt (Fin 0) (cmp y x) then x :: y :: sorted'
      else y :: insert_sorted cmp x sorted'
  end.

Definition sort (cmp : obj -> obj -> number) (l : list obj) : list obj :=
  fold_left (fun sorted x => insert_sorted cmp x sorted) l [].

(** [getTopTransactionsByRiskLevel(transactions, riskLevel, limit)]; the
    default [limit] is 5. *)
Definition getTopTransactionsByRiskLevel (transactions : list obj)
    (riskLevel : string) (limit : option Z) : list obj :=
  let limit := match limit with Some n => n | None => 5%Z end in
  slice_to limit
    (sort by_probability_desc
       (filter (fun tx => strict_eq (getv "risk_level" tx) (VStr riskLevel))
          transactions)).

End Views.

(** * The vocabulary of the properties *)

(** ** Flags and written properties *)

(** [f] leaves every property outside [ks] as it was. *)
Definition preserves (ks : list string) (f : obj -> obj) : Prop :=
  forall k p, string_mem k ks = false -> getv k (f p) = getv k p.

Definition date_keys : list string :=
  ["date"; "trans_date_trans_time"; "transaction_hour"; "year"; "month"; "day";
   "hour"; "unix_time"].

(** Within the group [ks], the flag [hot] is 1 and every other flag is 0. *)
Definition one_hot (ks : list string) (hot : string) (p : obj) : Prop :=
  In hot ks /\
  forall k, In k ks -> getv k p = if String.eqb k hot then num 1 else num 0.

(** Every flag of the group is 0. *)
Definition all_zero (ks : list string) (p : obj) : Prop :=
  forall k, In k ks -> getv k p = num 0.

(** How many flags of the group hold the number [b]. *)
Definition count_flags (b : Z) (ks : list string) (p : obj) : nat :=
  List.length (filter (fun k => strict_eq (getv k p) (num b)) ks).

(** ** Parts of the pipeline *)

Section Vocabulary.

Variable host : Host.

(** The row before and after the date step. *)
Definition before_date (row : obj) (id : value) : obj :=
  let p := drop_columns row row in
  let p := set "id" id p in
  let p := set "trans_num" (getv "id" p) p in
  fix_amount host row (fix_cc_num host row p).

Definition after_date (row p : obj) : obj :=
  fix_age row (fix_state host row (fix_gender host row (fix_category host row p))).

(** A value on which the date step does not throw. *)
Definition string_or_falsy (v : value) : bool :=
  match v with
  | VStr _ => true
  | _ => negb (truthy v)
  end.

(** Properties written before the state step. *)
Definition early_keys : list string :=
  ["id"; "trans_num"; "cc_num"; "amt"; "amount"] ++ date_keys ++ category_keys
  ++ ["gender_M"].

(** The state code read from the row, upper-cased. *)
Definition state_code (row : obj) : string :=
  toUpperCase (toStr host (getv "state" row)).

(** The category flag the row selects. *)
Definition category_hot (row : obj) : string :=
  if truthy (getv "category" row)
  then category_key (category_of (toLowerCase (toStr host (getv "category" row))))
  else "category_1".

(** The amount written for a truthy input amount. *)
Definition normalized_amount (v : value) : number :=
  let amt := parseFloat (filter_string digit_or_dot (toStr host v)) in
  if isNaN amt then Fin 0 else amt.

Definition valid_risk_level (tx : obj) : Prop :=
  getv "risk_level" tx = VStr "Low" \/
  getv "risk_level" tx = VStr "Medium" \/
  getv "risk_level" tx = VStr "High".

(** The stages that follow a successful parse and serialization: the
    prediction and the merge. *)
Definition prediction_stage (file : Upload) (data : list obj) (text : string)
  : M Outcome :=
  prediction <- lift (predictTransaction host (mkFile (upload_name file) text)) ;;
  reconcile host data prediction.

Definition csv_error (e : exn) : Outcome :=
  mkOutcome []
    (Some (mkApiError
             ("Invalid CSV format for Spark/Dask processing: " ++ exn_message e) 400)).

End Vocabulary.

(** ** Examples, and the words of the specification *)

(** A host in which no date parses, the serializer returns one line and
    the network is down; it prints whole numbers, and no example applies
    it to any other number. *)
Definition example_host : Host :=
  mkHost
    (fun n => match n with Fin q => string_of_Z (floorZ q) | NaN => "NaN" end)
    (fun _ => None)
    "2025-05-01"
    1746057600000
    (fun _ _ => Ok "id")
    (fun _ => FetchRejected (TypeError "Failed to fetch")).

(** Every draw is one half. *)
Definition example_rng : rng := fun _ => 1 # 2.

(** The normalized row of an example, the empty object if it throws. *)
Definition normalized (row : obj) : obj :=
  match fst (normalizeRow example_host row example_rng) with
  | Ok p => p
  | Throw _ => []
  end.

(** The state of the row is absent (falsy) or a recognized code. *)
Definition state_default_or_valid (host : Host) (row : obj) : bool :=
  negb (truthy (getv "state" row)) || string_mem (state_code host row) states.

(** The keyword groups as the specification lists them, in order, with the
    number of the flag each one selects. *)
Definition keyword_groups : list (list string * nat) :=
  [(["grocery"], 1%nat); (["gas"; "transport"], 2%nat); (["entertain"], 3%nat);
   (["misc"], 4%nat); (["health"], 5%nat); (["food"; "dining"], 6%nat);
   (["shop"], 7%nat); (["personal"], 8%nat); (["home"], 9%nat); (["kids"], 10%nat);
   (["travel"], 11%nat); (["service"], 12%nat)].

(** The flag number of the first group one of whose keywords occurs in the
    lower-cased text, 1 when no group matches. *)
Definition first_matching_group (text : string) : nat :=
  match find (fun grp => existsb (includes (toLowerCase text)) (fst grp)) keyword_groups with
  | Some grp => snd grp
  | None => 1%nat
  end.

(** The largest chunk among the events. *)
Fixpoint max_chunk (events : list ParseEvent) : nat :=
  match events with
  | [] => 0%nat
  | Chunk rows :: events' => Nat.max (List.length rows) (max_chunk events')
  | ParseError _ :: events' => max_chunk events'
  end.

(** The elements a bucket contributes. *)
Definition bucket_items (b : Bucket) : list (option obj) :=
  match b with
  | BucketArray txs => txs
  | _ => []
  end.

(** [r] is the merge of the API transaction [otx] in the bucket of
    [riskLevel]: the level is the bucket's and the probability is the API's
    when truthy, the bucket default otherwise. *)
Definition merged (riskLevel : string) (defaultProb : Q) (otx : option obj) (r : obj)
  : Prop :=
  exists tx,
    otx = Some tx /\
    getv "risk_level" r = VStr riskLevel /\
    getv "fraud_probability" r =
      if truthy (getv "fraud_probability" tx) then getv "fraud_probability" tx
      else VNum (Fin defaultProb).

(** The level the thresholds of a distribution give to a draw. *)
Definition classify (riskDist : RiskDistribution) (rnd : Q) : string :=
  let highThreshold := num_div (High riskDist) (totalRisk riskDist) in
  let mediumThreshold :=
    num_add highThreshold (num_div (Medium riskDist) (totalRisk riskDist)) in
  if num_lt (Fin rnd) highThreshold then "High"
  else if num_lt (Fin rnd) mediumThreshold then "Medium"
  else "Low".

(** [r] is the row [tx] with a simulated probability and the level. *)
Definition simulated (level : string) (tx r : obj) : Prop :=
  (exists p, r = set "risk_level" (VStr level) (set "fraud_probability" (VNum (Fin p)) tx))
  /\ getv "risk_level" r = VStr level.

Definition empty_bucket (b : Bucket) : Prop :=
  b = BucketMissing \/ b = BucketArray [].

Definition all_high : RiskDistribution := mkRiskDistribution (Fin 100) (Fin 0) (Fin 0).

(** [r] is the row [tx] with some probability and one of the three
    levels. *)
Definition randomized (tx r : obj) : Prop :=
  exists p level,
    In level ["High"; "Medium"; "Low"] /\
    r = set "risk_level" (VStr level) (set "fraud_probability" (VNum (Fin p)) tx).

(** The two inner [try] blocks of [processTransactions]. *)
Definition guarded_pipeline (host : Host) (file : Upload) : M Outcome :=
  try_catch
    (preprocessedData <- processCSV host file ;;
     let csvFields := keys (hd [] preprocessedData) in
     text <- lift (unparse host csvFields preprocessedData) ;;
     let preprocessedFile := mkFile (upload_name file) text in
     try_catch
       (prediction <- lift (predictTransaction host preprocessedFile) ;;
        reconcile host preprocessedData prediction)
       (prediction_fallback preprocessedData))
    csv_failure.

(** ** Words for the further properties *)

(** All the rows of the chunks of a file, in order. *)
Fixpoint chunk_rows (events : list ParseEvent) : list obj :=
  match events with
  | [] => []
  | Chunk rows :: events' => rows ++ chunk_rows events'
  | ParseError _ :: events' => chunk_rows events'
  end.

(** No event of the list is a read error. *)
Definition no_error (events : list ParseEvent) : Prop :=
  Forall (fun ev => match ev with Chunk _ => True | ParseError _ => False end) events.

(** [f] leaves every property outside [ks] as it was, absent ones
    included. *)
Definition keeps (ks : list string) (f : obj -> obj) : Prop :=
  forall k p, string_mem k ks = false -> get k (f p) = get k p.

(** Every property the normalizer may write. *)
Definition written_keys : list string := early_keys ++ state_keys ++ ["age"].

(** Every character of the string satisfies the test. *)
Fixpoint string_forall (p : ascii -> bool) (s : string) : bool :=
  match s with
  | EmptyString => true
  | String c s' => p c && string_forall p s'
  end.

(** A host whose server answers with one High-risk transaction. *)
Definition example_prediction : Prediction :=
  PredObject
    (BucketArray [Some [("id", VStr "t1"); ("fraud_probability", VNum (Fin 0.9))]])
    BucketMissing BucketMissing None.

Definition online_host : Host :=
  mkHost (numberToString example_host) (parseDate example_host) (today example_host)
    (now example_host) (unparse example_host)
    (fun _ => FetchResponded true 200 "OK" (Ok "") (Ok example_prediction)).

(** A host whose request is aborted by the timeout. *)
Definition timeout_host : Host :=
  mkHost (numberToString example_host) (parseDate example_host) (today example_host)
    (now example_host) (unparse example_host)
    (fun _ => FetchRejected (mkExn "AbortError" "The user aborted a request.")).

(** The probability the simulation derives from a draw, by level. *)
Definition simulated_probability (level : string) (d : Q) : Q :=
  if String.eqb level "High" then 0.7 + d * 0.3
  else if String.eqb level "Medium" then 0.4 + d * 0.3
  else d * 0.4.

(** [r] is the row [tx] classified at [level] with the probability derived
    from a draw that satisfies [Pd]. *)
Definition simulated_as (Pd : Q -> Prop) (level : string) (tx r : obj) : Prop :=
  exists d,
    Pd d /\
    r = set "risk_level" (VStr level)
          (set "fraud_probability" (VNum (Fin (simulated_probability level d))) tx).

(** [r] is [tx] classified at one of the three levels. *)
Definition simulated_row (Pd : Q -> Prop) (tx r : obj) : Prop :=
  exists level, In level ["High"; "Medium"; "Low"] /\ simulated_as Pd level tx r.

(** [r] is [tx] with one of the three levels and some finite probability
    added, nothing else changed. *)
Definition classified_row (tx r : obj) : Prop :=
  exists level, In level ["High"; "Medium"; "Low"] /\ simulated level tx r.

(** The row has the level, and a probability from [lo] to [hi], both ends
    included.  Numbers are exact rationals here, where a draw below 1 keeps
    the probability below [hi]; the source computes in doubles and rounds
    after each operation, which keeps the order of the results but not the
    strictness: for the largest draw below 1, [0.4 + r * 0.3] is the double
    0.7.  The bands are therefore stated with their upper end. *)
Definition level_in_band (level : string) (lo hi : Q) (r : obj) : Prop :=
  getv "risk_level" r = VStr level /\
  exists p, getv "fraud_probability" r = VNum (Fin p) /\ lo <= p /\ p <= hi.

Definition unit_draw (d : Q) : Prop := 0 <= d /\ d < 1.

(** The key under which the index of the normalized rows files a row, if
    any. *)
Definition row_key (tx : obj) : option value :=
  if truthy (getv "id" tx) then Some (getv "id" tx)
  else if truthy (getv "trans_num" tx) then Some (getv "trans_num" tx)
  else None.

Definition filed_under (k : value) (tx : obj) : bool :=
  match row_key tx with
  | Some k' => same_value_zero k k'
  | None => false
  end.

(** The fields that [enhanceTransaction] computes itself. *)
Definition merge_keys : list string :=
  ["id"; "merchant"; "amount"; "date"; "fraud_probability"; "risk_level"].

(** The callback of the [forEach] of [calculateRiskDistribution]. *)
Definition count_step (host : Host) (rc tx : obj) : obj :=
  increment (to_key host (getv "risk_level" tx)) rc.

(** Both rows have a finite probability and [a]'s is at least [b]'s. *)
Definition prob_ge (a b : obj) : Prop :=
  exists qa qb,
    getv "fraud_probability" a = VNum (Fin qa) /\
    getv "fraud_probability" b = VNum (Fin qb) /\ qb <= qa.

Definition has_finite_probability (tx : obj) : Prop :=
  exists q, getv "fraud_probability" tx = VNum (Fin q).

(** The test of the [filter] of [getTopTransactionsByRiskLevel]. *)
Definition at_level (riskLevel : string) (tx : obj) : bool :=
  strict_eq (getv "risk_level" tx) (VStr riskLevel).

(** What a generated demo transaction number [i] holds. *)
Definition mock_ok (i : nat) (tx : obj) : Prop :=
  getv "id" tx = VStr (String.append "TX-" (string_of_Z (1000 + Z.of_nat i))) /\
  (level_in_band "High" 0.7 1 tx \/ level_in_band "Medium" 0.4 0.7 tx
   \/ level_in_band "Low" 0 0.4 tx) /\
  (exists s, getv "merchant" tx = VStr s /\ In s merchants) /\
  (exists s, getv "category_1" tx = VStr s /\ In s merchants) /\
  (exists q, getv "amount" tx = VNum (Fin q) /\ 0 <= q /\ q <= 1000).

(** * Properties *)

Ltac in_list := simpl; tauto.

(** ** Objects: reading after writing *)

Lemma get_set (k k' : string) (v : value) (o : obj) :
  get k (set k' v o) = if String.eqb k k' then Some v else get k o.
Proof.
  induction o as [|[k0 v0] o IH]; simpl.
  - destruct (String.eqb k k'); reflexivity.
  - destruct (String.eqb k' k0) eqn:E0; simpl.
    + apply String.eqb_eq in E0; subst k0.
      destruct (String.eqb k k'); reflexivity.
    + rewrite IH. destruct (String.eqb k k0) eqn:E1; [|reflexivity].
      apply String.eqb_eq in E1; subst k0.
      destruct (String.eqb k k') eqn:E2; [|reflexivity].
      apply String.eqb_eq in E2; subst k'.
      rewrite String.eqb_refl in E0; discriminate.
Qed.

Lemma getv_set (k k' : string) (v : value) (o : obj) :
  getv k (set k' v o) = if String.eqb k k' then v else getv k o.
Proof.
  unfold getv; rewrite get_set; destruct (String.eqb k k'); reflexivity.
Qed.

Lemma getv_set_eq (k : string) (v : value) (o : obj) :
  getv k (set k v o) = v.
Proof. rewrite getv_set, String.eqb_refl; reflexivity. Qed.

Lemma getv_set_ne (k k' : string) (v : value) (o : obj) :
  k <> k' -> getv k (set k' v o) = getv k o.
Proof.
  intros H; rewrite getv_set.
  destruct (String.eqb k k') eqn:E; [apply String.eqb_eq in E; contradiction|reflexivity].
Qed.

Lemma get_del (k k' : string) (o : obj) :
  get k (del k' o) = if String.eqb k k' then None else get k o.
Proof.
  induction o as [|[k0 v0] o IH]; simpl.
  - destruct (String.eqb k k'); reflexivity.
  - destruct (String.eqb k' k0) eqn:E0; simpl.
    + apply String.eqb_eq in E0; subst k0. rewrite IH.
      destruct (String.eqb k k'); reflexivity.
    + rewrite IH. destruct (String.eqb k k0) eqn:E1; [|reflexivity].
      apply String.eqb_eq in E1; subst k0.
      rewrite String.eqb_sym, E0; reflexivity.
Qed.

Lemma string_mem_In (s : string) (l : list string) :
  string_mem s l = true <-> In s l.
Proof.
  induction l as [|x l IH]; simpl.
  - split; [discriminate|tauto].
  - rewrite Bool.orb_true_iff, IH, String.eqb_eq. split; intros [H|H]; auto.
Qed.

Lemma string_mem_not_In (s : string) (l : list string) :
  string_mem s l = false -> ~ In s l.
Proof.
  intros H HIn. apply string_mem_In in HIn. congruence.
Qed.

Lemma getv_set_all (k : string) (ks : list string) (v : value) (o : obj) :
  getv k (set_all ks v o) = if string_mem k ks then v else getv k o.
Proof.
  unfold set_all. revert o.
  induction ks as [|k0 ks IH]; intros o; simpl; [reflexivity|].
  rewrite IH, getv_set.
  destruct (string_mem k ks); simpl.
  - rewrite Bool.orb_true_r; reflexivity.
  - rewrite Bool.orb_false_r; reflexivity.
Qed.

(** ** The monad *)

Lemma bind_ret_l {A B} (a : A) (k : A -> M B) (g : rng) :
  bind (ret a) k g = k a g.
Proof. reflexivity. Qed.

Lemma bind_assoc {A B C} (m : M A) (k : A -> M B) (h : B -> M C) (g : rng) :
  bind (bind m k) h g = bind m (fun a => bind (k a) h) g.
Proof.
  unfold bind. destruct (m g) as [[a|e] g']; reflexivity.
Qed.

Lemma bind_ext {A B} (m : M A) (k k' : A -> M B) (g : rng) :
  (forall a g', k a g' = k' a g') -> bind m k g = bind m k' g.
Proof.
  intros H. unfold bind. destruct (m g) as [[a|e] g']; [apply H|reflexivity].
Qed.

Lemma mapM_app {A B} (f : A -> M B) (xs ys : list A) (g : rng) :
  mapM f (xs ++ ys) g =
  bind (mapM f xs) (fun l => bind (mapM f ys) (fun r => ret (l ++ r))) g.
Proof.
  revert g. induction xs as [|x xs IH]; intros g; simpl.
  - rewrite bind_ret_l. unfold bind.
    destruct (mapM f ys g) as [[r|e] g']; reflexivity.
  - unfold bind, ret in *. destruct (f x g) as [[y|e] g1]; [|reflexivity].
    rewrite IH.
    destruct (mapM f xs g1) as [[l|e] g2]; [|reflexivity].
    destruct (mapM f ys g2) as [[r|e] g3]; reflexivity.
Qed.

Lemma mapM_length {A B} (f : A -> M B) (xs : list A) (g g' : rng) (ys : list B) :
  mapM f xs g = (Ok ys, g') -> List.length ys = List.length xs.
Proof.
  revert g ys. induction xs as [|x xs IH]; intros g ys; simpl.
  - unfold ret. intros H; inversion H; reflexivity.
  - unfold bind. destruct (f x g) as [[y|e] g1]; [|discriminate].
    destruct (mapM f xs g1) as [[l|e] g2] eqn:E; [|discriminate].
    unfold ret. intros H; inversion H; subst. simpl. f_equal. eapply IH; eauto.
Qed.

(** ** Which properties a step may write *)

Lemma preserves_id (ks : list string) : preserves ks (fun p => p).
Proof. intros k p _; reflexivity. Qed.

Lemma preserves_set (ks : list string) (k' : string) (v : obj -> value) :
  In k' ks -> preserves ks (fun p => set k' (v p) p).
Proof.
  intros HIn k p Hk. apply getv_set_ne.
  intros ->. apply string_mem_not_In in Hk. contradiction.
Qed.

Lemma preserves_comp (ks : list string) (f h : obj -> obj) :
  preserves ks f -> preserves ks h -> preserves ks (fun p => h (f p)).
Proof.
  intros Hf Hh k p Hk. rewrite Hh, Hf by assumption. reflexivity.
Qed.

Lemma preserves_if (ks : list string) (b : obj -> bool) (f h : obj -> obj) :
  preserves ks f -> preserves ks h -> preserves ks (fun p => if b p then f p else h p).
Proof.
  intros Hf Hh k p Hk. destruct (b p); [apply Hf|apply Hh]; assumption.
Qed.

Lemma preserves_set_all (ks : list string) (v : value) :
  preserves ks (set_all ks v).
Proof.
  intros k p Hk. rewrite getv_set_all, Hk. reflexivity.
Qed.

Lemma preserves_mono (ks ks' : list string) (f : obj -> obj) :
  incl ks ks' -> preserves ks f -> preserves ks' f.
Proof.
  intros Hincl Hf k p Hk. apply Hf.
  destruct (string_mem k ks) eqn:E; [|reflexivity].
  apply string_mem_In in E. apply Hincl in E.
  apply string_mem_not_In in Hk. contradiction.
Qed.

Lemma get_drop_columns (row p : obj) (k : string) :
  dropped_key k = false -> get k (drop_columns row p) = get k p.
Proof.
  intros Hk. unfold drop_columns. generalize (keys row) as ks. intros ks; revert p.
  induction ks as [|key ks IH]; intros p; simpl; [reflexivity|].
  rewrite IH. destruct (dropped_key key) eqn:E; [|reflexivity].
  rewrite get_del. destruct (String.eqb k key) eqn:E1; [|reflexivity].
  apply String.eqb_eq in E1; subst key. congruence.
Qed.

Lemma getv_drop_columns (row p : obj) (k : string) :
  dropped_key k = false -> getv k (drop_columns row p) = getv k p.
Proof.
  intros Hk. unfold getv. rewrite get_drop_columns by assumption. reflexivity.
Qed.

Lemma category_of_range (category : string) :
  In (category_of category) (seq 1 12).
Proof.
  unfold category_of.
  repeat match goal with
         | |- context [if ?b then _ else _] => destruct b
         end; simpl; tauto.
Qed.

Lemma category_key_In (category : string) :
  In (category_key (category_of category)) category_keys.
Proof.
  unfold category_keys. apply in_map.
  pose proof (category_of_range category) as H.
  change (seq 1 13) with (seq 1 12 ++ [13%nat]). apply in_or_app; left; exact H.
Qed.

Section Frames.

Variable host : Host.
Variable row : obj.

Lemma fix_cc_num_preserves : preserves ["cc_num"] (fix_cc_num host row).
Proof.
  unfold fix_cc_num. destruct (truthy (getv "cc_num" row)).
  - apply (preserves_set _ _ (fun _ => _)). in_list.
  - apply preserves_id.
Qed.

Lemma fix_amount_preserves : preserves ["amt"; "amount"] (fix_amount host row).
Proof.
  unfold fix_amount. destruct (truthy (getv "amt" row)).
  - apply (preserves_comp _ (fun p => set "amt" _ p) (fun p => set "amount" (getv "amt" p) p)).
    + apply (preserves_set _ _ (fun _ => _)). in_list.
    + apply (preserves_set _ _ (fun p => getv "amt" p)). in_list.
  - apply preserves_id.
Qed.

Lemma set_date_fields_preserves (d : DateParts) :
  preserves date_keys (set_date_fields d).
Proof.
  intros k p Hk. unfold set_date_fields.
  assert (Hne : forall k', In k' date_keys -> k <> k').
  { intros k' HIn ->. apply string_mem_not_In in Hk. contradiction. }
  match goal with
  | |- context [if ?b then _ else _] => destruct b
  end; repeat rewrite getv_set_ne by (apply Hne; in_list); reflexivity.
Qed.

Lemma fix_date_preserves (p p' : obj) (g g' : rng) (k : string) :
  fix_date host row p g = (Ok p', g') ->
  string_mem k date_keys = false -> getv k p' = getv k p.
Proof.
  unfold fix_date. intros H Hk.
  assert (Hne : forall k', In k' date_keys -> k <> k').
  { intros k' HIn ->. apply string_mem_not_In in Hk. contradiction. }
  destruct (truthy (getv "trans_date_trans_time" row)).
  - destruct (getv "trans_date_trans_time" row); try discriminate.
    unfold ret in H. inversion H; subst; clear H.
    destruct (parseDate host s).
    + rewrite set_date_fields_preserves by assumption.
      repeat rewrite getv_set_ne by (apply Hne; in_list). reflexivity.
    + repeat rewrite getv_set_ne by (apply Hne; in_list). reflexivity.
  - unfold ret in H. inversion H; subst. reflexivity.
Qed.

Lemma fix_category_preserves : preserves category_keys (fix_category host row).
Proof.
  unfold fix_category. destruct (truthy (getv "category" row)).
  - apply (preserves_comp _ (set_all category_keys (num 0)) (fun p => set _ (num 1) p)).
    + apply preserves_set_all.
    + apply (preserves_set _ _ (fun _ => _)). apply category_key_In.
  - apply (preserves_comp _ (set_all category_keys (num 0)) (fun p => set _ (num 1) p)).
    + apply preserves_set_all.
    + apply (preserves_set _ _ (fun _ => _)). in_list.
Qed.

Lemma fix_gender_preserves : preserves ["gender_M"] (fix_gender host row).
Proof.
  unfold fix_gender. destruct (truthy (getv "gender" row)).
  - apply (preserves_set _ _ (fun _ => _)). in_list.
  - apply (preserves_set _ _ (fun _ => _)). in_list.
Qed.

Lemma set_state_flag_preserves (v : value) :
  preserves state_keys (set_state_flag host v).
Proof.
  unfold set_state_flag.
  destruct (string_mem (toUpperCase (toStr host v)) states) eqn:E.
  - apply (preserves_set _ _ (fun _ => _)).
    unfold state_keys. apply in_map. apply string_mem_In. exact E.
  - apply preserves_id.
Qed.

Lemma fix_state_preserves : preserves state_keys (fix_state host row).
Proof.
  intros k p Hk. unfold fix_state.
  destruct (truthy (getv "state" row)).
  - rewrite set_state_flag_preserves by assumption. apply preserves_set_all; assumption.
  - destruct (truthy (getv "state" (set_all state_keys (num 0) p))).
    + rewrite set_state_flag_preserves by assumption. apply preserves_set_all; assumption.
    + rewrite getv_set_ne.
      * apply preserves_set_all; assumption.
      * intros ->. vm_compute in Hk. discriminate.
Qed.

Lemma fix_age_preserves : preserves ["age"] (fix_age row).
Proof.
  unfold fix_age. destruct (negb (truthy (getv "age" row))).
  - apply (preserves_set _ _ (fun _ => _)). in_list.
  - apply preserves_id.
Qed.

End Frames.

(** ** One-hot groups of flags *)

Lemma one_hot_set (ks : list string) (hot : string) (p : obj) :
  In hot ks -> one_hot ks hot (set hot (num 1) (set_all ks (num 0) p)).
Proof.
  intros HIn; split; [exact HIn|]. intros k Hk.
  rewrite getv_set, getv_set_all.
  apply string_mem_In in Hk. rewrite Hk. reflexivity.
Qed.

Lemma all_zero_set_all (ks : list string) (p : obj) :
  all_zero ks (set_all ks (num 0) p).
Proof.
  intros k Hk. rewrite getv_set_all.
  apply string_mem_In in Hk. rewrite Hk. reflexivity.
Qed.

Lemma one_hot_ext (ks : list string) (hot : string) (p p' : obj) :
  (forall k, In k ks -> getv k p' = getv k p) -> one_hot ks hot p -> one_hot ks hot p'.
Proof.
  intros Heq [HIn H]; split; [exact HIn|].
  intros k Hk. rewrite Heq by assumption. apply H; assumption.
Qed.

Lemma all_zero_ext (ks : list string) (p p' : obj) :
  (forall k, In k ks -> getv k p' = getv k p) -> all_zero ks p -> all_zero ks p'.
Proof.
  intros Heq H k Hk. rewrite Heq by assumption. apply H; assumption.
Qed.

Lemma count_eqb_NoDup (ks : list string) (hot : string) :
  NoDup ks -> In hot ks ->
  List.length (filter (fun k => String.eqb k hot) ks) = 1%nat /\
  List.length (filter (fun k => negb (String.eqb k hot)) ks) = (List.length ks - 1)%nat.
Proof.
  induction 1 as [|x ks Hx Hnd IH]; intros HIn; [destruct HIn|].
  assert (Hnone : forall l, ~ In hot l ->
            filter (fun k => String.eqb k hot) l = [] /\
            filter (fun k => negb (String.eqb k hot)) l = l).
  { induction l as [|y l IHl]; intros Hn; simpl; [split; reflexivity|].
    destruct (String.eqb y hot) eqn:E.
    - apply String.eqb_eq in E; subst y. exfalso; apply Hn; left; reflexivity.
    - simpl. destruct IHl as [-> ->]; [intros H'; apply Hn; right; exact H'|].
      split; reflexivity. }
  simpl. destruct (String.eqb x hot) eqn:E; simpl.
  - apply String.eqb_eq in E; subst x.
    destruct (Hnone ks Hx) as [-> ->]. simpl. split; [reflexivity|lia].
  - destruct HIn as [->|HIn]; [rewrite String.eqb_refl in E; discriminate|].
    destruct (IH HIn) as [-> ->]. split; [reflexivity|].
    destruct ks; [destruct HIn|simpl; lia].
Qed.

Lemma one_hot_count (ks : list string) (hot : string) (p : obj) :
  NoDup ks -> one_hot ks hot p ->
  count_flags 1 ks p = 1%nat /\ count_flags 0 ks p = (List.length ks - 1)%nat.
Proof.
  intros Hnd [HIn H]. destruct (count_eqb_NoDup ks hot Hnd HIn) as [H1 H0].
  unfold count_flags. split.
  - rewrite <- H1. f_equal. apply filter_ext_in. intros k Hk.
    rewrite (H k Hk). destruct (String.eqb k hot); reflexivity.
  - rewrite <- H0. f_equal. apply filter_ext_in. intros k Hk.
    rewrite (H k Hk). destruct (String.eqb k hot); reflexivity.
Qed.

Lemma all_zero_count (ks : list string) (p : obj) :
  all_zero ks p ->
  count_flags 1 ks p = 0%nat /\ count_flags 0 ks p = List.length ks.
Proof.
  intros H. unfold count_flags. split.
  - rewrite (filter_ext_in _ (fun _ => false)).
    + clear H. induction ks as [|k ks IH]; simpl; [reflexivity|exact IH].
    + intros k Hk. rewrite (H k Hk). reflexivity.
  - rewrite (filter_ext_in _ (fun _ => true)).
    + clear H. induction ks as [|k ks IH]; simpl; [reflexivity|f_equal; exact IH].
    + intros k Hk. rewrite (H k Hk). reflexivity.
Qed.

Lemma string_NoDup (l : list string) :
  (fix nodupb (l : list string) : bool :=
     match l with
     | [] => true
     | x :: l' => negb (string_mem x l') && nodupb l'
     end) l = true -> NoDup l.
Proof.
  induction l as [|x l IH]; intros H; [constructor|].
  apply Bool.andb_true_iff in H. destruct H as [Hx Hl].
  constructor; [|apply IH; exact Hl].
  apply string_mem_not_In. destruct (string_mem x l); [discriminate|reflexivity].
Qed.

Lemma category_keys_NoDup : NoDup category_keys.
Proof. apply string_NoDup. vm_compute. reflexivity. Qed.

Lemma state_keys_NoDup : NoDup state_keys.
Proof. apply string_NoDup. vm_compute. reflexivity. Qed.

(** The groups of flags and the other written properties do not overlap. *)
Lemma mem_disjoint (ks ks' : list string) :
  forallb (fun k => negb (string_mem k ks')) ks = true ->
  forall k, In k ks -> string_mem k ks' = false.
Proof.
  intros H k Hk. rewrite forallb_forall in H. specialize (H k Hk).
  destruct (string_mem k ks'); [discriminate|reflexivity].
Qed.

(** ** The shape of [normalizeRow] *)

Section Normalizer.

Variable host : Host.

Lemma choose_id_ok (row : obj) (g : rng) :
  exists id g', choose_id row g = (Ok id, g').
Proof.
  unfold choose_id.
  destruct (truthy (getv "trans_num" row)); [eexists; eexists; reflexivity|].
  destruct (truthy (getv "id" row)); eexists; eexists; reflexivity.
Qed.

Lemma fix_date_ok (row p : obj) (g : rng) :
  string_or_falsy (getv "trans_date_trans_time" row) = true ->
  exists p', fix_date host row p g = (Ok p', g).
Proof.
  unfold fix_date, string_or_falsy.
  destruct (getv "trans_date_trans_time" row) as [| |b|n|s]; simpl; intros H;
    try (eexists; reflexivity).
  - destruct b; [discriminate|eexists; reflexivity].
  - destruct n as [q|]; [|eexists; reflexivity].
    destruct (negb (Qeq_bool q 0)); [discriminate|eexists; reflexivity].
  - destruct (negb (s =? "")%string); eexists; reflexivity.
Qed.

Lemma fix_date_throws (row p : obj) (g : rng) :
  string_or_falsy (getv "trans_date_trans_time" row) = false ->
  fix_date host row p g =
  (Throw (TypeError "row.trans_date_trans_time.split is not a function"), g).
Proof.
  unfold fix_date, string_or_falsy.
  destruct (getv "trans_date_trans_time" row) as [| |b|n|s]; simpl; try discriminate.
  - destruct b; [reflexivity|discriminate].
  - destruct n as [q|]; [|discriminate].
    destruct (negb (Qeq_bool q 0)); [reflexivity|discriminate].
Qed.

Lemma normalizeRow_ok (row : obj) (g g' : rng) (p : obj) :
  normalizeRow host row g = (Ok p, g') ->
  exists id g1 p1,
    choose_id row g = (Ok id, g1) /\
    fix_date host row (before_date host row id) g1 = (Ok p1, g') /\
    p = after_date host row p1.
Proof.
  unfold normalizeRow, bind.
  destruct (choose_id row g) as [[id|e] g1] eqn:Eid; [|discriminate].
  fold (before_date host row id).
  destruct (fix_date host row (before_date host row id) g1) as [[p1|e] g2] eqn:Edate;
    [|discriminate].
  unfold ret. intros H; inversion H; subst.
  exists id, g1, p1. split; [reflexivity|split; [exact Edate|reflexivity]].
Qed.

(** [normalizeRow] returns exactly when the date field is a string or
    falsy, and throws a [TypeError] otherwise. *)
Lemma normalizeRow_returns (row : obj) (g : rng) :
  string_or_falsy (getv "trans_date_trans_time" row) = true ->
  exists p g', normalizeRow host row g = (Ok p, g').
Proof.
  intros H. unfold normalizeRow, bind.
  destruct (choose_id_ok row g) as (id & g1 & ->).
  fold (before_date host row id).
  destruct (fix_date_ok row (before_date host row id) g1 H) as (p1 & ->).
  eexists; eexists; reflexivity.
Qed.

Lemma normalizeRow_throws (row : obj) (g : rng) :
  string_or_falsy (getv "trans_date_trans_time" row) = false ->
  exists g', normalizeRow host row g =
             (Throw (TypeError "row.trans_date_trans_time.split is not a function"), g').
Proof.
  intros H. unfold normalizeRow, bind.
  destruct (choose_id_ok row g) as (id & g1 & ->).
  fold (before_date host row id).
  rewrite (fix_date_throws row (before_date host row id) g1 H).
  eexists; reflexivity.
Qed.

Lemma string_mem_app (k : string) (l l' : list string) :
  string_mem k (l ++ l') = string_mem k l || string_mem k l'.
Proof.
  induction l as [|x l IH]; simpl; [reflexivity|].
  rewrite IH, Bool.orb_assoc. reflexivity.
Qed.

Lemma before_date_keeps (row : obj) (id : value) (k : string) :
  dropped_key k = false ->
  string_mem k ["id"; "trans_num"; "cc_num"; "amt"; "amount"] = false ->
  getv k (before_date host row id) = getv k row.
Proof.
  intros Hd Hk. unfold before_date. simpl in Hk.
  repeat (apply Bool.orb_false_iff in Hk; destruct Hk as [? Hk]).
  rewrite fix_amount_preserves by (simpl; repeat (apply Bool.orb_false_iff; split); assumption).
  rewrite fix_cc_num_preserves by (simpl; repeat (apply Bool.orb_false_iff; split); assumption).
  rewrite !getv_set.
  repeat match goal with H : String.eqb _ _ = false |- _ => rewrite H; clear H end.
  apply getv_drop_columns; assumption.
Qed.

(** An input column that no early step writes reaches the state step
    unchanged. *)
Lemma input_kept (row : obj) (g g' : rng) (id : value) (p1 : obj) (k : string) :
  fix_date host row (before_date host row id) g = (Ok p1, g') ->
  dropped_key k = false ->
  string_mem k early_keys = false ->
  getv k (fix_gender host row (fix_category host row p1)) = getv k row.
Proof.
  intros Hdate Hd Hk. unfold early_keys in Hk.
  rewrite !string_mem_app in Hk.
  apply Bool.orb_false_iff in Hk; destruct Hk as [H1 Hk].
  apply Bool.orb_false_iff in Hk; destruct Hk as [H2 Hk].
  apply Bool.orb_false_iff in Hk; destruct Hk as [H3 H4].
  rewrite fix_gender_preserves by assumption.
  rewrite fix_category_preserves by assumption.
  rewrite (fix_date_preserves host row _ _ _ _ k Hdate H2).
  apply before_date_keeps; assumption.
Qed.

End Normalizer.

(** ** What the normalized row holds *)

Section NormalizedRow.

Variable host : Host.

Lemma after_date_flags (ks : list string) (row p : obj) :
  forallb (fun k => negb (string_mem k ["age"])) ks = true ->
  forall k, In k ks ->
    getv k (after_date host row p) =
    getv k (fix_state host row (fix_gender host row (fix_category host row p))).
Proof.
  intros Hdis k Hk. unfold after_date.
  apply fix_age_preserves. exact (mem_disjoint _ _ Hdis k Hk).
Qed.

Lemma normalizeRow_state_flags (row : obj) (g g' : rng) (p : obj) :
  normalizeRow host row g = (Ok p, g') ->
  if truthy (getv "state" row) then
    if string_mem (state_code host row) states
    then one_hot state_keys (state_key (state_code host row)) p
    else all_zero state_keys p
  else one_hot state_keys "state_CA" p.
Proof.
  intros H. apply normalizeRow_ok in H. destruct H as (id & g1 & p1 & _ & Hdate & ->).
  set (X := fix_gender host row (fix_category host row p1)).
  assert (Hage : forall k, In k state_keys ->
            getv k (after_date host row p1) = getv k (fix_state host row X)).
  { apply after_date_flags. vm_compute. reflexivity. }
  assert (HX : getv "state" (set_all state_keys (num 0) X) = getv "state" row).
  { rewrite preserves_set_all by (vm_compute; reflexivity).
    unfold X. eapply input_kept; [exact Hdate| |]; vm_compute; reflexivity. }
  unfold fix_state in Hage. rewrite HX in Hage. unfold set_state_flag in Hage.
  fold (state_code host row) in Hage.
  destruct (truthy (getv "state" row)).
  - destruct (string_mem (state_code host row) states) eqn:Em.
    + apply (one_hot_ext _ _ _ _ Hage). apply one_hot_set.
      unfold state_keys. apply in_map. apply string_mem_In. exact Em.
    + apply (all_zero_ext _ _ _ Hage). apply all_zero_set_all.
  - apply (one_hot_ext _ _ _ _ Hage). apply one_hot_set. vm_compute. tauto.
Qed.

Lemma normalizeRow_category_flags (row : obj) (g g' : rng) (p : obj) :
  normalizeRow host row g = (Ok p, g') ->
  one_hot category_keys (category_hot host row) p.
Proof.
  intros H. apply normalizeRow_ok in H. destruct H as (id & g1 & p1 & _ & _ & ->).
  assert (Hk : forall k, In k category_keys ->
            getv k (after_date host row p1) = getv k (fix_category host row p1)).
  { intros k Hk.
    rewrite (after_date_flags category_keys) by (vm_compute; reflexivity || exact Hk).
    rewrite fix_state_preserves
      by (apply (mem_disjoint category_keys); [vm_compute; reflexivity|exact Hk]).
    apply fix_gender_preserves.
    apply (mem_disjoint category_keys); [vm_compute; reflexivity|exact Hk]. }
  apply (one_hot_ext _ _ _ _ Hk).
  unfold fix_category, category_hot.
  destruct (truthy (getv "category" row)).
  - apply one_hot_set. apply category_key_In.
  - apply one_hot_set. vm_compute. tauto.
Qed.

Lemma after_date_keeps (row p : obj) (k : string) :
  string_mem k (category_keys ++ ["gender_M"] ++ state_keys ++ ["age"]) = false ->
  getv k (after_date host row p) = getv k p.
Proof.
  intros Hk. rewrite !string_mem_app in Hk.
  apply Bool.orb_false_iff in Hk; destruct Hk as [H1 Hk].
  apply Bool.orb_false_iff in Hk; destruct Hk as [H2 Hk].
  apply Bool.orb_false_iff in Hk; destruct Hk as [H3 H4].
  unfold after_date.
  rewrite fix_age_preserves, fix_state_preserves, fix_gender_preserves,
    fix_category_preserves by assumption.
  reflexivity.
Qed.

Lemma normalizeRow_amount (row : obj) (g g' : rng) (p : obj) :
  normalizeRow host row g = (Ok p, g') ->
  if truthy (getv "amt" row) then
    getv "amt" p = VNum (normalized_amount host (getv "amt" row)) /\
    getv "amount" p = VNum (normalized_amount host (getv "amt" row))
  else
    getv "amt" p = getv "amt" row /\ getv "amount" p = getv "amount" row.
Proof.
  intros H. apply normalizeRow_ok in H. destruct H as (id & g1 & p1 & _ & Hdate & ->).
  rewrite !after_date_keeps by (vm_compute; reflexivity).
  rewrite !(fix_date_preserves host row _ _ _ _ _ Hdate) by (vm_compute; reflexivity).
  unfold before_date, fix_amount.
  destruct (truthy (getv "amt" row)).
  - fold (normalized_amount host (getv "amt" row)).
    rewrite !getv_set. simpl. split; reflexivity.
  - rewrite !fix_cc_num_preserves by (vm_compute; reflexivity).
    rewrite !getv_set. simpl.
    rewrite !getv_drop_columns by (vm_compute; reflexivity).
    split; reflexivity.
Qed.

End NormalizedRow.

(** *** The parsed amount is never negative *)

Lemma is_digit_val (c : ascii) : is_digit c = true -> (0 <= digit_val c)%Z.
Proof.
  unfold is_digit, digit_val. intros H.
  apply Bool.andb_true_iff in H. destruct H as [H _].
  apply Nat.leb_le in H. lia.
Qed.

Lemma read_digits_nonneg (s : string) (acc : Z) (n : nat) :
  (0 <= acc)%Z -> (0 <= fst (fst (read_digits s acc n)))%Z.
Proof.
  revert acc n. induction s as [|c s IH]; intros acc n Hacc; cbn -[Z.mul];
    [exact Hacc|].
  destruct (is_digit c) eqn:E; [|exact Hacc].
  apply IH. pose proof (is_digit_val c E). lia.
Qed.

Lemma parseFloat_nonneg (s : string) (q : Q) :
  parseFloat s = Fin q -> 0 <= q.
Proof.
  unfold parseFloat.
  pose proof (read_digits_nonneg s 0 0 (Z.le_refl 0)) as H1.
  destruct (read_digits s 0 0) as [[ip ni] rest]. simpl in H1.
  assert (Hint : (if (ni =? 0)%nat then NaN else Fin (ip # 1)) = Fin q -> 0 <= q).
  { destruct (ni =? 0)%nat; [discriminate|].
    intros H; inversion H; subst. unfold Qle; simpl. lia. }
  destruct rest as [|c rest]; [exact Hint|].
  destruct (Ascii.eqb c ".") eqn:Ec.
  - apply Ascii.eqb_eq in Ec; subst c.
    pose proof (read_digits_nonneg rest ip 0 H1) as H2.
    destruct (read_digits rest ip 0) as [[fp nf] rest']. simpl in H2.
    destruct (ni + nf =? 0)%nat; [discriminate|].
    intros H; inversion H; subst. unfold Qle; simpl. lia.
  - destruct c as [[] [] [] [] [] [] [] []]; try exact Hint.
    discriminate Ec.
Qed.

Lemma normalized_amount_nonneg (host : Host) (v : value) :
  exists q, normalized_amount host v = Fin q /\ 0 <= q.
Proof.
  unfold normalized_amount.
  destruct (parseFloat (filter_string digit_or_dot (toStr host v))) as [q|] eqn:E; simpl.
  - exists q. split; [reflexivity|]. eapply parseFloat_nonneg; exact E.
  - exists 0. split; [reflexivity|]. apply Qle_refl.
Qed.

(** ** The batches have no effect on the result *)

Section Batches.

Variable host : Host.

Lemma CHUNK_SIZE_pos : (0 < CHUNK_SIZE)%nat.
Proof. unfold CHUNK_SIZE. lia. Qed.

Lemma slice_batch {A} (start c : nat) (l : list A) :
  slice start (Nat.min (start + c) (List.length l)) l = firstn c (skipn start l).
Proof.
  unfold slice.
  destruct (Nat.le_gt_cases (start + c) (List.length l)) as [Hle|Hgt].
  - rewrite Nat.min_l by exact Hle. f_equal. lia.
  - rewrite Nat.min_r by lia.
    rewrite !firstn_all2; [reflexivity| |]; rewrite length_skipn; lia.
Qed.

Lemma process_batches_mapM (n i : nat) (data acc : list obj) (g : rng) :
  (List.length data <= (n + i) * CHUNK_SIZE)%nat ->
  process_batches host n i data acc g =
  bind (mapM (normalizeRow host) (skipn (i * CHUNK_SIZE) data))
       (fun r => ret (acc ++ r)) g.
Proof.
  revert i acc g. induction n as [|n IH]; intros i acc g Hlen.
  - cbn [process_batches]. rewrite skipn_all2 by (simpl in Hlen; exact Hlen).
    cbn [mapM]. rewrite bind_ret_l, app_nil_r. reflexivity.
  - cbn [process_batches]. rewrite slice_batch.
    rewrite <- (firstn_skipn CHUNK_SIZE (skipn (i * CHUNK_SIZE) data)) at 2.
    unfold bind at 2. rewrite mapM_app. unfold bind at 1 2.
    destruct (mapM (normalizeRow host) (firstn CHUNK_SIZE (skipn (i * CHUNK_SIZE) data)) g)
      as [[b|e] g1]; [|reflexivity].
    rewrite IH by lia.
    rewrite skipn_skipn.
    replace (CHUNK_SIZE + i * CHUNK_SIZE)%nat with (S i * CHUNK_SIZE)%nat by lia.
    unfold bind, ret.
    destruct (mapM (normalizeRow host) (skipn (S i * CHUNK_SIZE) data) g1)
      as [[r|e] g2]; [|reflexivity].
    rewrite app_assoc. reflexivity.
Qed.

Lemma ceil_div_covers (a b : nat) :
  (0 < b)%nat -> (a <= ceil_div a b * b)%nat.
Proof.
  intros Hb. unfold ceil_div.
  pose proof (Nat.div_mod (a + b - 1) b ltac:(lia)) as Hdm.
  pose proof (Nat.mod_upper_bound (a + b - 1) b ltac:(lia)) as Hmod.
  nia.
Qed.

(** [preprocessCSV] normalizes every row in order, whatever the batch
    size. *)
Lemma preprocessCSV_mapM (data : list obj) (g : rng) :
  preprocessCSV host data g = mapM (normalizeRow host) data g.
Proof.
  unfold preprocessCSV.
  destruct (List.length data =? 0)%nat eqn:E.
  - apply Nat.eqb_eq in E. destruct data; [reflexivity|discriminate].
  - rewrite process_batches_mapM.
    + rewrite Nat.mul_0_l. cbn [skipn]. unfold bind, ret.
      destruct (mapM (normalizeRow host) data g) as [[r|e] g1]; reflexivity.
    + rewrite Nat.add_0_r. apply ceil_div_covers. apply CHUNK_SIZE_pos.
Qed.

Lemma mapM_Forall2 {A B} (f : A -> M B) (P : A -> B -> Prop) (xs : list A) :
  (forall x g y g', f x g = (Ok y, g') -> P x y) ->
  forall g ys g', mapM f xs g = (Ok ys, g') -> Forall2 P xs ys.
Proof.
  intros HP. induction xs as [|x xs IH]; intros g ys g'; cbn [mapM].
  - unfold ret. intros H; inversion H; constructor.
  - unfold bind. destruct (f x g) as [[y|e] g1] eqn:Ef; [|discriminate].
    destruct (mapM f xs g1) as [[l|e] g2] eqn:El; [|discriminate].
    unfold ret. intros H; inversion H; subst.
    constructor; [eapply HP; exact Ef|eapply IH; exact El].
Qed.

(** Every row of the output of [preprocessCSV] is the normalized form of
    the input row at the same position. *)
Lemma preprocessCSV_rows (data out : list obj) (g g' : rng) :
  preprocessCSV host data g = (Ok out, g') ->
  Forall2 (fun row p => exists g0 g1, normalizeRow host row g0 = (Ok p, g1)) data out.
Proof.
  rewrite preprocessCSV_mapM.
  apply mapM_Forall2. intros x g0 y g1 H. exists g0, g1. exact H.
Qed.

End Batches.

Section BatchesTotal.

Variable host : Host.

Lemma mapM_total_Forall {A B} (f : A -> M B) (Q : A -> Prop) (P : A -> B -> Prop)
    (xs : list A) :
  (forall x g, Q x -> exists y g', f x g = (Ok y, g') /\ P x y) ->
  Forall Q xs ->
  forall g, exists ys g', mapM f xs g = (Ok ys, g') /\ Forall2 P xs ys.
Proof.
  intros Hf HQ. induction HQ as [|x xs Hx _ IH]; intros g; cbn [mapM].
  - exists [], g. split; [reflexivity|constructor].
  - destruct (Hf x g Hx) as (y & g1 & Ey & Hy).
    destruct (IH g1) as (ys & g2 & Eys & Hys).
    exists (y :: ys), g2. unfold bind. rewrite Ey, Eys.
    split; [reflexivity|constructor; assumption].
Qed.

(** On rows whose date field is a string or falsy, as the parser delivers
    them, [preprocessCSV] returns one normalized row per input row. *)
Lemma preprocessCSV_returns (data : list obj) (g : rng) :
  Forall (fun row => string_or_falsy (getv "trans_date_trans_time" row) = true) data ->
  exists out g',
    preprocessCSV host data g = (Ok out, g') /\
    Forall2 (fun row p => exists g0 g1, normalizeRow host row g0 = (Ok p, g1)) data out.
Proof.
  intros H. rewrite preprocessCSV_mapM.
  apply (mapM_total_Forall _ _ _ _ (fun row g0 Hrow =>
           match normalizeRow_returns host row g0 Hrow with
           | ex_intro _ p (ex_intro _ g1 E) =>
               ex_intro _ p (ex_intro _ g1 (conj E (ex_intro _ g0 (ex_intro _ g1 E))))
           end) H).
Qed.

End BatchesTotal.

(** ** The normalizer on small rows *)

(** Columns with a numeric name or an Unnamed one are dropped, the card
    number keeps its digits, the state and the gender are read without
    regard to case. *)
Example normalize_sample_row :
  let p := normalized [("6006", VStr "x"); ("Unnamed: 0", VStr "1"); ("", VStr "y");
                       ("cc_num", VStr "4532-0151 1283"); ("state", VStr "ny");
                       ("gender", VStr "m"); ("age", VStr "41");
                       ("trans_date_trans_time", VStr "2020-06-21 12:14:25")] in
  map (fun k => get k p) ["6006"; "Unnamed: 0"; ""; "cc_num"; "state_NY"; "state_CA";
                          "gender_M"; "age"; "date"]
  = [None; None; None; Some (VStr "453201511283"); Some (num 1); Some (num 0);
     Some (num 1); Some (VStr "41"); Some (VStr "2020-06-21")].
Proof. vm_compute. reflexivity. Qed.

(** The empty row: a generated id of seven digits, age 30, no gender flag,
    and the two defaults [state_CA] and [category_1]. *)
Example normalize_empty_row :
  map (fun k => getv k (normalized [])) ["id"; "trans_num"; "age"; "gender_M"; "state_CA";
                                         "category_1"]
  = [VStr "TX-5500000"; VStr "TX-5500000"; num 30; num 0; num 1; num 1].
Proof. vm_compute. reflexivity. Qed.

(** A date that is a number has no [split]: the normalizer throws. *)
Example normalize_numeric_date :
  fst (normalizeRow example_host [("trans_date_trans_time", num 20200621)] example_rng)
  = Throw (TypeError "row.trans_date_trans_time.split is not a function").
Proof. vm_compute. reflexivity. Qed.

(** ** The row normalizer: flags *)

(** C1 (as amended).  For every raw row whose [trans_date_trans_time] is a
    string or falsy (the CSV parser delivers strings only), the normalizer
    returns a row and does not throw.  In that row exactly one of the
    thirteen category flags is 1 and the other twelve are 0.  Exactly one of
    the fifty state flags is 1 and the other forty-nine are 0 when the
    state is absent, empty or a recognized code; when the state holds any
    other value, all fifty state flags are 0. *)
Theorem normalize_one_hot_flags (host : Host) (row : obj) (g : rng) :
  string_or_falsy (getv "trans_date_trans_time" row) = true ->
  exists p g',
    normalizeRow host row g = (Ok p, g') /\
    count_flags 1 category_keys p = 1%nat /\
    count_flags 0 category_keys p = 12%nat /\
    if state_default_or_valid host row
    then count_flags 1 state_keys p = 1%nat /\ count_flags 0 state_keys p = 49%nat
    else count_flags 1 state_keys p = 0%nat /\ count_flags 0 state_keys p = 50%nat.
Proof.
  intros Hdate.
  destruct (normalizeRow_returns host row g Hdate) as (p & g' & Hp).
  exists p, g'. split; [exact Hp|].
  pose proof (normalizeRow_category_flags host row g g' p Hp) as Hcat.
  apply (one_hot_count _ _ _ category_keys_NoDup) in Hcat.
  split; [apply Hcat|]. split; [apply Hcat|].
  pose proof (normalizeRow_state_flags host row g g' p Hp) as Hst.
  unfold state_default_or_valid.
  destruct (truthy (getv "state" row)); cbn [negb orb].
  - destruct (string_mem (state_code host row) states).
    + apply (one_hot_count _ _ _ state_keys_NoDup) in Hst. exact Hst.
    + apply all_zero_count in Hst. exact Hst.
  - apply (one_hot_count _ _ _ state_keys_NoDup) in Hst. exact Hst.
Qed.

Lemma normalize_one_hot_flags_witness :
  exists p g',
    normalizeRow example_host [("state", VStr "ny"); ("category", VStr "gas_transport")]
      example_rng = (Ok p, g') /\
    count_flags 1 category_keys p = 1%nat /\
    count_flags 0 category_keys p = 12%nat /\
    count_flags 1 state_keys p = 1%nat /\ count_flags 0 state_keys p = 49%nat.
Proof.
  apply (normalize_one_hot_flags example_host
           [("state", VStr "ny"); ("category", VStr "gas_transport")] example_rng).
  reflexivity.
Defined.

(** The row [{state: "zz"}] is normalized without error and none of its
    fifty state flags is 1. *)
Lemma normalize_one_hot_flags_counterexample :
  exists p,
    fst (normalizeRow example_host [("state", VStr "zz")] example_rng) = Ok p /\
    count_flags 1 state_keys p = 0%nat.
Proof.
  eexists. split; [vm_compute; reflexivity|]. vm_compute. reflexivity.
Qed.

(** C3 (as amended).  For every raw row whose [state] is not one of the 50
    recognized codes once upper-cased: when the value is truthy (a
    non-empty string such as "zz") the normalizer sets no state flag, all
    fifty, [state_CA] included, are 0; [state_CA = 1] is the default only
    when the value is falsy (absent or empty). *)
Theorem unrecognized_state_flags (host : Host) (row : obj) (g g' : rng) (p : obj) :
  normalizeRow host row g = (Ok p, g') ->
  string_mem (state_code host row) states = false ->
  if truthy (getv "state" row)
  then all_zero state_keys p /\ getv "state_CA" p = num 0
  else one_hot state_keys "state_CA" p /\ getv "state_CA" p = num 1.
Proof.
  intros Hp Hcode.
  pose proof (normalizeRow_state_flags host row g g' p Hp) as Hst.
  rewrite Hcode in Hst.
  destruct (truthy (getv "state" row)).
  - split; [exact Hst|]. apply Hst. vm_compute. tauto.
  - split; [exact Hst|]. destruct Hst as [HIn H]. apply (H "state_CA" HIn).
Qed.

Lemma unrecognized_state_flags_witness :
  all_zero state_keys (normalized [("state", VStr "zz")]) /\
  getv "state_CA" (normalized [("state", VStr "zz")]) = num 0.
Proof.
  apply (unrecognized_state_flags example_host [("state", VStr "zz")]
           example_rng (rng_tail example_rng) (normalized [("state", VStr "zz")])).
  - reflexivity.
  - reflexivity.
Defined.

(** The row [{state: "zz"}]: its state is present and is not a recognized
    code, and the normalized row has [state_CA = 0]. *)
Lemma unrecognized_state_flags_counterexample :
  exists p,
    fst (normalizeRow example_host [("state", VStr "zz")] example_rng) = Ok p /\
    get "state" [("state", VStr "zz")] = Some (VStr "zz") /\
    string_mem (toUpperCase "zz") states = false /\
    getv "state_CA" p = num 0 /\
    getv "state_CA" p <> num 1.
Proof.
  eexists. split; [vm_compute; reflexivity|].
  split; [reflexivity|]. split; [reflexivity|].
  split; [vm_compute; reflexivity|]. vm_compute. discriminate.
Qed.

(** ** The row normalizer: amount *)

(** C6 (as amended).  When the raw row has a truthy [amt], the normalized
    row holds [amt] and [amount], both the same non-negative number, which
    is 0 when the cleaned text fails to parse.  When the raw [amt] is absent
    or falsy the normalizer writes neither field: each is what the raw row
    had, if anything. *)
Theorem normalized_amount_fields (host : Host) (row : obj) (g g' : rng) (p : obj) :
  normalizeRow host row g = (Ok p, g') ->
  if truthy (getv "amt" row) then
    exists q,
      getv "amt" p = VNum (Fin q) /\ getv "amount" p = VNum (Fin q) /\ 0 <= q /\
      (parseFloat (filter_string digit_or_dot (toStr host (getv "amt" row))) = NaN ->
       q = 0)
  else
    getv "amt" p = getv "amt" row /\ getv "amount" p = getv "amount" row.
Proof.
  intros Hp. pose proof (normalizeRow_amount host row g g' p Hp) as H.
  destruct (truthy (getv "amt" row)); [|exact H].
  destruct H as [H1 H2].
  destruct (normalized_amount_nonneg host (getv "amt" row)) as (q & Hq & Hpos).
  exists q. rewrite H1, H2, Hq. repeat split; try assumption.
  intros Hnan. unfold normalized_amount in Hq. rewrite Hnan in Hq.
  simpl in Hq. inversion Hq. reflexivity.
Qed.

Lemma normalized_amount_fields_witness :
  exists q,
    getv "amt" (normalized [("amt", VStr "$12.50")]) = VNum (Fin q) /\
    getv "amount" (normalized [("amt", VStr "$12.50")]) = VNum (Fin q) /\ 0 <= q /\
    (parseFloat (filter_string digit_or_dot "$12.50") = NaN -> q = 0).
Proof.
  apply (normalized_amount_fields example_host [("amt", VStr "$12.50")]
           example_rng (rng_tail example_rng) (normalized [("amt", VStr "$12.50")])).
  reflexivity.
Defined.

(** The row with no column at all is normalized without error to a row
    that has neither an [amt] nor an [amount] property. *)
Lemma normalized_amount_fields_counterexample :
  exists p,
    fst (normalizeRow example_host [] example_rng) = Ok p /\
    get "amt" p = None /\ get "amount" p = None.
Proof.
  eexists. split; [vm_compute; reflexivity|].
  split; vm_compute; reflexivity.
Qed.

Lemma filter_string_forall (f : ascii -> bool) (s : string) :
  string_forall f (filter_string f s) = true.
Proof.
  induction s as [|c s IH]; cbn [filter_string string_forall]; [reflexivity|].
  destruct (f c) eqn:E; [cbn [string_forall]; rewrite E, IH; reflexivity|exact IH].
Qed.

(** C7 (as amended).  When the raw [amt] is truthy, the amount step
    removes every character other than a digit or a dot from its text, so
    that the text it parses holds digits and dots only, parses the rest as
    a float, takes 0 when that fails, and writes the result into both [amt]
    and [amount].  When the raw [amt] is falsy (absent, the empty string,
    the number 0) the step is skipped: [amt] and [amount] read as in the raw
    row.  Whatever the host and the draws, the input [amt] "1,234.56abc"
    gives [amt = 1234.56] and "garbage" gives [amt = 0]. *)
Theorem amount_normalization :
  (forall (host : Host) (row : obj) (g g' : rng) (p : obj),
      normalizeRow host row g = (Ok p, g') ->
      let cleaned := filter_string digit_or_dot (toStr host (getv "amt" row)) in
      if truthy (getv "amt" row) then
        string_forall digit_or_dot cleaned = true /\
        getv "amt" p
        = VNum (if isNaN (parseFloat cleaned) then Fin 0 else parseFloat cleaned) /\
        getv "amount" p = getv "amt" p
      else
        getv "amt" p = getv "amt" row /\ getv "amount" p = getv "amount" row) /\
  (forall (host : Host) (g : rng),
      exists p g',
        normalizeRow host [("amt", VStr "1,234.56abc")] g = (Ok p, g') /\
        getv "amt" p = VNum (Fin 1234.56) /\ getv "amount" p = VNum (Fin 1234.56)) /\
  (forall (host : Host) (g : rng),
      exists p g',
        normalizeRow host [("amt", VStr "garbage")] g = (Ok p, g') /\
        getv "amt" p = VNum (Fin 0) /\ getv "amount" p = VNum (Fin 0)).
Proof.
  split; [|split].
  - intros host row g g' p Hp cleaned.
    pose proof (normalizeRow_amount host row g g' p Hp) as H.
    destruct (truthy (getv "amt" row)); [|exact H].
    destruct H as [H1 H2]. split; [apply filter_string_forall|].
    split; [exact H1|]. rewrite H1. exact H2.
  - intros host g.
    destruct (normalizeRow_returns host [("amt", VStr "1,234.56abc")] g eq_refl)
      as (p & g' & Hp).
    exists p, g'. split; [exact Hp|].
    exact (normalizeRow_amount host _ g g' p Hp).
  - intros host g.
    destruct (normalizeRow_returns host [("amt", VStr "garbage")] g eq_refl)
      as (p & g' & Hp).
    exists p, g'. split; [exact Hp|].
    exact (normalizeRow_amount host _ g g' p Hp).
Qed.

Lemma amount_normalization_witness :
  string_forall digit_or_dot "7.25" = true /\
  getv "amt" (normalized [("amt", VStr "USD 7.25")]) = VNum (Fin 7.25) /\
  getv "amount" (normalized [("amt", VStr "USD 7.25")]) =
  getv "amt" (normalized [("amt", VStr "USD 7.25")]).
Proof.
  apply (proj1 amount_normalization example_host [("amt", VStr "USD 7.25")]
           example_rng (rng_tail example_rng) (normalized [("amt", VStr "USD 7.25")])).
  reflexivity.
Defined.

(** The raw [amt] is the empty string, as for an empty CSV cell: nothing is
    left to parse, so the claim has [amt = 0] mirrored into [amount]; the
    normalized row keeps the empty string as [amt] and has no [amount]. *)
Lemma amount_normalization_counterexample :
  parseFloat (filter_string digit_or_dot "") = NaN /\
  exists p,
    fst (normalizeRow example_host [("amt", VStr "")] example_rng) = Ok p /\
    get "amt" p = Some (VStr "") /\ get "amount" p = None /\
    getv "amt" p <> VNum (Fin 0) /\ getv "amount" p <> VNum (Fin 0).
Proof.
  split; [reflexivity|]. eexists. split; [vm_compute; reflexivity|].
  split; [vm_compute; reflexivity|]. split; [vm_compute; reflexivity|].
  split; vm_compute; discriminate.
Qed.

(** ** The row normalizer: category *)

Lemma category_of_first_match (text : string) :
  category_of (toLowerCase text) = first_matching_group text.
Proof.
  unfold category_of, first_matching_group, keyword_groups.
  generalize (toLowerCase text) as c. intros c.
  cbn [find existsb fst snd].
  repeat match goal with
         | |- context [includes c ?k] => destruct (includes c k); cbn [orb]; try reflexivity
         end.
Qed.

(** C8.  The normalizer lower-cases the text of the [category] field and
    looks for the keywords of the ordered groups in it; the first group with
    a keyword that occurs selects the flag, and the flag is [category_1]
    when no group matches or the field is absent (falsy).  That flag is 1
    and the twelve other category flags are 0.  Whatever the host and the
    draws, the category "Fast Food Dining" gives [category_6 = 1] and every
    other category flag 0. *)
Theorem category_normalization :
  (forall (host : Host) (row : obj) (g g' : rng) (p : obj),
      normalizeRow host row g = (Ok p, g') ->
      one_hot category_keys
        (if truthy (getv "category" row)
         then category_key (first_matching_group (toStr host (getv "category" row)))
         else "category_1") p) /\
  (forall (host : Host) (g : rng),
      exists p g',
        normalizeRow host [("category", VStr "Fast Food Dining")] g = (Ok p, g') /\
        one_hot category_keys "category_6" p /\
        count_flags 1 category_keys p = 1%nat /\
        count_flags 0 category_keys p = 12%nat).
Proof.
  split.
  - intros host row g g' p Hp.
    pose proof (normalizeRow_category_flags host row g g' p Hp) as H.
    unfold category_hot in H. rewrite category_of_first_match in H. exact H.
  - intros host g.
    destruct (normalizeRow_returns host [("category", VStr "Fast Food Dining")] g eq_refl)
      as (p & g' & Hp).
    exists p, g'. split; [exact Hp|].
    pose proof (normalizeRow_category_flags host _ g g' p Hp) as H.
    split; [exact H|].
    exact (one_hot_count _ _ _ category_keys_NoDup H).
Qed.

Lemma category_normalization_witness :
  one_hot category_keys "category_11"
    (normalized [("category", VStr "Travel")]).
Proof.
  apply (proj1 category_normalization example_host [("category", VStr "Travel")]
           example_rng (rng_tail example_rng) (normalized [("category", VStr "Travel")])).
  reflexivity.
Defined.

(** ** The row cap of the CSV parser *)

(** The check follows the push of a whole chunk: the rows kept are bounded
    by the cap plus one chunk, not by the cap. *)
Lemma parse_chunks_bound (events : list ParseEvent) (acc results : list obj) :
  parse_chunks events acc = Ok results ->
  (List.length acc <= ROW_LIMIT)%nat ->
  (List.length results <= ROW_LIMIT + max_chunk events)%nat.
Proof.
  revert acc. induction events as [|ev events IH]; intros acc; cbn [parse_chunks max_chunk].
  - intros H Hacc. inversion H; subst. lia.
  - destruct ev as [rows|e]; [|discriminate].
    destruct (ROW_LIMIT <? List.length (acc ++ rows))%nat eqn:E.
    + intros H Hacc. inversion H; subst. rewrite length_app. lia.
    + intros H Hacc. apply Nat.ltb_ge in E.
      specialize (IH _ H E). lia.
Qed.

(** Reaching the cap is not an error: without a read error the parser
    always completes with rows. *)
Lemma parse_chunks_completes (events : list ParseEvent) (acc : list obj) :
  Forall (fun ev => match ev with Chunk _ => True | ParseError _ => False end) events ->
  exists results, parse_chunks events acc = Ok results.
Proof.
  intros H. revert acc. induction H as [|ev events Hev _ IH]; intros acc;
    cbn [parse_chunks].
  - eexists; reflexivity.
  - destruct ev as [rows|e]; [|destruct Hev].
    destruct (ROW_LIMIT <? List.length (acc ++ rows))%nat; [eexists; reflexivity|apply IH].
Qed.

(** C9 (the code at the failing input).  A file that the library delivers
    as one chunk of 100,001 rows: the chunk callback keeps all 100,001 rows,
    one more than the cap, and [processCSV] resolves, without error, with
    100,001 normalized rows. *)
Theorem row_cap_exceeded (host : Host) (g : rng) :
  let row : obj := [("amt", VStr "1")] in
  let rows : list obj := repeat row (S ROW_LIMIT) in
  parse_chunks [Chunk rows] [] = Ok rows /\
  Z.of_nat (List.length rows) = 100001%Z /\
  exists out g',
    processCSV host (mkUpload "rows.csv" [Chunk rows]) g = (Ok out, g') /\
    Z.of_nat (List.length out) = 100001%Z.
Proof.
  intros row rows.
  assert (Hlen : Z.of_nat (List.length rows) = 100001%Z).
  { unfold rows. rewrite repeat_length. unfold ROW_LIMIT. lia. }
  assert (Hparse : parse_chunks [Chunk rows] [] = Ok rows).
  { cbn [parse_chunks app].
    destruct (ROW_LIMIT <? List.length rows)%nat; reflexivity. }
  split; [exact Hparse|]. split; [exact Hlen|].
  unfold processCSV. cbn [upload_events]. rewrite Hparse.
  destruct (preprocessCSV_returns host rows g) as (out & g' & E & Hrows).
  - apply Forall_forall. intros x Hx. apply repeat_spec in Hx. subst x. reflexivity.
  - exists out, g'. split; [exact E|].
    rewrite <- (Forall2_length Hrows). exact Hlen.
Qed.

(** ** The aggregation of risk levels *)

Lemma num_succ (n : Z) :
  num_add (Fin (inject_Z n)) (Fin 1) = Fin (inject_Z (n + 1)).
Proof.
  unfold num_add, inject_Z, Qplus. cbn [Qnum Qden]. f_equal. f_equal; lia.
Qed.

Section Aggregation.

Variable host : Host.

Lemma increment_counts (l m h : Z) :
  increment "Low" [("Low", num l); ("Medium", num m); ("High", num h)]
  = [("Low", num (l + 1)); ("Medium", num m); ("High", num h)] /\
  increment "Medium" [("Low", num l); ("Medium", num m); ("High", num h)]
  = [("Low", num l); ("Medium", num (m + 1)); ("High", num h)] /\
  increment "High" [("Low", num l); ("Medium", num m); ("High", num h)]
  = [("Low", num l); ("Medium", num m); ("High", num (h + 1))].
Proof.
  unfold increment, num.
  cbn [String.eqb Ascii.eqb Bool.eqb getv get set].
  rewrite !num_succ. repeat split.
Qed.

Lemma count_levels (transactions : list obj) (l m h : Z) :
  Forall valid_risk_level transactions ->
  exists l' m' h',
    fold_left (fun rc tx => increment (to_key host (getv "risk_level" tx)) rc)
      transactions [("Low", num l); ("Medium", num m); ("High", num h)]
    = [("Low", num l'); ("Medium", num m'); ("High", num h')] /\
    (l <= l' /\ m <= m' /\ h <= h')%Z /\
    (l' + m' + h' = l + m + h + Z.of_nat (List.length transactions))%Z.
Proof.
  intros H. revert l m h. induction H as [|tx txs Htx _ IH]; intros l m h.
  - exists l, m, h. cbn [fold_left List.length]. split; [reflexivity|lia].
  - cbn [fold_left]. destruct (increment_counts l m h) as (EL & EM & EH).
    destruct Htx as [E|[E|E]]; rewrite E.
    + change (to_key host (VStr "Low")) with "Low". rewrite EL.
      destruct (IH (l + 1)%Z m h) as (l' & m' & h' & -> & Hle & Hsum).
      exists l', m', h'. split; [reflexivity|]. cbn [List.length]. lia.
    + change (to_key host (VStr "Medium")) with "Medium". rewrite EM.
      destruct (IH l (m + 1)%Z h) as (l' & m' & h' & -> & Hle & Hsum).
      exists l', m', h'. split; [reflexivity|]. cbn [List.length]. lia.
    + change (to_key host (VStr "High")) with "High". rewrite EH.
      destruct (IH l m (h + 1)%Z) as (l' & m' & h' & -> & Hle & Hsum).
      exists l', m', h'. split; [reflexivity|]. cbn [List.length]. lia.
Qed.

End Aggregation.

(** C10.  For every list of transactions whose [risk_level] is "Low",
    "Medium" or "High", [calculateRiskDistribution] returns exactly the
    three entries Low, Medium, High, in that order, with counts that are
    whole numbers, not negative, and add up to the length of the list. *)
Theorem risk_distribution_counts (host : Host) (transactions : list obj) :
  Forall valid_risk_level transactions ->
  exists l m h : Z,
    calculateRiskDistribution host transactions =
      [mkEntry "Low" (num l); mkEntry "Medium" (num m); mkEntry "High" (num h)] /\
    (0 <= l /\ 0 <= m /\ 0 <= h)%Z /\
    (l + m + h = Z.of_nat (List.length transactions))%Z.
Proof.
  intros H. unfold calculateRiskDistribution.
  destruct (count_levels host transactions 0 0 0 H) as (l & m & h & -> & Hle & Hsum).
  exists l, m, h. split; [reflexivity|]. lia.
Qed.

Lemma risk_distribution_counts_witness :
  exists l m h : Z,
    calculateRiskDistribution example_host
      [[("risk_level", VStr "High")]; [("risk_level", VStr "Low")];
       [("risk_level", VStr "High")]] =
      [mkEntry "Low" (num l); mkEntry "Medium" (num m); mkEntry "High" (num h)] /\
    (0 <= l /\ 0 <= m /\ 0 <= h)%Z /\
    (l + m + h = 3)%Z.
Proof.
  apply (risk_distribution_counts example_host
           [[("risk_level", VStr "High")]; [("risk_level", VStr "Low")];
            [("risk_level", VStr "High")]]).
  repeat constructor; unfold valid_risk_level; simpl; tauto.
Defined.

(** ** The reconciler: merging the API transactions *)

Section Merge.

Variable host : Host.

Lemma resolve_id_ok (tx : obj) (g : rng) :
  exists id g', resolve_id tx g = (Ok id, g').
Proof.
  unfold resolve_id.
  destruct (truthy (getv "id" tx)); [eexists; eexists; reflexivity|].
  destruct (truthy (getv "trans_num" tx)); [eexists; eexists; reflexivity|].
  destruct (truthy (getv "cc_num" tx)); eexists; eexists; reflexivity.
Qed.

Lemma enhanceTransaction_merged (m : jsmap) (riskLevel : string) (defaultProb : Q)
    (otx : option obj) (g g' : rng) (r : obj) :
  enhanceTransaction host m riskLevel defaultProb otx g = (Ok r, g') ->
  merged riskLevel defaultProb otx r.
Proof.
  unfold enhanceTransaction. destruct otx as [tx|]; [|discriminate].
  unfold bind. destruct (resolve_id_ok tx g) as (id & g1 & ->).
  unfold ret. intros H; inversion H; subst; clear H.
  exists tx. split; [reflexivity|]. split.
  - apply getv_set_eq.
  - rewrite getv_set_ne by discriminate. rewrite getv_set_eq. reflexivity.
Qed.

Lemma enhanceTransaction_returns (m : jsmap) (riskLevel : string) (defaultProb : Q)
    (tx : obj) (g : rng) :
  exists r g', enhanceTransaction host m riskLevel defaultProb (Some tx) g = (Ok r, g').
Proof.
  unfold enhanceTransaction, bind.
  destruct (resolve_id_ok tx g) as (id & g1 & ->).
  eexists; eexists; reflexivity.
Qed.

Lemma map_bucket_merged (m : jsmap) (riskLevel : string) (defaultProb : Q)
    (b : Bucket) (g g' : rng) (rs : list obj) :
  map_bucket b (enhanceTransaction host m riskLevel defaultProb) g = (Ok rs, g') ->
  Forall2 (merged riskLevel defaultProb) (bucket_items b) rs.
Proof.
  destruct b as [|txs|]; cbn [map_bucket bucket_items].
  - unfold ret. intros H; inversion H; constructor.
  - apply mapM_Forall2. intros x g0 y g1. apply enhanceTransaction_merged.
  - discriminate.
Qed.

End Merge.

(** C5 (the code at the failing input).  The API returns, in each of the
    three buckets, a transaction whose [fraud_probability] is the number 0,
    whatever its other properties.  Whatever the host, the uploaded rows,
    the distribution and the draws, the merge replaces the API's 0 by the
    bucket default: the three merged transactions have the probabilities
    0.8, 0.5 and 0.2, none of them the 0 that the API provided; the levels
    are those of the buckets. *)
Theorem zero_probability_replaced (host : Host) (preprocessedData : list obj)
    (rest : obj) (riskDistribution : option RiskDistribution) (g : rng) :
  let tx : obj := ("fraud_probability", num 0) :: rest in
  get "fraud_probability" tx = Some (num 0) /\
  exists out g',
    reconcile host preprocessedData
      (PredObject (BucketArray [Some tx]) (BucketArray [Some tx]) (BucketArray [Some tx])
         riskDistribution) g
    = (Ok out, g') /\
    (map (getv "fraud_probability") (processedTransactions out)
     = [VNum (Fin 0.8); VNum (Fin 0.5); VNum (Fin 0.2)]) /\
    (~ In (num 0) (map (getv "fraud_probability") (processedTransactions out))) /\
    (map (getv "risk_level") (processedTransactions out)
     = [VStr "High"; VStr "Medium"; VStr "Low"]).
Proof.
  intros tx. split; [reflexivity|].
  set (m := originalTransactionMap preprocessedData).
  destruct (enhanceTransaction_returns host m "High" 0.8 tx g) as (rh & g1 & EH).
  destruct (enhanceTransaction_returns host m "Medium" 0.5 tx g1) as (rm & g2 & EM).
  destruct (enhanceTransaction_returns host m "Low" 0.2 tx g2) as (rl & g3 & EL).
  exists (mkOutcome [rh; rm; rl] None), g3.
  assert (Hprob : forall level d g0 g0' r,
             enhanceTransaction host m level d (Some tx) g0 = (Ok r, g0') ->
             getv "fraud_probability" r = VNum (Fin d) /\
             getv "risk_level" r = VStr level).
  { intros level d g0 g0' r E.
    destruct (enhanceTransaction_merged host m level d (Some tx) g0 g0' r E)
      as (tx' & Htx & Hl & Hp).
    inversion Htx; subst tx'. split; [exact Hp|exact Hl]. }
  destruct (Hprob _ _ _ _ _ EH) as [PH LH].
  destruct (Hprob _ _ _ _ _ EM) as [PM LM].
  destruct (Hprob _ _ _ _ _ EL) as [PL LL].
  split.
  - cbn [reconcile map_bucket mapM]. fold m. unfold bind, ret.
    rewrite EH, EM, EL. reflexivity.
  - cbn [processedTransactions map]. rewrite PH, PM, PL, LH, LM, LL.
    split; [reflexivity|]. split; [|reflexivity].
    cbn [In]. intros [H|[H|[H|[]]]]; vm_compute in H; discriminate H.
Qed.

(** ** The reconciler: the simulated classification *)

Lemma totalRisk_nonzero (riskDist : RiskDistribution) :
  match totalRisk riskDist with
  | Fin q => Qeq_bool q 0 = false
  | NaN => False
  end.
Proof.
  unfold totalRisk, truthy.
  destruct (num_add (num_add (High riskDist) (Medium riskDist)) (Low riskDist)) as [q|].
  - destruct (Qeq_bool q 0) eqn:E; cbn [negb]; [reflexivity|exact E].
  - reflexivity.
Qed.

Lemma rng_ok_tail (g : rng) : rng_ok g -> rng_ok (rng_tail g).
Proof. intros H n. apply H. Qed.

Lemma classify_all_high (rnd : Q) : rnd < 1 -> classify all_high rnd = "High".
Proof.
  intros H. unfold classify.
  replace (num_lt (Fin rnd) (num_div (High all_high) (totalRisk all_high))) with true;
    [reflexivity|].
  change (num_div (High all_high) (totalRisk all_high)) with (Fin (100 # 100)).
  unfold num_lt, Qltb, Qle_bool. cbn [Qnum Qden].
  unfold Qlt in H. cbn [Qnum Qden] in H.
  symmetry. apply Bool.negb_true_iff. apply Z.leb_gt. lia.
Qed.

Lemma classify_zero (rnd : Q) : 0 <= rnd -> classify zero_distribution rnd = "Low".
Proof.
  intros H. unfold classify.
  change (num_div (High zero_distribution) (totalRisk zero_distribution))
    with (Fin (0 # 1)).
  change (num_add (Fin (0 # 1))
            (num_div (Medium zero_distribution) (totalRisk zero_distribution)))
    with (Fin (0 # 1)).
  replace (num_lt (Fin rnd) (Fin (0 # 1))) with false; [reflexivity|].
  unfold num_lt, Qltb, Qle_bool. cbn [Qnum Qden].
  unfold Qle in H. cbn [Qnum Qden] in H.
  symmetry. apply Bool.negb_false_iff. apply Z.leb_le. lia.
Qed.

(** One row of the simulation: a first draw chooses the list by
    [classify], a second one gives the probability. *)
Lemma simulate_row_classify (riskDist : RiskDistribution)
    (H Md L : list obj) (tx : obj) (g : rng) :
  exists r,
    simulated (classify riskDist (g 0%nat)) tx r /\
    simulate_row riskDist (H, Md, L) tx g =
    (Ok (if String.eqb (classify riskDist (g 0%nat)) "High" then (H ++ [r], Md, L)
         else if String.eqb (classify riskDist (g 0%nat)) "Medium" then (H, Md ++ [r], L)
         else (H, Md, L ++ [r])),
     rng_tail (rng_tail g)).
Proof.
  unfold simulate_row, classify, bind, random, ret.
  destruct (num_lt (Fin (g 0%nat)) (num_div (High riskDist) (totalRisk riskDist))).
  - eexists. split; [split; [eexists; reflexivity|apply getv_set_eq]|reflexivity].
  - destruct (num_lt (Fin (g 0%nat))
                (num_add (num_div (High riskDist) (totalRisk riskDist))
                   (num_div (Medium riskDist) (totalRisk riskDist)))).
    + eexists. split; [split; [eexists; reflexivity|apply getv_set_eq]|reflexivity].
    + eexists. split; [split; [eexists; reflexivity|apply getv_set_eq]|reflexivity].
Qed.

Lemma simulate_uniform (riskDist : RiskDistribution) (level : string)
    (data : list obj) :
  (forall rnd, 0 <= rnd /\ rnd < 1 -> classify riskDist rnd = level) ->
  forall (H Md L : list obj) (g : rng),
    rng_ok g ->
    exists rows g',
      Forall2 (simulated level) data rows /\
      simulate riskDist data (H, Md, L) g =
      (Ok (if String.eqb level "High" then (H ++ rows, Md, L)
           else if String.eqb level "Medium" then (H, Md ++ rows, L)
           else (H, Md, L ++ rows)),
       g').
Proof.
  intros Hc. induction data as [|tx data IH]; intros H Md L g Hg; cbn [simulate].
  - exists [], g. split; [constructor|]. unfold ret. rewrite !app_nil_r.
    destruct (String.eqb level "High"); [reflexivity|].
    destruct (String.eqb level "Medium"); reflexivity.
  - destruct (simulate_row_classify riskDist H Md L tx g) as (r & Hr & Erow).
    rewrite (Hc (g 0%nat) (Hg 0%nat)) in Hr, Erow.
    unfold bind. rewrite Erow.
    pose proof (rng_ok_tail _ (rng_ok_tail _ Hg)) as Hg'.
    destruct (String.eqb level "High") eqn:E1.
    + destruct (IH (H ++ [r]) Md L _ Hg') as (rows & g' & Hrows & ->).
      exists (r :: rows), g'. split; [constructor; assumption|].
      rewrite <- app_assoc. reflexivity.
    + destruct (String.eqb level "Medium") eqn:E2.
      * destruct (IH H (Md ++ [r]) L _ Hg') as (rows & g' & Hrows & ->).
        exists (r :: rows), g'. split; [constructor; assumption|].
        rewrite <- app_assoc. reflexivity.
      * destruct (IH H Md (L ++ [r]) _ Hg') as (rows & g' & Hrows & ->).
        exists (r :: rows), g'. split; [constructor; assumption|].
        rewrite <- app_assoc. reflexivity.
Qed.

Section Simulation.

Variable host : Host.

Lemma map_bucket_empty (b : Bucket) (f : option obj -> M obj) (g : rng) :
  empty_bucket b -> map_bucket b f g = (Ok [], g).
Proof. intros [->| ->]; reflexivity. Qed.

Lemma reconcile_uniform (riskDist : RiskDistribution)
    (riskDistribution : option RiskDistribution) (level : string)
    (data : list obj) (high medium low : Bucket) (g : rng) :
  match riskDistribution with Some d => d | None => zero_distribution end = riskDist ->
  (forall rnd, 0 <= rnd /\ rnd < 1 -> classify riskDist rnd = level) ->
  rng_ok g ->
  empty_bucket high -> empty_bucket medium -> empty_bucket low ->
  exists out g',
    reconcile host data (PredObject high medium low riskDistribution) g = (Ok out, g') /\
    Forall2 (simulated level) data (processedTransactions out) /\
    error out = None.
Proof.
  intros Hrd Hc Hg Hh Hm Hl. cbn [reconcile].
  unfold bind at 1. rewrite (map_bucket_empty high _ g Hh).
  unfold bind at 1. rewrite (map_bucket_empty medium _ g Hm).
  unfold bind at 1. rewrite (map_bucket_empty low _ g Hl).
  cbn [List.length Nat.eqb andb]. rewrite Hrd.
  destruct (simulate_uniform riskDist level data Hc [] [] [] g Hg)
    as (rows & g' & Hrows & Esim).
  unfold bind at 1. rewrite Esim.
  assert (Hcat : forall t : list obj * list obj * list obj,
            t = (if String.eqb level "High" then ([] ++ rows, [], [])
                 else if String.eqb level "Medium" then ([], [] ++ rows, [])
                 else ([], [], [] ++ rows)) ->
            (let '(a, b, c) := t in a ++ b ++ c) = rows).
  { intros t ->. destruct (String.eqb level "High"); [cbn [app]; apply app_nil_r|].
    destruct (String.eqb level "Medium"); [cbn [app]; apply app_nil_r|reflexivity]. }
  specialize (Hcat _ eq_refl).
  destruct (if String.eqb level "High" then ([] ++ rows, [], [])
            else if String.eqb level "Medium" then ([], [] ++ rows, [])
            else ([], [], [] ++ rows)) as [[a b] c].
  cbn beta iota in Hcat. rewrite Hcat.
  destruct rows as [|r rows].
  - inversion Hrows; subst. cbn [List.length Nat.eqb mapM]. rewrite bind_ret_l.
    exists (mkOutcome [] None), g'. repeat split. constructor.
  - cbn [List.length Nat.eqb].
    exists (mkOutcome (r :: rows) None), g'. repeat split. exact Hrows.
Qed.

End Simulation.

(** C4.  When the three buckets of the response are empty, every normalized
    row is classified by one draw compared with the cumulative thresholds
    of [riskDistribution]: below [High / total] it is High, else below
    [High / total + Medium / total] it is Medium, else Low.  For draws in
    [0, 1): with the distribution [{High: 100, Medium: 0, Low: 0}] every
    input row comes back, in order, with [risk_level] "High"; with no
    distribution or the all-zero one every input row comes back with
    "Low". *)
Theorem simulated_classification (host : Host) (data : list obj)
    (high medium low : Bucket) (g : rng) :
  rng_ok g ->
  empty_bucket high -> empty_bucket medium -> empty_bucket low ->
  (forall (riskDist : RiskDistribution) (H Md L : list obj) (tx : obj) (g0 : rng),
      exists r,
        simulated (classify riskDist (g0 0%nat)) tx r /\
        simulate_row riskDist (H, Md, L) tx g0 =
        (Ok (if String.eqb (classify riskDist (g0 0%nat)) "High" then (H ++ [r], Md, L)
             else if String.eqb (classify riskDist (g0 0%nat)) "Medium"
                  then (H, Md ++ [r], L)
                  else (H, Md, L ++ [r])),
         rng_tail (rng_tail g0))) /\
  (exists out g',
      reconcile host data (PredObject high medium low (Some all_high)) g = (Ok out, g') /\
      Forall2 (simulated "High") data (processedTransactions out)) /\
  (exists out g',
      reconcile host data (PredObject high medium low None) g = (Ok out, g') /\
      Forall2 (simulated "Low") data (processedTransactions out)) /\
  (exists out g',
      reconcile host data (PredObject high medium low (Some zero_distribution)) g
      = (Ok out, g') /\
      Forall2 (simulated "Low") data (processedTransactions out)).
Proof.
  intros Hg Hh Hm Hl. split; [|split; [|split]].
  - intros riskDist H Md L tx g0. apply simulate_row_classify.
  - destruct (reconcile_uniform host all_high (Some all_high) "High" data high medium low g
                eq_refl (fun rnd H => classify_all_high rnd (proj2 H)) Hg Hh Hm Hl)
      as (out & g' & E & H & _).
    exists out, g'. split; assumption.
  - destruct (reconcile_uniform host zero_distribution None "Low" data high medium low g
                eq_refl (fun rnd H => classify_zero rnd (proj1 H)) Hg Hh Hm Hl)
      as (out & g' & E & H & _).
    exists out, g'. split; assumption.
  - destruct (reconcile_uniform host zero_distribution (Some zero_distribution) "Low"
                data high medium low g
                eq_refl (fun rnd H => classify_zero rnd (proj1 H)) Hg Hh Hm Hl)
      as (out & g' & E & H & _).
    exists out, g'. split; assumption.
Qed.

Lemma simulated_classification_witness :
  let data := [[("id", VStr "a")]; [("id", VStr "b")]] in
  (exists out g',
      reconcile example_host data
        (PredObject BucketMissing (BucketArray []) BucketMissing (Some all_high))
        example_rng = (Ok out, g') /\
      Forall2 (simulated "High") data (processedTransactions out)) /\
  (exists out g',
      reconcile example_host data
        (PredObject BucketMissing (BucketArray []) BucketMissing None)
        example_rng = (Ok out, g') /\
      Forall2 (simulated "Low") data (processedTransactions out)) /\
  (exists out g',
      reconcile example_host data
        (PredObject BucketMissing (BucketArray []) BucketMissing (Some zero_distribution))
        example_rng = (Ok out, g') /\
      Forall2 (simulated "Low") data (processedTransactions out)).
Proof.
  apply (simulated_classification example_host
           [[("id", VStr "a")]; [("id", VStr "b")]]
           BucketMissing (BucketArray []) BucketMissing example_rng).
  - intros n. unfold example_rng, Qle, Qlt. simpl. lia.
  - left. reflexivity.
  - right. reflexivity.
  - left. reflexivity.
Defined.

(** ** The orchestration *)

Lemma random_risk_ok (tx : obj) (g : rng) :
  exists r g', random_risk tx g = (Ok r, g') /\ randomized tx r.
Proof.
  unfold random_risk, bind, random, ret.
  destruct (Qltb 0.7 (rng_tail g 0%nat)).
  - eexists; eexists. split; [reflexivity|].
    exists (g 0%nat), "High". split; [simpl; tauto|reflexivity].
  - destruct (Qltb 0.4 (rng_tail (rng_tail g) 0%nat)).
    + eexists; eexists. split; [reflexivity|].
      exists (g 0%nat), "Medium". split; [simpl; tauto|reflexivity].
    + eexists; eexists. split; [reflexivity|].
      exists (g 0%nat), "Low". split; [simpl; tauto|reflexivity].
Qed.

Lemma mapM_total {A B} (f : A -> M B) (P : A -> B -> Prop) (xs : list A) :
  (forall x g, exists y g', f x g = (Ok y, g') /\ P x y) ->
  forall g, exists ys g', mapM f xs g = (Ok ys, g') /\ Forall2 P xs ys.
Proof.
  intros Hf. induction xs as [|x xs IH]; intros g; cbn [mapM].
  - exists [], g. split; [reflexivity|constructor].
  - destruct (Hf x g) as (y & g1 & Ey & Hy).
    destruct (IH g1) as (ys & g2 & Eys & Hys).
    exists (y :: ys), g2. unfold bind. rewrite Ey, Eys.
    split; [reflexivity|constructor; assumption].
Qed.

Section Orchestration.

Variable host : Host.

(** The fallback of the prediction stage always returns: the uploaded rows
    with random risks and an error of status 500. *)
Lemma prediction_fallback_ok (data : list obj) (e : exn) (g : rng) :
  exists out g',
    prediction_fallback data e g = (Ok out, g') /\
    Forall2 randomized data (processedTransactions out) /\
    error out =
      Some (mkApiError
              ("Apache Spark cluster error: " ++ exn_message e
               ++ ". Using Dask for local processing with simulated fraud probabilities.")
              500).
Proof.
  unfold prediction_fallback. cbn [USE_DEMO_DATA_ON_ERROR].
  destruct (mapM_total random_risk randomized data random_risk_ok g)
    as (rows & g' & E & Hrows).
  unfold bind. rewrite E. eexists; eexists. split; [reflexivity|].
  split; [exact Hrows|reflexivity].
Qed.

End Orchestration.

(** The two inner blocks always return: an empty list and the status 400
    when the parsing, the normalization or the serialization fails; the
    uploaded rows with random risks and the status 500 when the prediction
    or the merge fails; the outcome of the merge otherwise. *)
Lemma guarded_pipeline_resolves (host : Host) (file : Upload) (g : rng) :
  exists out g',
    guarded_pipeline host file g = (Ok out, g') /\
    match processCSV host file g with
    | (Throw e, _) => out = csv_error e
    | (Ok data, g1) =>
        match unparse host (keys (hd [] data)) data with
        | Throw e => out = csv_error e
        | Ok text =>
            match prediction_stage host file data text g1 with
            | (Ok merged_outcome, _) => out = merged_outcome
            | (Throw e, _) =>
                Forall2 randomized data (processedTransactions out) /\
                error out =
                  Some (mkApiError
                          ("Apache Spark cluster error: " ++ exn_message e
                           ++ ". Using Dask for local processing with simulated fraud probabilities.")
                          500)
            end
        end
    end.
Proof.
  unfold guarded_pipeline, try_catch at 1, bind at 1.
  destruct (processCSV host file g) as [[data|e] g1].
  - unfold bind at 1, lift at 1.
    destruct (unparse host (keys (hd [] data)) data) as [text|e].
    + unfold try_catch. fold (prediction_stage host file data text).
      destruct (prediction_stage host file data text g1) as [[o|e] g2].
      * exists o, g2. split; reflexivity.
      * destruct (prediction_fallback_ok data e g2) as (out & g' & E & Hrows & Herr).
        rewrite E. exists out, g'. split; [reflexivity|]. split; assumption.
    + exists (csv_error e), g1. split; reflexivity.
  - exists (csv_error e), g1. split; reflexivity.
Qed.

(** The outermost handler, which generates the demo transactions, is never
    run: the two inner blocks catch every error and their handlers do not
    throw. *)
Lemma outer_handler_unused (host : Host) (file : Upload) (g : rng) :
  processTransactions host file g = guarded_pipeline host file g.
Proof.
  change (processTransactions host file)
    with (try_catch (guarded_pipeline host file) (general_failure host)).
  unfold try_catch at 1.
  destruct (guarded_pipeline_resolves host file g) as (out & g' & -> & _).
  reflexivity.
Qed.

(** C2 (as amended).  [processTransactions] never rejects: for every host,
    file and draws it resolves with a list of transactions and an optional
    error.  When the parsing, the normalization or the serialization fails,
    the list is empty and the error has status 400: no fallback data.
    When the prediction or the merge fails, the list is the uploaded rows,
    each with a random probability and level, and the error has status 500.
    Otherwise the outcome is that of the merge. *)
Theorem processTransactions_resolves (host : Host) (file : Upload) (g : rng) :
  exists out g',
    processTransactions host file g = (Ok out, g') /\
    match processCSV host file g with
    | (Throw e, _) => out = csv_error e
    | (Ok data, g1) =>
        match unparse host (keys (hd [] data)) data with
        | Throw e => out = csv_error e
        | Ok text =>
            match prediction_stage host file data text g1 with
            | (Ok merged_outcome, _) => out = merged_outcome
            | (Throw e, _) =>
                Forall2 randomized data (processedTransactions out) /\
                error out =
                  Some (mkApiError
                          ("Apache Spark cluster error: " ++ exn_message e
                           ++ ". Using Dask for local processing with simulated fraud probabilities.")
                          500)
            end
        end
    end.
Proof.
  rewrite outer_handler_unused. apply guarded_pipeline_resolves.
Qed.

(** The library reports a read error on the uploaded file: the function
    resolves with an empty list and the status 400, neither demo nor
    fallback transactions. *)
Lemma processTransactions_resolves_counterexample :
  processTransactions example_host
    (mkUpload "upload.csv" [ParseError (Error "File could not be read")]) example_rng
  = (Ok (mkOutcome []
           (Some (mkApiError
                    "Invalid CSV format for Spark/Dask processing: File could not be read"
                    400))),
     example_rng).
Proof. reflexivity. Qed.

(** * Further properties of the code *)

(** ** The CSV parser *)

Lemma parse_chunks_prefix (events : list ParseEvent) (acc results : list obj) :
  parse_chunks events acc = Ok results ->
  exists rest, acc ++ chunk_rows events = results ++ rest.
Proof.
  revert acc. induction events as [|ev events IH]; intros acc;
    cbn [parse_chunks chunk_rows].
  - intros H; inversion H; subst. exists []. reflexivity.
  - destruct ev as [rows|e]; [|discriminate].
    destruct (ROW_LIMIT <? List.length (acc ++ rows))%nat.
    + intros H; inversion H; subst. exists (chunk_rows events).
      rewrite app_assoc. reflexivity.
    + intros H. destruct (IH _ H) as (rest & E). exists rest.
      rewrite app_assoc. exact E.
Qed.

Lemma parse_chunks_all (events : list ParseEvent) (acc : list obj) :
  no_error events ->
  (List.length (acc ++ chunk_rows events) <= ROW_LIMIT)%nat ->
  parse_chunks events acc = Ok (acc ++ chunk_rows events).
Proof.
  intros H. revert acc. induction H as [|ev events Hev _ IH]; intros acc Hlen;
    cbn [parse_chunks chunk_rows] in *.
  - rewrite app_nil_r. reflexivity.
  - destruct ev as [rows|e]; [|destruct Hev].
    rewrite app_assoc in Hlen |- *.
    replace (ROW_LIMIT <? List.length (acc ++ rows))%nat with false.
    + apply IH. exact Hlen.
    + symmetry. apply Nat.ltb_ge. rewrite !length_app in *. lia.
Qed.

(** X1.  A file of at most 100,000 rows read without error is parsed in
    full: the parser completes with every row of every chunk, in order. *)
Theorem small_file_parsed_in_full (events : list ParseEvent) :
  no_error events ->
  (List.length (chunk_rows events) <= ROW_LIMIT)%nat ->
  parse_chunks events [] = Ok (chunk_rows events).
Proof.
  intros Hne Hlen. exact (parse_chunks_all events [] Hne Hlen).
Qed.

Lemma small_file_parsed_in_full_witness :
  parse_chunks [Chunk [[("amt", VStr "1")]]; Chunk []; Chunk [[("amt", VStr "2")]]] []
  = Ok [[("amt", VStr "1")]; [("amt", VStr "2")]].
Proof.
  apply (small_file_parsed_in_full
           [Chunk [[("amt", VStr "1")]]; Chunk []; Chunk [[("amt", VStr "2")]]]).
  - repeat constructor.
  - unfold ROW_LIMIT. simpl. lia.
Defined.

(** X2.  Whenever the parser completes, the rows it keeps are a prefix of
    the rows of the file: nothing is reordered, duplicated or skipped; they
    number at most 100,000 plus the size of the largest chunk; and rows are
    left out only when more than 100,000 were kept. *)
Theorem parsed_rows_prefix (events : list ParseEvent) (results : list obj) :
  parse_chunks events [] = Ok results ->
  (exists rest, chunk_rows events = results ++ rest) /\
  (List.length results <= ROW_LIMIT + max_chunk events)%nat /\
  (no_error events -> (List.length results <= ROW_LIMIT)%nat ->
   results = chunk_rows events).
Proof.
  intros H. split; [|split].
  - exact (parse_chunks_prefix events [] results H).
  - apply (parse_chunks_bound events [] results H). cbn [List.length]. lia.
  - intros Hne Hlen.
    destruct (Nat.le_gt_cases (List.length (chunk_rows events)) ROW_LIMIT) as [Hle|Hgt].
    + rewrite (parse_chunks_all events [] Hne Hle) in H. inversion H. reflexivity.
    + exfalso. clear Hne. revert H Hlen Hgt.
      change (chunk_rows events) with ([] ++ chunk_rows events).
      generalize (@nil obj) as acc.
      induction events as [|ev events IH]; intros acc; cbn [parse_chunks chunk_rows].
      * intros H; inversion H; subst. rewrite app_nil_r. lia.
      * destruct ev as [rows|e]; [|discriminate].
        destruct (ROW_LIMIT <? List.length (acc ++ rows))%nat eqn:E.
        -- intros H; inversion H; subst. apply Nat.ltb_lt in E. lia.
        -- rewrite app_assoc. apply IH.
Qed.

Lemma parsed_rows_prefix_witness :
  (exists rest,
      chunk_rows [Chunk [[("amt", VStr "1")]]; Chunk [[("amt", VStr "2")]]]
      = [[("amt", VStr "1")]; [("amt", VStr "2")]] ++ rest) /\
  (2 <= ROW_LIMIT + 1)%nat /\
  (no_error [Chunk [[("amt", VStr "1")]]; Chunk [[("amt", VStr "2")]]] ->
   (2 <= ROW_LIMIT)%nat ->
   [[("amt", VStr "1")]; [("amt", VStr "2")]]
   = chunk_rows [Chunk [[("amt", VStr "1")]]; Chunk [[("amt", VStr "2")]]]).
Proof.
  apply (parsed_rows_prefix
           [Chunk [[("amt", VStr "1")]]; Chunk [[("amt", VStr "2")]]]
           [[("amt", VStr "1")]; [("amt", VStr "2")]]).
  reflexivity.
Defined.

(** X3.  A read error reported before the cap is exceeded rejects the
    whole parse with that error, whatever was read before it; the rows of
    the earlier chunks are not returned. *)
Theorem read_error_rejects (host : Host) (name : string)
    (before after : list ParseEvent) (e : exn) (g : rng) :
  no_error before ->
  (List.length (chunk_rows before) <= ROW_LIMIT)%nat ->
  parse_chunks (before ++ ParseError e :: after) [] = Throw e /\
  processCSV host (mkUpload name (before ++ ParseError e :: after)) g = (Throw e, g).
Proof.
  intros Hne Hlen.
  assert (H : forall acc,
            (List.length (acc ++ chunk_rows before) <= ROW_LIMIT)%nat ->
            parse_chunks (before ++ ParseError e :: after) acc = Throw e).
  { induction Hne as [|ev events Hev _ IH]; intros acc Hacc;
      cbn [app parse_chunks chunk_rows] in *; [reflexivity|].
    destruct ev as [rows|e']; [|destruct Hev].
    rewrite app_assoc in Hacc.
    replace (ROW_LIMIT <? List.length (acc ++ rows))%nat with false.
    - apply IH; [|exact Hacc]. rewrite !length_app in *. lia.
    - symmetry. apply Nat.ltb_ge. rewrite !length_app in *. lia. }
  split; [apply H; exact Hlen|].
  unfold processCSV. cbn [upload_events]. rewrite (H [] Hlen). reflexivity.
Qed.

Lemma read_error_rejects_witness :
  parse_chunks ([Chunk [[("amt", VStr "1")]]] ++ ParseError (Error "read") :: []) []
  = Throw (Error "read") /\
  processCSV example_host
    (mkUpload "a.csv" ([Chunk [[("amt", VStr "1")]]] ++ ParseError (Error "read") :: []))
    example_rng
  = (Throw (Error "read"), example_rng).
Proof.
  apply (read_error_rejects example_host "a.csv" [Chunk [[("amt", VStr "1")]]] []
           (Error "read") example_rng).
  - repeat constructor.
  - unfold ROW_LIMIT. simpl. lia.
Defined.

(** ** The prediction client *)

(** X4.  [predictTransaction] returns data exactly when the file is not
    empty, the server answers with an ok status and the body parses as
    JSON; the data is then the parsed body. *)
Theorem predict_success_iff (host : Host) (file : File) (data : Prediction) :
  predictTransaction host file = Ok data <->
  file_size file <> 0%nat /\
  exists status statusText text,
    fetch host file = FetchResponded true status statusText text (Ok data).
Proof.
  unfold predictTransaction, predict_body. split.
  - destruct (file_size file =? 0)%nat eqn:Es.
    + cbn [exn_name Error]. cbn. discriminate.
    + apply Nat.eqb_neq in Es.
      destruct (fetch host file) as [e|ok status statusText text json].
      * destruct (String.eqb (exn_name e) "AbortError"); discriminate.
      * destruct ok; cbn [negb].
        -- destruct json as [d|e]; [|cbn; discriminate].
           intros H; inversion H; subst. split; [exact Es|].
           exists status, statusText, text. reflexivity.
        -- cbn. discriminate.
  - intros (Hs & status & statusText & text & ->).
    apply Nat.eqb_neq in Hs. rewrite Hs. reflexivity.
Qed.

(** X5.  Whatever the file and the network do, the error that
    [predictTransaction] throws is never an [AbortError]: an abort of the
    request is reported as an [Error] with the timeout message, and an
    empty file is refused with "Invalid or empty file" whatever the
    network would have answered. *)
Theorem predict_errors (host : Host) (file : File) :
  (forall e, predictTransaction host file = Throw e ->
             String.eqb (exn_name e) "AbortError" = false) /\
  (file_size file = 0%nat ->
   predictTransaction host file = Throw (Error "Invalid or empty file")) /\
  (forall e, file_size file <> 0%nat -> fetch host file = FetchRejected e ->
             String.eqb (exn_name e) "AbortError" = true ->
             predictTransaction host file = Throw (Error timeout_message)).
Proof.
  unfold predictTransaction, predict_body. split; [|split].
  - intros e. destruct (file_size file =? 0)%nat.
    + cbn. intros H; inversion H; reflexivity.
    + destruct (fetch host file) as [e0|ok status statusText text json].
      * destruct (String.eqb (exn_name e0) "AbortError") eqn:E;
          intros H; inversion H; subst; [reflexivity|exact E].
      * destruct ok; cbn [negb].
        -- destruct json as [d|e0]; [discriminate|].
           cbn. intros H; inversion H; reflexivity.
        -- cbn. intros H; inversion H; reflexivity.
  - intros ->. reflexivity.
  - intros e Hs -> Hn. apply Nat.eqb_neq in Hs. rewrite Hs, Hn. reflexivity.
Qed.

Lemma predict_success_iff_witness :
  predictTransaction online_host (mkFile "a.csv" "id") = Ok example_prediction.
Proof.
  apply (proj2 (predict_success_iff online_host (mkFile "a.csv" "id") example_prediction)).
  split.
  - vm_compute. lia.
  - exists 200%Z, "OK", (Ok ""). reflexivity.
Defined.

Lemma predict_errors_witness :
  predictTransaction timeout_host (mkFile "a.csv" "id") = Throw (Error timeout_message).
Proof.
  apply (proj2 (proj2 (predict_errors timeout_host (mkFile "a.csv" "id")))
           (mkExn "AbortError" "The user aborted a request.")).
  - vm_compute. lia.
  - reflexivity.
  - reflexivity.
Defined.

(** ** The row normalizer: which columns it touches *)

Lemma keeps_id (ks : list string) : keeps ks (fun p => p).
Proof. intros k p _; reflexivity. Qed.

Lemma keeps_set (ks : list string) (k' : string) (v : obj -> value) :
  In k' ks -> keeps ks (fun p => set k' (v p) p).
Proof.
  intros HIn k p Hk. rewrite get_set.
  destruct (String.eqb k k') eqn:E; [|reflexivity].
  apply String.eqb_eq in E; subst. apply string_mem_not_In in Hk. contradiction.
Qed.

Lemma keeps_set_all (ks : list string) (v : value) : keeps ks (set_all ks v).
Proof.
  intros k p Hk. unfold set_all.
  assert (H : forall l, (forall x, In x l -> In x ks) ->
            forall o, get k (fold_left (fun o k0 => set k0 v o) l o) = get k o).
  { induction l as [|x l IH]; intros Hl o; cbn [fold_left]; [reflexivity|].
    rewrite IH by (intros y Hy; apply Hl; right; exact Hy).
    apply (keeps_set ks x (fun _ => v)); [apply Hl; left; reflexivity|exact Hk]. }
  apply H. auto.
Qed.

Section Keeps.

Variable host : Host.
Variable row : obj.

Lemma fix_cc_num_keeps : keeps ["cc_num"] (fix_cc_num host row).
Proof.
  unfold fix_cc_num. destruct (truthy (getv "cc_num" row)).
  - apply (keeps_set _ _ (fun _ => _)). in_list.
  - apply keeps_id.
Qed.

Lemma fix_amount_keeps : keeps ["amt"; "amount"] (fix_amount host row).
Proof.
  unfold fix_amount. destruct (truthy (getv "amt" row)); [|apply keeps_id].
  intros k p Hk.
  rewrite (keeps_set ["amt"; "amount"] "amount" (fun p => getv "amt" p)) by (in_list || exact Hk).
  apply (keeps_set ["amt"; "amount"] "amt" (fun _ => _)); [in_list|exact Hk].
Qed.

Lemma fix_date_keeps (p p' : obj) (g g' : rng) (k : string) :
  fix_date host row p g = (Ok p', g') ->
  string_mem k date_keys = false -> get k p' = get k p.
Proof.
  unfold fix_date. intros H Hk.
  assert (Hne : forall k', In k' date_keys -> String.eqb k k' = false).
  { intros k' HIn. destruct (String.eqb k k') eqn:E; [|reflexivity].
    apply String.eqb_eq in E; subst. apply string_mem_not_In in Hk. contradiction. }
  destruct (truthy (getv "trans_date_trans_time" row)).
  - destruct (getv "trans_date_trans_time" row); try discriminate.
    unfold ret in H. inversion H; subst; clear H.
    destruct (parseDate host s).
    + unfold set_date_fields.
      match goal with
      | |- context [if ?b then _ else _] => destruct b
      end; rewrite !get_set, !Hne by in_list; reflexivity.
    + rewrite !get_set, !Hne by in_list. reflexivity.
  - unfold ret in H. inversion H; subst. reflexivity.
Qed.

Lemma after_date_get (p : obj) (k : string) :
  string_mem k (category_keys ++ ["gender_M"] ++ state_keys ++ ["age"]) = false ->
  get k (after_date host row p) = get k p.
Proof.
  intros Hk. rewrite !string_mem_app in Hk.
  apply Bool.orb_false_iff in Hk; destruct Hk as [H1 Hk].
  apply Bool.orb_false_iff in Hk; destruct Hk as [H2 Hk].
  apply Bool.orb_false_iff in Hk; destruct Hk as [H3 H4].
  assert (Hne : forall ks k', string_mem k ks = false -> In k' ks ->
                              String.eqb k k' = false).
  { intros ks k' Hm HIn. destruct (String.eqb k k') eqn:E; [|reflexivity].
    apply String.eqb_eq in E; subst. apply string_mem_not_In in Hm. contradiction. }
  unfold after_date.
  (* age *)
  unfold fix_age at 1.
  destruct (negb (truthy (getv "age" row)));
    [rewrite get_set, (Hne ["age"] "age" H4) by in_list|].
  all: unfold fix_state at 1;
    set (X := fix_gender host row (fix_category host row p));
    assert (HX : get k X = get k p)
      by (unfold X, fix_gender, fix_category;
          destruct (truthy (getv "gender" row)); destruct (truthy (getv "category" row));
          rewrite !get_set, (Hne ["gender_M"] "gender_M" H2) by in_list;
          rewrite ?(Hne category_keys _ H1) by (apply category_key_In || in_list);
          apply keeps_set_all; exact H1);
    assert (HZ : get k (set_all state_keys (num 0) X) = get k p)
      by (rewrite (keeps_set_all state_keys (num 0) k X H3); exact HX);
    assert (HF : forall v, get k (set_state_flag host v (set_all state_keys (num 0) X))
                           = get k p)
      by (intros v; unfold set_state_flag;
          destruct (string_mem (toUpperCase (toStr host v)) states) eqn:Em;
          [rewrite get_set, (Hne state_keys _ H3)
             by (unfold state_keys; apply in_map; apply string_mem_In; exact Em);
           exact HZ|exact HZ]).
  all: destruct (truthy (getv "state" row)); [apply HF|];
    destruct (truthy (getv "state" (set_all state_keys (num 0) X))); [apply HF|];
    rewrite get_set, (Hne state_keys "state_CA" H3) by (vm_compute; tauto); exact HZ.
Qed.

End Keeps.

Lemma get_or_key (k : string) (o : obj) :
  string_mem k (keys o) = true \/ get k o = None.
Proof.
  induction o as [|[k0 v0] o IH]; cbn [keys map fst string_mem get]; [right; reflexivity|].
  destruct (String.eqb k k0); [left; reflexivity|exact IH].
Qed.

Lemma drop_columns_dropped (row : obj) (k : string) :
  dropped_key k = true -> get k (drop_columns row row) = None.
Proof.
  intros Hd. unfold drop_columns.
  assert (H : forall ks p, string_mem k ks = true \/ get k p = None ->
            get k (fold_left (fun p key => if dropped_key key then del key p else p) ks p)
            = None).
  { induction ks as [|key ks IH]; intros p Hp; cbn [fold_left string_mem] in *.
    - destruct Hp as [Hp|Hp]; [discriminate|exact Hp].
    - apply IH. destruct (string_mem k ks); [left; reflexivity|right].
      rewrite Bool.orb_false_r in Hp.
      destruct (String.eqb k key) eqn:E.
      + apply String.eqb_eq in E; subst key. rewrite Hd, get_del, String.eqb_refl.
        reflexivity.
      + destruct Hp as [Hp|Hp]; [discriminate|].
        destruct (dropped_key key); [rewrite get_del, E|]; exact Hp. }
  apply H. apply get_or_key.
Qed.

Section Columns.

Variable host : Host.

Lemma before_date_get (row : obj) (id : value) (k : string) :
  string_mem k ["id"; "trans_num"; "cc_num"; "amt"; "amount"] = false ->
  get k (before_date host row id) = get k (drop_columns row row).
Proof.
  intros Hk. unfold before_date. cbn [string_mem] in Hk.
  repeat (apply Bool.orb_false_iff in Hk; destruct Hk as [? Hk]).
  rewrite fix_amount_keeps
    by (cbn [string_mem]; repeat (apply Bool.orb_false_iff; split); assumption).
  rewrite fix_cc_num_keeps
    by (cbn [string_mem]; repeat (apply Bool.orb_false_iff; split); assumption).
  rewrite !get_set.
  repeat match goal with H : String.eqb _ _ = false |- _ => rewrite H; clear H end.
  reflexivity.
Qed.

Lemma normalizeRow_get (row : obj) (g g' : rng) (p : obj) (k : string) :
  normalizeRow host row g = (Ok p, g') ->
  string_mem k written_keys = false ->
  get k p = get k (drop_columns row row).
Proof.
  intros H Hk. apply normalizeRow_ok in H.
  destruct H as (id & g1 & p1 & _ & Hdate & ->).
  unfold written_keys, early_keys in Hk. rewrite !string_mem_app in Hk.
  apply Bool.orb_false_iff in Hk; destruct Hk as [Hk Hrest].
  apply Bool.orb_false_iff in Hk; destruct Hk as [H1 Hk].
  apply Bool.orb_false_iff in Hk; destruct Hk as [H2 Hk].
  apply Bool.orb_false_iff in Hk; destruct Hk as [H3 H4].
  apply Bool.orb_false_iff in Hrest; destruct Hrest as [H5 H6].
  rewrite after_date_get
    by (rewrite !string_mem_app, H3, H4, H5, H6; reflexivity).
  rewrite (fix_date_keeps host row _ _ _ _ k Hdate H2).
  apply before_date_get. exact H1.
Qed.

End Columns.

Lemma written_keys_not_dropped (k : string) :
  dropped_key k = true -> string_mem k written_keys = false.
Proof.
  intros Hd. destruct (string_mem k written_keys) eqn:E; [|reflexivity].
  apply string_mem_In in E.
  assert (H : forallb (fun x => negb (dropped_key x)) written_keys = true)
    by (vm_compute; reflexivity).
  rewrite forallb_forall in H. specialize (H k E). rewrite Hd in H. discriminate.
Qed.

(** X6.  A column whose name is numeric (a number for [Number], the empty
    name included) or starts with Unnamed never appears in a normalized
    row. *)
Theorem dropped_columns_absent (host : Host) (row : obj) (g g' : rng) (p : obj)
    (k : string) :
  normalizeRow host row g = (Ok p, g') ->
  numeric_string k || startsWith k "Unnamed" = true ->
  get k p = None.
Proof.
  intros Hp Hd. fold (dropped_key k) in Hd.
  rewrite (normalizeRow_get host row g g' p k Hp (written_keys_not_dropped k Hd)).
  apply drop_columns_dropped. exact Hd.
Qed.

Lemma dropped_columns_absent_witness :
  get "6006" (normalized [("6006", VStr "x"); ("amt", VStr "3")]) = None.
Proof.
  apply (dropped_columns_absent example_host [("6006", VStr "x"); ("amt", VStr "3")]
           example_rng (rng_tail example_rng)
           (normalized [("6006", VStr "x"); ("amt", VStr "3")]) "6006").
  - reflexivity.
  - reflexivity.
Defined.

(** X7.  Every other column that the normalizer does not write (it writes
    the id, card and amount fields, the date fields, the category and state
    flags, [gender_M] and [age]) is in the normalized row exactly as in the
    raw row: present with the same value, or absent. *)
Theorem other_columns_kept (host : Host) (row : obj) (g g' : rng) (p : obj)
    (k : string) :
  normalizeRow host row g = (Ok p, g') ->
  numeric_string k || startsWith k "Unnamed" = false ->
  string_mem k written_keys = false ->
  get k p = get k row.
Proof.
  intros Hp Hd Hk. fold (dropped_key k) in Hd.
  rewrite (normalizeRow_get host row g g' p k Hp Hk).
  apply get_drop_columns. exact Hd.
Qed.

Lemma other_columns_kept_witness :
  get "merchant" (normalized [("merchant", VStr "Acme"); ("6006", VStr "x")])
  = Some (VStr "Acme").
Proof.
  apply (other_columns_kept example_host [("merchant", VStr "Acme"); ("6006", VStr "x")]
           example_rng (rng_tail example_rng)
           (normalized [("merchant", VStr "Acme"); ("6006", VStr "x")]) "merchant").
  - reflexivity.
  - reflexivity.
  - reflexivity.
Defined.

(** ** The row normalizer: the id *)

Lemma tx_id_range (r : Q) :
  0 <= r -> r < 1 ->
  (1000000 <= floorZ (1000000 + r * 9000000) <= 9999999)%Z.
Proof.
  intros H0 H1. unfold floorZ. split.
  - pose proof (Qfloor_resp_le (inject_Z 1000000) (1000000 + r * 9000000)) as H.
    rewrite Qfloor_Z in H. apply H. unfold inject_Z. lra.
  - pose proof (Qfloor_le (1000000 + r * 9000000)) as Hf.
    assert (Hlt : inject_Z (Qfloor (1000000 + r * 9000000)) < inject_Z 10000000).
    { unfold inject_Z at 2. lra. }
    rewrite <- Zlt_Qlt in Hlt. lia.
Qed.

(** X8.  In every normalized row [id] and [trans_num] hold the same truthy
    value: the raw [trans_num] when truthy, else the raw [id] when truthy,
    else a generated "TX-" followed by a whole number which, for a draw in
    [0, 1), lies between 1000000 and 9999999. *)
Theorem normalized_id (host : Host) (row : obj) (g g' : rng) (p : obj) :
  normalizeRow host row g = (Ok p, g') ->
  getv "trans_num" p = getv "id" p /\
  truthy (getv "id" p) = true /\
  getv "id" p =
    (if truthy (getv "trans_num" row) then getv "trans_num" row
     else if truthy (getv "id" row) then getv "id" row
     else VStr (tx_id (g 0%nat))) /\
  (0 <= g 0%nat /\ g 0%nat < 1 ->
   exists z, tx_id (g 0%nat) = String.append "TX-" (string_of_Z z) /\
             (1000000 <= z <= 9999999)%Z).
Proof.
  intros H. apply normalizeRow_ok in H.
  destruct H as (id & g1 & p1 & Hid & Hdate & ->).
  assert (Hk : forall k, string_mem k ["id"; "trans_num"] = true ->
            getv k (after_date host row p1) = id).
  { intros k Hk.
    assert (Hin : In k ["id"; "trans_num"]) by (apply string_mem_In; exact Hk).
    rewrite after_date_keeps
      by (destruct Hin as [<-|[<-|[]]]; vm_compute; reflexivity).
    rewrite (fix_date_preserves host row _ _ _ _ k Hdate)
      by (destruct Hin as [<-|[<-|[]]]; vm_compute; reflexivity).
    unfold before_date.
    rewrite fix_amount_preserves
      by (destruct Hin as [<-|[<-|[]]]; vm_compute; reflexivity).
    rewrite fix_cc_num_preserves
      by (destruct Hin as [<-|[<-|[]]]; vm_compute; reflexivity).
    destruct Hin as [<-|[<-|[]]]; rewrite !getv_set; reflexivity. }
  rewrite (Hk "id" eq_refl), (Hk "trans_num" eq_refl).
  split; [reflexivity|].
  unfold choose_id in Hid.
  destruct (truthy (getv "trans_num" row)) eqn:Et.
  - unfold ret in Hid. inversion Hid; subst.
    split; [exact Et|]. split; [reflexivity|].
    intros [H0 H1]. eexists. split; [reflexivity|apply tx_id_range; assumption].
  - destruct (truthy (getv "id" row)) eqn:Ei.
    + unfold ret in Hid. inversion Hid; subst.
      split; [exact Ei|]. split; [reflexivity|].
      intros [H0 H1]. eexists. split; [reflexivity|apply tx_id_range; assumption].
    + unfold bind, random, ret in Hid. inversion Hid; subst.
      split; [reflexivity|]. split; [reflexivity|].
      intros [H0 H1]. eexists. split; [reflexivity|apply tx_id_range; assumption].
Qed.

Lemma normalized_id_witness :
  getv "trans_num" (normalized [("id", VStr "a7")])
  = getv "id" (normalized [("id", VStr "a7")]) /\
  truthy (getv "id" (normalized [("id", VStr "a7")])) = true /\
  getv "id" (normalized [("id", VStr "a7")]) = VStr "a7" /\
  (0 <= example_rng 0%nat /\ example_rng 0%nat < 1 ->
   exists z, tx_id (example_rng 0%nat) = String.append "TX-" (string_of_Z z) /\
             (1000000 <= z <= 9999999)%Z).
Proof.
  apply (normalized_id example_host [("id", VStr "a7")] example_rng example_rng
           (normalized [("id", VStr "a7")])).
  reflexivity.
Defined.

(** ** The row normalizer: card number, gender, age and date *)

Section Fields.

Variable host : Host.

Lemma normalizeRow_gender (row : obj) (g g' : rng) (p : obj) :
  normalizeRow host row g = (Ok p, g') ->
  getv "gender_M" p =
    if truthy (getv "gender" row)
       && String.eqb (toUpperCase (toStr host (getv "gender" row))) "M"
    then num 1 else num 0.
Proof.
  intros H. apply normalizeRow_ok in H. destruct H as (id & g1 & p1 & _ & _ & ->).
  unfold after_date.
  rewrite fix_age_preserves, fix_state_preserves by (vm_compute; reflexivity).
  unfold fix_gender.
  destruct (truthy (getv "gender" row)); rewrite getv_set_eq; reflexivity.
Qed.

Lemma normalizeRow_age (row : obj) (g g' : rng) (p : obj) :
  normalizeRow host row g = (Ok p, g') ->
  getv "age" p = if truthy (getv "age" row) then getv "age" row else num 30.
Proof.
  intros H. apply normalizeRow_ok in H. destruct H as (id & g1 & p1 & _ & Hdate & ->).
  unfold after_date, fix_age.
  destruct (truthy (getv "age" row)); cbn [negb].
  - rewrite fix_state_preserves by (vm_compute; reflexivity).
    eapply input_kept; [exact Hdate| |]; vm_compute; reflexivity.
  - apply getv_set_eq.
Qed.

Lemma normalizeRow_cc_num (row : obj) (g g' : rng) (p : obj) :
  normalizeRow host row g = (Ok p, g') ->
  getv "cc_num" p =
    if truthy (getv "cc_num" row)
    then VStr (filter_string is_digit (toStr host (getv "cc_num" row)))
    else getv "cc_num" row.
Proof.
  intros H. apply normalizeRow_ok in H. destruct H as (id & g1 & p1 & _ & Hdate & ->).
  rewrite after_date_keeps by (vm_compute; reflexivity).
  rewrite (fix_date_preserves host row _ _ _ _ _ Hdate) by (vm_compute; reflexivity).
  unfold before_date.
  rewrite fix_amount_preserves by (vm_compute; reflexivity).
  unfold fix_cc_num. destruct (truthy (getv "cc_num" row)).
  - apply getv_set_eq.
  - rewrite !getv_set. cbn [String.eqb Ascii.eqb Bool.eqb].
    apply getv_drop_columns. vm_compute. reflexivity.
Qed.

End Fields.

(** X9.  When the raw [cc_num] is truthy, the normalized [cc_num] is a
    string made of decimal digits only: the digits of the raw value in
    their order, every other character removed; a falsy [cc_num] is left
    as it is. *)
Theorem normalized_card_number (host : Host) (row : obj) (g g' : rng) (p : obj) :
  normalizeRow host row g = (Ok p, g') ->
  if truthy (getv "cc_num" row) then
    exists digits,
      getv "cc_num" p = VStr digits /\
      string_forall is_digit digits = true /\
      digits = filter_string is_digit (toStr host (getv "cc_num" row))
  else getv "cc_num" p = getv "cc_num" row.
Proof.
  intros H. pose proof (normalizeRow_cc_num host row g g' p H) as E.
  destruct (truthy (getv "cc_num" row)); [|exact E].
  eexists. split; [exact E|]. split; [apply filter_string_forall|reflexivity].
Qed.

Lemma normalized_card_number_witness :
  exists digits,
    getv "cc_num" (normalized [("cc_num", VStr "4532 0151-1283")]) = VStr digits /\
    string_forall is_digit digits = true /\
    digits = filter_string is_digit "4532 0151-1283".
Proof.
  apply (normalized_card_number example_host [("cc_num", VStr "4532 0151-1283")]
           example_rng (rng_tail example_rng)
           (normalized [("cc_num", VStr "4532 0151-1283")])).
  reflexivity.
Defined.

(** X10.  In every normalized row [gender_M] is the number 1 when the raw
    gender is truthy and its text, upper-cased, is "M", and the number 0
    otherwise; [age] is truthy: the raw age when that is truthy, 30
    otherwise. *)
Theorem normalized_gender_and_age (host : Host) (row : obj) (g g' : rng) (p : obj) :
  normalizeRow host row g = (Ok p, g') ->
  getv "gender_M" p =
    (if truthy (getv "gender" row)
        && String.eqb (toUpperCase (toStr host (getv "gender" row))) "M"
     then num 1 else num 0) /\
  (getv "gender_M" p = num 0 \/ getv "gender_M" p = num 1) /\
  getv "age" p = (if truthy (getv "age" row) then getv "age" row else num 30) /\
  truthy (getv "age" p) = true.
Proof.
  intros H.
  pose proof (normalizeRow_gender host row g g' p H) as Eg.
  pose proof (normalizeRow_age host row g g' p H) as Ea.
  split; [exact Eg|]. split.
  - rewrite Eg. destruct (truthy (getv "gender" row) && _); [right|left]; reflexivity.
  - split; [exact Ea|]. rewrite Ea.
    destruct (truthy (getv "age" row)) eqn:E; [exact E|reflexivity].
Qed.

Lemma normalized_gender_and_age_witness :
  let p := normalized [("gender", VStr "m"); ("age", VStr "41")] in
  getv "gender_M" p = num 1 /\
  (getv "gender_M" p = num 0 \/ getv "gender_M" p = num 1) /\
  getv "age" p = VStr "41" /\
  truthy (getv "age" p) = true.
Proof.
  apply (normalized_gender_and_age example_host [("gender", VStr "m"); ("age", VStr "41")]
           example_rng (rng_tail example_rng)
           (normalized [("gender", VStr "m"); ("age", VStr "41")])).
  reflexivity.
Defined.

Lemma before_space_no_space (s : string) : includes (before_space s) " " = false.
Proof.
  induction s as [|c s IH]; cbn [before_space]; [reflexivity|].
  destruct (Ascii.eqb c " ") eqn:E; [reflexivity|].
  cbn [includes String.prefix]. rewrite IH.
  destruct (ascii_dec " " c) as [<-|Hne]; [rewrite Ascii.eqb_refl in E; discriminate|].
  reflexivity.
Qed.

(** X11.  When the raw [trans_date_trans_time] is a non-empty string, the
    normalized [date] is its text before the first space, which contains no
    space, and the raw text is kept.  When the host parses it as a valid
    date the derived fields are written, the month counted from 1, and a
    truthy raw [unix_time] is kept rather than recomputed; when the host
    does not, the six derived fields read as in the raw row. *)
Theorem normalized_date (host : Host) (row : obj) (g g' : rng) (p : obj) (s : string) :
  normalizeRow host row g = (Ok p, g') ->
  getv "trans_date_trans_time" row = VStr s ->
  String.eqb s "" = false ->
  getv "date" p = VStr (before_space s) /\
  includes (before_space s) " " = false /\
  getv "trans_date_trans_time" p = VStr s /\
  match parseDate host s with
  | Some d =>
      getv "transaction_hour" p = num (getHours d) /\
      getv "hour" p = num (getHours d) /\
      getv "year" p = num (getFullYear d) /\
      getv "month" p = num (getMonth d + 1) /\
      getv "day" p = num (getDate d) /\
      getv "unix_time" p =
        (if truthy (getv "unix_time" row) then getv "unix_time" row
         else num (getTime d / 1000))
  | None =>
      forall k, In k ["transaction_hour"; "year"; "month"; "day"; "hour"; "unix_time"] ->
                getv k p = getv k row
  end.
Proof.
  intros H Hv Hs. apply normalizeRow_ok in H.
  destruct H as (id & g1 & p1 & _ & Hdate & ->).
  assert (Hkeep : forall k, In k date_keys -> getv k (after_date host row p1) = getv k p1).
  { intros k Hk. apply after_date_keeps.
    apply (mem_disjoint date_keys); [vm_compute; reflexivity|exact Hk]. }
  assert (Hraw : forall k, In k ["transaction_hour"; "year"; "month"; "day"; "hour";
                                 "unix_time"] ->
            getv k (before_date host row id) = getv k row).
  { intros k Hk. apply before_date_keeps;
      repeat (destruct Hk as [<-|Hk]; [vm_compute; reflexivity|]); destruct Hk. }
  unfold fix_date in Hdate. rewrite Hv in Hdate.
  assert (Ht : truthy (VStr s) = true) by (cbn [truthy]; rewrite Hs; reflexivity).
  rewrite Ht in Hdate. unfold ret in Hdate. inversion Hdate; subst p1; clear Hdate.
  split; [|split; [apply before_space_no_space|split]].
  - rewrite Hkeep by in_list. destruct (parseDate host s);
      [unfold set_date_fields;
       match goal with |- context [if ?b then _ else _] => destruct b end|];
      rewrite !getv_set; reflexivity.
  - rewrite Hkeep by in_list. destruct (parseDate host s);
      [unfold set_date_fields;
       match goal with |- context [if ?b then _ else _] => destruct b end|];
      rewrite !getv_set; reflexivity.
  - destruct (parseDate host s) as [d|].
    + rewrite !Hkeep by in_list. unfold set_date_fields.
      assert (Hu : getv "unix_time"
                 (set "hour" (num (getHours d))
                    (set "day" (num (getDate d))
                       (set "month" (num (getMonth d + 1))
                          (set "year" (num (getFullYear d))
                             (set "transaction_hour" (num (getHours d))
                                (set "trans_date_trans_time" (VStr s)
                                   (set "date" (VStr (before_space s))
                                      (before_date host row id))))))))
               = getv "unix_time" row).
      { rewrite !getv_set. cbn [String.eqb Ascii.eqb Bool.eqb].
        apply Hraw. in_list. }
      rewrite Hu.
      destruct (truthy (getv "unix_time" row)); cbn [negb];
        rewrite !getv_set; cbn [String.eqb Ascii.eqb Bool.eqb];
        repeat split; try reflexivity.
      apply Hraw. in_list.
    + intros k Hk. rewrite Hkeep by (simpl in Hk |- *; tauto).
      rewrite <- (Hraw k Hk). rewrite !getv_set.
      repeat (destruct Hk as [<-|Hk]; [reflexivity|]). destruct Hk.
Qed.

Lemma normalized_date_witness :
  let p := normalized [("trans_date_trans_time", VStr "2020-06-21 12:14:25");
                       ("hour", VStr "7")] in
  getv "date" p = VStr "2020-06-21" /\
  includes "2020-06-21" " " = false /\
  getv "trans_date_trans_time" p = VStr "2020-06-21 12:14:25" /\
  forall k, In k ["transaction_hour"; "year"; "month"; "day"; "hour"; "unix_time"] ->
            getv k p = getv k [("trans_date_trans_time", VStr "2020-06-21 12:14:25");
                               ("hour", VStr "7")].
Proof.
  apply (normalized_date example_host
           [("trans_date_trans_time", VStr "2020-06-21 12:14:25"); ("hour", VStr "7")]
           example_rng (rng_tail example_rng)
           (normalized [("trans_date_trans_time", VStr "2020-06-21 12:14:25");
                        ("hour", VStr "7")])
           "2020-06-21 12:14:25").
  - reflexivity.
  - reflexivity.
  - reflexivity.
Defined.

(** ** The row normalizer: letter case *)

Lemma lower_upper_char (c : ascii) : lower_char (upper_char c) = lower_char c.
Proof. destruct c as [[] [] [] [] [] [] [] []]; vm_compute; reflexivity. Qed.

Lemma upper_lower_char (c : ascii) : upper_char (lower_char c) = upper_char c.
Proof. destruct c as [[] [] [] [] [] [] [] []]; vm_compute; reflexivity. Qed.

Lemma toLowerCase_toUpperCase (s : string) :
  toLowerCase (toUpperCase s) = toLowerCase s.
Proof.
  unfold toLowerCase, toUpperCase.
  induction s as [|c s IH]; cbn [map_string]; [reflexivity|].
  rewrite lower_upper_char, IH. reflexivity.
Qed.

Lemma toUpperCase_toLowerCase (s : string) :
  toUpperCase (toLowerCase s) = toUpperCase s.
Proof.
  unfold toLowerCase, toUpperCase.
  induction s as [|c s IH]; cbn [map_string]; [reflexivity|].
  rewrite upper_lower_char, IH. reflexivity.
Qed.

Lemma truthy_map_string (f : ascii -> ascii) (s : string) :
  truthy (VStr (map_string f s)) = truthy (VStr s).
Proof. destruct s; reflexivity. Qed.

(** X12.  The letter case of the category, state and gender texts does not
    matter: two raw rows of which the second holds the upper-cased category
    and the lower-cased state and gender of the first get the same
    thirteen category flags, the same fifty state flags and the same
    [gender_M]. *)
Theorem letter_case_irrelevant (host : Host) (row1 row2 : obj)
    (g1 g1' g2 g2' : rng) (p1 p2 : obj) (category state gender : string) :
  getv "category" row1 = VStr category ->
  getv "category" row2 = VStr (toUpperCase category) ->
  getv "state" row1 = VStr state ->
  getv "state" row2 = VStr (toLowerCase state) ->
  getv "gender" row1 = VStr gender ->
  getv "gender" row2 = VStr (toLowerCase gender) ->
  normalizeRow host row1 g1 = (Ok p1, g1') ->
  normalizeRow host row2 g2 = (Ok p2, g2') ->
  forall k, In k (category_keys ++ state_keys ++ ["gender_M"]) ->
            getv k p1 = getv k p2.
Proof.
  intros Hc1 Hc2 Hs1 Hs2 Hg1 Hg2 H1 H2 k Hk.
  apply in_app_or in Hk. destruct Hk as [Hk|Hk]; [|apply in_app_or in Hk; destruct Hk as [Hk|Hk]].
  - pose proof (normalizeRow_category_flags host row1 g1 g1' p1 H1) as [_ E1].
    pose proof (normalizeRow_category_flags host row2 g2 g2' p2 H2) as [_ E2].
    rewrite (E1 k Hk), (E2 k Hk). unfold category_hot.
    rewrite Hc1, Hc2. unfold toUpperCase at 1. rewrite truthy_map_string.
    cbn [toStr]. rewrite toLowerCase_toUpperCase. reflexivity.
  - pose proof (normalizeRow_state_flags host row1 g1 g1' p1 H1) as E1.
    pose proof (normalizeRow_state_flags host row2 g2 g2' p2 H2) as E2.
    unfold state_code in E1, E2. rewrite Hs1 in E1. rewrite Hs2 in E2.
    unfold toLowerCase at 1 in E2. rewrite truthy_map_string in E2.
    cbn [toStr] in E1, E2. fold toLowerCase in E2.
    rewrite toUpperCase_toLowerCase in E2.
    destruct (truthy (VStr state)).
    + destruct (string_mem (toUpperCase state) states).
      * destruct E1 as [_ E1]. destruct E2 as [_ E2].
        rewrite (E1 k Hk), (E2 k Hk). reflexivity.
      * rewrite (E1 k Hk), (E2 k Hk). reflexivity.
    + destruct E1 as [_ E1]. destruct E2 as [_ E2].
      rewrite (E1 k Hk), (E2 k Hk). reflexivity.
  - destruct Hk as [<-|[]].
    rewrite (normalizeRow_gender host row1 g1 g1' p1 H1).
    rewrite (normalizeRow_gender host row2 g2 g2' p2 H2).
    rewrite Hg1, Hg2. unfold toLowerCase at 1. rewrite truthy_map_string.
    cbn [toStr]. fold toLowerCase. rewrite toUpperCase_toLowerCase. reflexivity.
Qed.

Lemma letter_case_irrelevant_witness :
  getv "state_NY" (normalized [("category", VStr "Food_Dining"); ("state", VStr "Ny");
                               ("gender", VStr "M")])
  = getv "state_NY" (normalized [("category", VStr "FOOD_DINING"); ("state", VStr "ny");
                                 ("gender", VStr "m")]).
Proof.
  refine (letter_case_irrelevant example_host
           [("category", VStr "Food_Dining"); ("state", VStr "Ny"); ("gender", VStr "M")]
           [("category", VStr "FOOD_DINING"); ("state", VStr "ny"); ("gender", VStr "m")]
           example_rng (rng_tail example_rng) example_rng (rng_tail example_rng)
           (normalized [("category", VStr "Food_Dining"); ("state", VStr "Ny");
                        ("gender", VStr "M")])
           (normalized [("category", VStr "FOOD_DINING"); ("state", VStr "ny");
                        ("gender", VStr "m")])
           "Food_Dining" "Ny" "M" _ _ _ _ _ _ _ _ "state_NY" _).
  all: try reflexivity.
  apply in_or_app. right. apply in_or_app. left.
  vm_compute. tauto.
Defined.

(** ** The simulated classification in general *)

Lemma perm_three {A} (a1 b1 c1 a2 b2 c2 : list A) :
  Permutation ((a1 ++ b1 ++ c1) ++ (a2 ++ b2 ++ c2))
              ((a1 ++ a2) ++ (b1 ++ b2) ++ (c1 ++ c2)).
Proof.
  rewrite <- !app_assoc. apply Permutation_app_head.
  transitivity (a2 ++ (b1 ++ c1) ++ b2 ++ c2).
  - rewrite (app_assoc b1 c1). apply Permutation_app_swap_app.
  - apply Permutation_app_head. rewrite <- app_assoc. apply Permutation_app_head.
    apply Permutation_app_swap_app.
Qed.

Section SimulationInGeneral.

Variable Pd : Q -> Prop.

Lemma simulate_row_adds (riskDist : RiskDistribution) (H Md L : list obj) (tx : obj)
    (g : rng) :
  Pd (g 1%nat) ->
  exists r hs ms ls,
    simulate_row riskDist (H, Md, L) tx g
    = (Ok (H ++ hs, Md ++ ms, L ++ ls), rng_tail (rng_tail g)) /\
    simulated_row Pd tx r /\
    Permutation [r] (hs ++ ms ++ ls) /\
    Forall (simulated_as Pd "High" tx) hs /\
    Forall (simulated_as Pd "Medium" tx) ms /\
    Forall (simulated_as Pd "Low" tx) ls.
Proof.
  intros Hd. unfold simulate_row, bind, random, ret.
  change (rng_tail g 0%nat) with (g 1%nat).
  assert (Hs : forall level, simulated_as Pd level tx
            (set "risk_level" (VStr level)
               (set "fraud_probability"
                  (VNum (Fin (simulated_probability level (g 1%nat)))) tx)))
    by (intros level; exists (g 1%nat); split; [exact Hd|reflexivity]).
  destruct (num_lt (Fin (g 0%nat)) (num_div (High riskDist) (totalRisk riskDist))).
  - exists (set "risk_level" (VStr "High")
              (set "fraud_probability"
                 (VNum (Fin (simulated_probability "High" (g 1%nat)))) tx)).
    eexists [_], [], []. rewrite !app_nil_r.
    split; [reflexivity|].
    split; [exists "High"; split; [in_list|apply Hs]|].
    split; [apply Permutation_refl|].
    repeat split; repeat constructor. apply Hs.
  - destruct (num_lt (Fin (g 0%nat))
                (num_add (num_div (High riskDist) (totalRisk riskDist))
                   (num_div (Medium riskDist) (totalRisk riskDist)))).
    + exists (set "risk_level" (VStr "Medium")
                (set "fraud_probability"
                   (VNum (Fin (simulated_probability "Medium" (g 1%nat)))) tx)).
      eexists [], [_], []. rewrite !app_nil_r.
      split; [reflexivity|].
      split; [exists "Medium"; split; [in_list|apply Hs]|].
      split; [apply Permutation_refl|].
      repeat split; repeat constructor. apply Hs.
    + exists (set "risk_level" (VStr "Low")
                (set "fraud_probability"
                   (VNum (Fin (simulated_probability "Low" (g 1%nat)))) tx)).
      eexists [], [], [_]. rewrite !app_nil_r.
      split; [reflexivity|].
      split; [exists "Low"; split; [in_list|apply Hs]|].
      split; [apply Permutation_refl|].
      repeat split; repeat constructor. apply Hs.
Qed.

Lemma Forall_simulated_In (level : string) (tx : obj) (all : list obj) (l : list obj) :
  In tx all ->
  Forall (simulated_as Pd level tx) l ->
  Forall (fun r => exists tx', In tx' all /\ simulated_as Pd level tx' r) l.
Proof.
  intros HIn H. induction H; constructor; [exists tx; split; assumption|assumption].
Qed.

Lemma simulate_partitions (riskDist : RiskDistribution) (all data : list obj) :
  incl data all ->
  forall (H Md L : list obj) (g : rng),
    (forall n, Pd (g n)) ->
    exists hs ms ls rows g',
      simulate riskDist data (H, Md, L) g = (Ok (H ++ hs, Md ++ ms, L ++ ls), g') /\
      Forall2 (simulated_row Pd) data rows /\
      Permutation rows (hs ++ ms ++ ls) /\
      Forall (fun r => exists tx, In tx all /\ simulated_as Pd "High" tx r) hs /\
      Forall (fun r => exists tx, In tx all /\ simulated_as Pd "Medium" tx r) ms /\
      Forall (fun r => exists tx, In tx all /\ simulated_as Pd "Low" tx r) ls.
Proof.
  induction data as [|tx data IH]; intros Hincl H Md L g Hg; cbn [simulate].
  - exists [], [], [], [], g. rewrite !app_nil_r. unfold ret.
    split; [reflexivity|]. repeat split; constructor.
  - destruct (simulate_row_adds riskDist H Md L tx g (Hg 1%nat))
      as (r & hs1 & ms1 & ls1 & E1 & Hr & Hp1 & Hh1 & Hm1 & Hl1).
    assert (Htx : In tx all) by (apply Hincl; left; reflexivity).
    assert (Hincl' : incl data all) by (intros x Hx; apply Hincl; right; exact Hx).
    destruct (IH Hincl' (H ++ hs1) (Md ++ ms1) (L ++ ls1) (rng_tail (rng_tail g))
                (fun n => Hg (S (S n))))
      as (hs & ms & ls & rows & g' & E & Hrows & Hp & Hh & Hm & Hl).
    exists (hs1 ++ hs), (ms1 ++ ms), (ls1 ++ ls), (r :: rows), g'.
    unfold bind. rewrite E1, E.
    split; [rewrite !app_assoc; reflexivity|]. split; [constructor; assumption|].
    split.
    + change (r :: rows) with ([r] ++ rows).
      transitivity ((hs1 ++ ms1 ++ ls1) ++ (hs ++ ms ++ ls));
        [apply Permutation_app; assumption|apply perm_three].
    + repeat split; apply Forall_app; split; try assumption;
        eapply Forall_simulated_In; eassumption.
Qed.

End SimulationInGeneral.

Lemma simulated_row_classified (Pd : Q -> Prop) (tx r : obj) :
  simulated_row Pd tx r -> classified_row tx r.
Proof.
  intros (level & HIn & d & _ & ->). exists level. split; [exact HIn|].
  split; [eexists; reflexivity|apply getv_set_eq].
Qed.

Lemma Forall2_implies {A B} (P R : A -> B -> Prop) :
  (forall a b, P a b -> R a b) ->
  forall l l', Forall2 P l l' -> Forall2 R l l'.
Proof. intros H l l' HF. induction HF; constructor; auto. Qed.

Lemma simulated_as_band (level : string) (lo hi : Q) (tx r : obj) :
  (forall d, unit_draw d ->
             lo <= simulated_probability level d /\ simulated_probability level d <= hi) ->
  simulated_as unit_draw level tx r -> level_in_band level lo hi r.
Proof.
  intros Hband (d & Hd & ->). split; [apply getv_set_eq|].
  exists (simulated_probability level d).
  rewrite getv_set_ne by discriminate. rewrite getv_set_eq.
  split; [reflexivity|apply Hband; exact Hd].
Qed.

Lemma bands_of_levels :
  (forall d, unit_draw d ->
      0.7 <= simulated_probability "High" d /\ simulated_probability "High" d <= 1) /\
  (forall d, unit_draw d ->
      0.4 <= simulated_probability "Medium" d /\ simulated_probability "Medium" d <= 0.7) /\
  (forall d, unit_draw d ->
      0 <= simulated_probability "Low" d /\ simulated_probability "Low" d <= 0.4).
Proof.
  unfold unit_draw, simulated_probability. cbn [String.eqb Ascii.eqb Bool.eqb].
  repeat split; lra.
Qed.

(** X13.  When the three buckets are empty, whatever the distribution, the
    simulated classification keeps every normalized row exactly once: the
    result is a rearrangement of the rows, each with a level and a
    probability added, High rows first, then Medium, then Low; for draws in
    [0, 1) the probability of a High row is at least 0.7 and at most 1, of
    a Medium row at least 0.4 and at most 0.7, of a Low row at least 0 and
    at most 0.4, so that a Medium row may have the probability 0.7 at which
    the High band starts. *)
Theorem simulation_keeps_every_row (host : Host) (data : list obj)
    (high medium low : Bucket) (riskDistribution : option RiskDistribution) (g : rng) :
  rng_ok g ->
  empty_bucket high -> empty_bucket medium -> empty_bucket low ->
  exists hs ms ls rows g',
    reconcile host data (PredObject high medium low riskDistribution) g
    = (Ok (mkOutcome (hs ++ ms ++ ls) None), g') /\
    Forall2 classified_row data rows /\
    Permutation rows (hs ++ ms ++ ls) /\
    Forall (level_in_band "High" 0.7 1) hs /\
    Forall (level_in_band "Medium" 0.4 0.7) ms /\
    Forall (level_in_band "Low" 0 0.4) ls.
Proof.
  intros Hg Hh Hm Hl. cbn [reconcile].
  unfold bind at 1. rewrite (map_bucket_empty high _ g Hh).
  unfold bind at 1. rewrite (map_bucket_empty medium _ g Hm).
  unfold bind at 1. rewrite (map_bucket_empty low _ g Hl).
  cbn [List.length Nat.eqb andb].
  destruct (simulate_partitions unit_draw
              (match riskDistribution with Some d => d | None => zero_distribution end)
              data data (incl_refl data) [] [] [] g Hg)
    as (hs & ms & ls & rows & g' & E & Hrows & Hp & HH & HM & HL).
  apply (Forall2_implies _ _ (simulated_row_classified unit_draw)) in Hrows.
  cbn [app] in E. unfold bind at 1. rewrite E.
  destruct bands_of_levels as (BH & BM & BL).
  assert (Hbands :
            Forall (level_in_band "High" 0.7 1) hs /\
            Forall (level_in_band "Medium" 0.4 0.7) ms /\
            Forall (level_in_band "Low" 0 0.4) ls).
  { repeat split.
    - eapply Forall_impl; [|exact HH]. intros r (tx & _ & Hr).
      exact (simulated_as_band _ _ _ tx r BH Hr).
    - eapply Forall_impl; [|exact HM]. intros r (tx & _ & Hr).
      exact (simulated_as_band _ _ _ tx r BM Hr).
    - eapply Forall_impl; [|exact HL]. intros r (tx & _ & Hr).
      exact (simulated_as_band _ _ _ tx r BL Hr). }
  destruct (hs ++ ms ++ ls) as [|r0 out] eqn:Eout.
  - apply Permutation_sym, Permutation_nil in Hp. subst rows.
    inversion Hrows; subst. cbn [List.length Nat.eqb mapM]. rewrite bind_ret_l.
    exists hs, ms, ls, [], g'. rewrite Eout.
    split; [reflexivity|]. split; [constructor|]. split; [constructor|exact Hbands].
  - cbn [List.length Nat.eqb].
    exists hs, ms, ls, rows, g'. rewrite Eout.
    split; [reflexivity|]. split; [exact Hrows|]. split; [exact Hp|exact Hbands].
Qed.

Lemma simulation_keeps_every_row_witness :
  exists hs ms ls rows g',
    reconcile example_host [[("id", VStr "a")]; [("id", VStr "b")]]
      (PredObject BucketMissing BucketMissing (BucketArray [])
         (Some (mkRiskDistribution (Fin 1) (Fin 1) (Fin 2))))
      example_rng
    = (Ok (mkOutcome (hs ++ ms ++ ls) None), g') /\
    Forall2 classified_row [[("id", VStr "a")]; [("id", VStr "b")]] rows /\
    Permutation rows (hs ++ ms ++ ls) /\
    Forall (level_in_band "High" 0.7 1) hs /\
    Forall (level_in_band "Medium" 0.4 0.7) ms /\
    Forall (level_in_band "Low" 0 0.4) ls.
Proof.
  apply (simulation_keeps_every_row example_host
           [[("id", VStr "a")]; [("id", VStr "b")]]
           BucketMissing BucketMissing (BucketArray [])
           (Some (mkRiskDistribution (Fin 1) (Fin 1) (Fin 2))) example_rng).
  - intros n. unfold example_rng, Qle, Qlt. simpl. lia.
  - left. reflexivity.
  - left. reflexivity.
  - right. reflexivity.
Defined.

(** ** Every returned transaction has a level *)

Lemma valid_of_level (level : string) (r : obj) :
  In level ["High"; "Medium"; "Low"] ->
  getv "risk_level" r = VStr level -> valid_risk_level r.
Proof.
  unfold valid_risk_level.
  intros [<-|[<-|[<-|[]]]] ->; tauto.
Qed.

Lemma randomized_valid (tx r : obj) : randomized tx r -> valid_risk_level r.
Proof.
  intros (p & level & Hl & ->). apply (valid_of_level level); [exact Hl|].
  apply getv_set_eq.
Qed.

Lemma merged_valid (level : string) (d : Q) (l : list (option obj)) (rs : list obj) :
  In level ["High"; "Medium"; "Low"] ->
  Forall2 (merged level d) l rs -> Forall valid_risk_level rs.
Proof.
  intros Hl H. induction H as [|otx r l rs (tx & _ & Hr & _) _ IH]; constructor;
    [exact (valid_of_level level r Hl Hr)|exact IH].
Qed.

Lemma Forall2_right {A B} (P : A -> B -> Prop) (Q : B -> Prop) (l : list A) (rs : list B) :
  (forall a b, P a b -> Q b) -> Forall2 P l rs -> Forall Q rs.
Proof.
  intros HPQ H. induction H; constructor; eauto.
Qed.

Section Levels.

Variable host : Host.

Lemma reconcile_levels (data : list obj) (prediction : Prediction) (g g' : rng)
    (out : Outcome) :
  reconcile host data prediction g = (Ok out, g') ->
  Forall valid_risk_level (processedTransactions out) /\ error out = None.
Proof.
  destruct prediction as [|high medium low riskDistribution]; [discriminate|].
  cbn [reconcile]. unfold bind at 1.
  destruct (map_bucket high _ g) as [[H|e] g1] eqn:EH; [|discriminate].
  unfold bind at 1.
  destruct (map_bucket medium _ g1) as [[Md|e] g2] eqn:EM; [|discriminate].
  unfold bind at 1.
  destruct (map_bucket low _ g2) as [[L|e] g3] eqn:EL; [|discriminate].
  apply map_bucket_merged in EH, EM, EL.
  apply (merged_valid "High") in EH; [|in_list].
  apply (merged_valid "Medium") in EM; [|in_list].
  apply (merged_valid "Low") in EL; [|in_list].
  assert (Hfinish : forall (a b c : list obj) (g4 : rng),
            Forall valid_risk_level (a ++ b ++ c) ->
            (if (List.length (a ++ b ++ c) =? 0)%nat
             then fallbackTxs <- mapM random_risk data ;; ret (mkOutcome fallbackTxs None)
             else ret (mkOutcome (a ++ b ++ c) None)) g4 = (Ok out, g') ->
            Forall valid_risk_level (processedTransactions out) /\ error out = None).
  { intros a b c g4 Habc.
    destruct (List.length (a ++ b ++ c) =? 0)%nat.
    - destruct (mapM_total random_risk randomized data random_risk_ok g4)
        as (rows & g5 & E & Hrows).
      unfold bind. rewrite E. unfold ret. intros Hout; inversion Hout; subst.
      split; [|reflexivity]. cbn [processedTransactions].
      exact (Forall2_right _ _ _ _ randomized_valid Hrows).
    - unfold ret. intros Hout; inversion Hout; subst. split; [exact Habc|reflexivity]. }
  destruct ((List.length H =? 0)%nat && (List.length Md =? 0)%nat
            && (List.length L =? 0)%nat) eqn:Eempty.
  - destruct H; [|discriminate]. destruct Md; [|discriminate]. destruct L; [|discriminate].
    destruct (simulate_partitions (fun _ => True)
                (match riskDistribution with Some d => d | None => zero_distribution end)
                data data (incl_refl data) [] [] [] g3 (fun _ => I))
      as (hs & ms & ls & rows & g4 & E & _ & _ & HH & HM & HL).
    cbn [app] in E. unfold bind at 1. rewrite E. apply Hfinish.
    repeat (apply Forall_app; split).
    + eapply Forall_impl; [|exact HH]. intros r (tx & _ & d & _ & ->).
      apply (valid_of_level "High"); [in_list|apply getv_set_eq].
    + eapply Forall_impl; [|exact HM]. intros r (tx & _ & d & _ & ->).
      apply (valid_of_level "Medium"); [in_list|apply getv_set_eq].
    + eapply Forall_impl; [|exact HL]. intros r (tx & _ & d & _ & ->).
      apply (valid_of_level "Low"); [in_list|apply getv_set_eq].
  - rewrite bind_ret_l. apply Hfinish.
    repeat (apply Forall_app; split); assumption.
Qed.

End Levels.

(** X14.  Whatever happens, each transaction that [processTransactions]
    returns has the [risk_level] "Low", "Medium" or "High", so that
    [calculateRiskDistribution] on its result gives the three counts and
    they add up to the number of transactions returned.  The error, when
    there is one, has status 400 with an empty list, or status 500. *)
Theorem returned_transactions_have_levels (host : Host) (file : Upload) (g : rng) :
  exists out g',
    processTransactions host file g = (Ok out, g') /\
    Forall valid_risk_level (processedTransactions out) /\
    (exists l m h : Z,
        calculateRiskDistribution host (processedTransactions out)
        = [mkEntry "Low" (num l); mkEntry "Medium" (num m); mkEntry "High" (num h)] /\
        (l + m + h = Z.of_nat (List.length (processedTransactions out)))%Z) /\
    match error out with
    | None => True
    | Some e =>
        (statusCode e = 400%Z /\ processedTransactions out = []) \/ statusCode e = 500%Z
    end.
Proof.
  rewrite outer_handler_unused.
  destruct (guarded_pipeline_resolves host file g) as (out & g' & E & Hcases).
  exists out, g'. split; [exact E|].
  assert (H : Forall valid_risk_level (processedTransactions out) /\
              match error out with
              | None => True
              | Some e =>
                  (statusCode e = 400%Z /\ processedTransactions out = [])
                  \/ statusCode e = 500%Z
              end).
  { destruct (processCSV host file g) as [[data|e] g1].
    - destruct (unparse host (keys (hd [] data)) data) as [text|e].
      + destruct (prediction_stage host file data text g1) as [[o|e] g2] eqn:Ep.
        * subst o. unfold prediction_stage, bind, lift in Ep.
          destruct (predictTransaction host (mkFile (upload_name file) text))
            as [prediction|e]; [|discriminate].
          destruct (reconcile_levels host data prediction g1 g2 out Ep) as [Hv He].
          rewrite He. split; [exact Hv|exact I].
        * destruct Hcases as [Hrows He]. rewrite He. split; [|right; reflexivity].
          exact (Forall2_right _ _ _ _ randomized_valid Hrows).
      + subst out. split; [constructor|left; split; reflexivity].
    - subst out. split; [constructor|left; split; reflexivity]. }
  destruct H as [Hv Hs]. split; [exact Hv|]. split; [|exact Hs].
  unfold calculateRiskDistribution.
  destruct (count_levels host (processedTransactions out) 0 0 0 Hv)
    as (l & m & h & -> & _ & Hsum).
  exists l, m, h. split; [reflexivity|lia].
Qed.

(** ** The demo transactions *)

(** X15.  The outermost handler of [processTransactions], the only user of
    [generateMockTransactions], is never run: for every host, file and
    draws the function behaves as its two inner [try] blocks alone. *)
Theorem demo_data_never_returned (host : Host) (file : Upload) (g : rng) :
  processTransactions host file g = guarded_pipeline host file g.
Proof. apply outer_handler_unused. Qed.

(** ** The index of the normalized rows and the merge *)

Lemma Qeq_bool_sym' (x y : Q) : Qeq_bool x y = Qeq_bool y x.
Proof.
  destruct (Qeq_bool x y) eqn:E1, (Qeq_bool y x) eqn:E2; try reflexivity.
  - apply Qeq_bool_iff in E1. symmetry in E1. apply Qeq_bool_iff in E1. congruence.
  - apply Qeq_bool_iff in E2. symmetry in E2. apply Qeq_bool_iff in E2. congruence.
Qed.

Lemma same_value_zero_sym (a b : value) : same_value_zero a b = same_value_zero b a.
Proof.
  destruct a as [| |x|[x|]|x], b as [| |y|[y|]|y]; cbn; try reflexivity.
  - destruct x, y; reflexivity.
  - apply Qeq_bool_sym'.
  - apply String.eqb_sym.
Qed.

Lemma same_value_zero_trans (a b c : value) :
  same_value_zero a b = true -> same_value_zero b c = true -> same_value_zero a c = true.
Proof.
  destruct a as [| |x|[x|]|x], b as [| |y|[y|]|y]; cbn; try discriminate;
    destruct c as [| |z|[z|]|z]; cbn; try discriminate; try reflexivity.
  - destruct x, y, z; cbn; congruence.
  - intros H1 H2. apply Qeq_bool_iff in H1, H2. apply Qeq_bool_iff.
    rewrite H1. exact H2.
  - intros H1 H2. apply String.eqb_eq in H1, H2. subst. apply String.eqb_refl.
Qed.

Lemma map_get_set (k k' : value) (o : obj) (m : jsmap) :
  map_get k (map_set k' o m) = if same_value_zero k k' then Some o else map_get k m.
Proof.
  induction m as [|[k0 o0] m IH]; cbn [map_set map_get]; [reflexivity|].
  destruct (same_value_zero k' k0) eqn:E0; cbn [map_get].
  - assert (Eq : same_value_zero k k0 = same_value_zero k k').
    { destruct (same_value_zero k k') eqn:E1.
      - exact (same_value_zero_trans _ _ _ E1 E0).
      - destruct (same_value_zero k k0) eqn:E2; [|reflexivity].
        rewrite same_value_zero_sym in E0.
        rewrite (same_value_zero_trans _ _ _ E2 E0) in E1. discriminate. }
    rewrite Eq. destruct (same_value_zero k k'); reflexivity.
  - rewrite IH. destruct (same_value_zero k k0) eqn:E2; [|reflexivity].
    destruct (same_value_zero k k') eqn:E1; [|reflexivity].
    rewrite same_value_zero_sym in E1.
    rewrite (same_value_zero_trans _ _ _ E1 E2) in E0. discriminate.
Qed.

Lemma find_app' {A} (f : A -> bool) (l l' : list A) :
  find f (l ++ l') = match find f l with Some x => Some x | None => find f l' end.
Proof.
  induction l as [|x l IH]; cbn [app find]; [reflexivity|].
  destruct (f x); [reflexivity|exact IH].
Qed.

(** X16.  The index of the normalized rows answers a lookup with the last
    uploaded row filed under that key (its truthy [id], else its truthy
    [trans_num]), keys being compared as a [Map] does; with no such row the
    lookup finds nothing.  In particular a later row with the same id
    replaces an earlier one. *)
Theorem index_lookup (preprocessedData : list obj) (k : value) :
  map_get k (originalTransactionMap preprocessedData)
  = find (filed_under k) (rev preprocessedData).
Proof.
  unfold originalTransactionMap.
  assert (H : forall data m,
            map_get k
              (fold_left
                 (fun m tx =>
                    if truthy (getv "id" tx) then map_set (getv "id" tx) tx m
                    else if truthy (getv "trans_num" tx)
                         then map_set (getv "trans_num" tx) tx m
                         else m) data m)
            = match find (filed_under k) (rev data) with
              | Some tx => Some tx
              | None => map_get k m
              end).
  { induction data as [|tx data IH]; intros m; cbn [fold_left rev]; [reflexivity|].
    rewrite IH, find_app'. destruct (find (filed_under k) (rev data)); [reflexivity|].
    cbn [find]. unfold filed_under, row_key.
    destruct (truthy (getv "id" tx)).
    - rewrite map_get_set. destruct (same_value_zero k (getv "id" tx)); reflexivity.
    - destruct (truthy (getv "trans_num" tx)); [|reflexivity].
      rewrite map_get_set.
      destruct (same_value_zero k (getv "trans_num" tx)); reflexivity. }
  rewrite H. destruct (find (filed_under k) (rev preprocessedData)); reflexivity.
Qed.

Lemma get_spread (a b : obj) (k : string) :
  NoDup (keys b) ->
  get k (spread a b) = match get k b with Some v => Some v | None => get k a end.
Proof.
  unfold spread. revert a. induction b as [|[k0 v0] b IH]; intros a Hnd;
    cbn [fold_left get fst snd]; [reflexivity|].
  cbn [keys map fst] in Hnd. inversion Hnd as [|? ? Hk0 Hb]; subst.
  rewrite (IH _ Hb), get_set.
  destruct (String.eqb k k0) eqn:E; [|reflexivity].
  apply String.eqb_eq in E; subst k0.
  destruct (get_or_key k b) as [Hm| ->]; [|reflexivity].
  apply string_mem_In in Hm. contradiction.
Qed.

(** X17.  In the merge of an API transaction (an object with distinct
    property names), the id is its truthy [id], else [trans_num], else
    [cc_num], else a generated one; every property other than the six the
    merge computes itself is the API's when the API has it, and otherwise
    that of the normalized row indexed under the id; [merchant] is always
    truthy. *)
Theorem merge_precedence (host : Host) (m : jsmap) (riskLevel : string)
    (defaultProb : Q) (tx : obj) (g g' : rng) (r : obj) :
  NoDup (keys tx) ->
  enhanceTransaction host m riskLevel defaultProb (Some tx) g = (Ok r, g') ->
  let txId :=
    if truthy (getv "id" tx) then getv "id" tx
    else if truthy (getv "trans_num" tx) then getv "trans_num" tx
    else if truthy (getv "cc_num" tx) then getv "cc_num" tx
    else VStr (tx_id (g 0%nat)) in
  let origTx := match map_get txId m with Some o => o | None => [] end in
  getv "id" r = txId /\
  truthy (getv "merchant" r) = true /\
  forall k, string_mem k merge_keys = false ->
            get k r = match get k tx with Some v => Some v | None => get k origTx end.
Proof.
  intros Hnd. unfold enhanceTransaction, bind.
  assert (Hid : exists g1, resolve_id tx g
                = (Ok (if truthy (getv "id" tx) then getv "id" tx
                       else if truthy (getv "trans_num" tx) then getv "trans_num" tx
                       else if truthy (getv "cc_num" tx) then getv "cc_num" tx
                       else VStr (tx_id (g 0%nat))), g1)).
  { unfold resolve_id.
    destruct (truthy (getv "id" tx)); [eexists; reflexivity|].
    destruct (truthy (getv "trans_num" tx)); [eexists; reflexivity|].
    destruct (truthy (getv "cc_num" tx)); eexists; reflexivity. }
  destruct Hid as (g1 & ->). unfold ret. intros H; inversion H; subst; clear H.
  cbn zeta. split; [|split].
  - rewrite !getv_set. reflexivity.
  - rewrite !getv_set. cbn [String.eqb Ascii.eqb Bool.eqb]. unfold or_else.
    destruct (truthy (getv "merchant" tx)) eqn:E1; [exact E1|].
    match goal with |- context [truthy (getv "merchant" ?o)] =>
      destruct (truthy (getv "merchant" o)) eqn:E2 end; [exact E2|reflexivity].
  - intros k Hk. unfold merge_keys in Hk. cbn [string_mem] in Hk.
    repeat (apply Bool.orb_false_iff in Hk; destruct Hk as [? Hk]).
    rewrite !get_set.
    repeat match goal with H : String.eqb _ _ = false |- _ => rewrite H; clear H end.
    apply get_spread. exact Hnd.
Qed.

Lemma merge_precedence_witness :
  let rows := [[("id", VStr "t1"); ("merchant", VStr "Acme"); ("state", VStr "NY")]] in
  let tx := [("id", VStr "t1"); ("state", VStr "CA")] in
  let r := [("id", VStr "t1"); ("merchant", VStr "Acme"); ("state", VStr "CA");
            ("amount", num 0); ("date", VStr "2025-05-01");
            ("fraud_probability", VNum (Fin 0.8)); ("risk_level", VStr "High")] in
  getv "id" r = VStr "t1" /\
  truthy (getv "merchant" r) = true /\
  forall k, string_mem k merge_keys = false ->
            get k r = match get k tx with
                      | Some v => Some v
                      | None => get k [("id", VStr "t1"); ("merchant", VStr "Acme");
                                       ("state", VStr "NY")]
                      end.
Proof.
  apply (merge_precedence example_host
           (originalTransactionMap
              [[("id", VStr "t1"); ("merchant", VStr "Acme"); ("state", VStr "NY")]])
           "High" 0.8 [("id", VStr "t1"); ("state", VStr "CA")]
           example_rng example_rng).
  - apply string_NoDup. reflexivity.
  - reflexivity.
Defined.

(** ** The aggregation on an unexpected level *)

Lemma get_In (k : string) (v : value) (o : obj) : get k o = Some v -> In (k, v) o.
Proof.
  induction o as [|[k0 v0] o IH]; cbn [get]; [discriminate|].
  destruct (String.eqb k k0) eqn:E.
  - apply String.eqb_eq in E; subst. intros H; inversion H; left; reflexivity.
  - intros H; right; apply IH; exact H.
Qed.

Section UnknownLevel.

Variable host : Host.
Variable k : string.
Hypothesis k_unknown : string_mem k ["Low"; "Medium"; "High"; "__proto__"] = false.

Lemma k_cases :
  String.eqb k "Low" = false /\ String.eqb k "Medium" = false /\
  String.eqb k "High" = false /\ String.eqb k "__proto__" = false.
Proof.
  pose proof k_unknown as H. cbn [string_mem] in H.
  apply Bool.orb_false_iff in H; destruct H as [H1 H].
  apply Bool.orb_false_iff in H; destruct H as [H2 H].
  apply Bool.orb_false_iff in H; destruct H as [H3 H].
  apply Bool.orb_false_iff in H; destruct H as [H4 _].
  repeat split; assumption.
Qed.

Lemma k_not_proto : String.eqb k "__proto__" = false.
Proof. apply k_cases. Qed.

Lemma increment_other (k' : string) (rc : obj) :
  String.eqb k k' = false -> getv k (increment k' rc) = getv k rc.
Proof.
  intros E. unfold increment. destruct (String.eqb k' "__proto__"); [reflexivity|].
  rewrite getv_set, E. reflexivity.
Qed.

Lemma increment_not_finite (k' : string) (rc : obj) :
  (forall q, getv k rc <> VNum (Fin q)) ->
  forall q, getv k (increment k' rc) <> VNum (Fin q).
Proof.
  intros H q. destruct (String.eqb k k') eqn:E.
  - apply String.eqb_eq in E; subst k'. unfold increment.
    rewrite k_not_proto, getv_set_eq.
    destruct (getv k rc) as [| |b|[q0|]|s]; cbn; try discriminate.
    exfalso. exact (H q0 eq_refl).
  - rewrite increment_other by exact E. apply H.
Qed.

Lemma increment_self_NaN (rc : obj) :
  (forall q, getv k rc <> VNum (Fin q)) -> getv k (increment k rc) = VNum NaN.
Proof.
  intros H. unfold increment. rewrite k_not_proto, getv_set_eq.
  destruct (getv k rc) as [| |b|[q0|]|s]; cbn; try reflexivity.
  exfalso. exact (H q0 eq_refl).
Qed.

Lemma increment_keeps_NaN (k' : string) (rc : obj) :
  getv k rc = VNum NaN -> getv k (increment k' rc) = VNum NaN.
Proof.
  intros H. destruct (String.eqb k k') eqn:E.
  - apply String.eqb_eq in E; subst k'. apply increment_self_NaN.
    intros q. rewrite H. discriminate.
  - rewrite increment_other by exact E. exact H.
Qed.

Lemma count_unknown (transactions : list obj) (tx : obj) :
  In tx transactions ->
  getv "risk_level" tx = VStr k ->
  getv k (fold_left (count_step host) transactions
            [("Low", num 0); ("Medium", num 0); ("High", num 0)]) = VNum NaN.
Proof.
  intros HIn Hk. apply in_split in HIn. destruct HIn as (l1 & l2 & ->).
  rewrite fold_left_app. cbn [fold_left].
  set (rc1 := fold_left (count_step host) l1 [("Low", num 0); ("Medium", num 0); ("High", num 0)]).
  assert (H1 : forall q, getv k rc1 <> VNum (Fin q)).
  { unfold rc1. generalize l1.
    assert (H0 : forall q, getv k [("Low", num 0); ("Medium", num 0); ("High", num 0)]
                           <> VNum (Fin q)).
    { intros q. unfold getv. cbn [get].
      destruct k_cases as (-> & -> & -> & _). discriminate. }
    revert H0.
    generalize [("Low", num 0); ("Medium", num 0); ("High", num 0)] as rc.
    intros rc H0 l. revert rc H0.
    induction l as [|x l IH]; intros rc H0; cbn [fold_left]; [exact H0|].
    apply IH. unfold count_step. apply increment_not_finite. exact H0. }
  assert (H2 : getv k (count_step host rc1 tx) = VNum NaN).
  { unfold count_step. rewrite Hk. change (to_key host (VStr k)) with k.
    apply increment_self_NaN. exact H1. }
  revert H2. generalize (count_step host rc1 tx) as rc. intros rc. revert rc.
  induction l2 as [|x l2 IH]; intros rc H2; cbn [fold_left]; [exact H2|].
  apply IH. unfold count_step. apply increment_keeps_NaN. exact H2.
Qed.

End UnknownLevel.

(** X18.  A transaction whose [risk_level] is a string other than "Low",
    "Medium" and "High" (and other than "__proto__") is not counted in any
    of the three: [calculateRiskDistribution] then returns an extra entry
    under that name whose value is NaN, however often the level occurs. *)
Theorem unknown_level_gives_NaN_entry (host : Host) (transactions : list obj)
    (tx : obj) (level : string) :
  In tx transactions ->
  getv "risk_level" tx = VStr level ->
  string_mem level ["Low"; "Medium"; "High"; "__proto__"] = false ->
  In (mkEntry level (VNum NaN)) (calculateRiskDistribution host transactions).
Proof.
  intros HIn Hl Hk. unfold calculateRiskDistribution.
  pose proof (count_unknown host level Hk transactions tx HIn Hl) as H.
  unfold count_step in H.
  match goal with
  | |- In _ (map _ ?rc) => set (final := rc) in *
  end.
  unfold getv in H. destruct (get level final) as [v|] eqn:E; [|discriminate].
  subst v. apply get_In in E.
  apply (in_map (fun kv => mkEntry (fst kv) (snd kv))) in E. exact E.
Qed.

Lemma unknown_level_gives_NaN_entry_witness :
  In (mkEntry "Critical" (VNum NaN))
     (calculateRiskDistribution example_host
        [[("risk_level", VStr "High")]; [("risk_level", VStr "Critical")];
         [("risk_level", VStr "Critical")]]).
Proof.
  apply (unknown_level_gives_NaN_entry example_host
           [[("risk_level", VStr "High")]; [("risk_level", VStr "Critical")];
            [("risk_level", VStr "Critical")]]
           [("risk_level", VStr "Critical")] "Critical").
  - simpl. tauto.
  - reflexivity.
  - reflexivity.
Defined.

(** ** The probability trend *)

Lemma trend_from_nth (idx : nat) (transactions : list obj) (i : nat) (tx : obj) :
  nth_error transactions i = Some tx ->
  nth_error (trend_from idx transactions) i
  = Some [("id", num (Z.of_nat (idx + i) + 1)); ("value", getv "fraud_probability" tx)].
Proof.
  revert idx i. induction transactions as [|x l IH]; intros idx i;
    destruct i as [|i]; cbn [nth_error trend_from]; try discriminate.
  - intros H; inversion H; subst. rewrite Nat.add_0_r. reflexivity.
  - intros H. rewrite (IH (S idx) i H).
    replace (idx + S i)%nat with (S idx + i)%nat by lia. reflexivity.
Qed.

Lemma trend_from_length (idx : nat) (transactions : list obj) :
  List.length (trend_from idx transactions) = List.length transactions.
Proof.
  revert idx. induction transactions as [|x l IH]; intros idx; cbn [trend_from List.length];
    [reflexivity|]. rewrite IH. reflexivity.
Qed.

(** X19.  [createProbabilityTrendData] returns one point per transaction,
    in order: the point at position [i] (from 0) has the id [i + 1] and the
    [fraud_probability] of the transaction at that position, undefined when
    the transaction has none. *)
Theorem trend_points (transactions : list obj) :
  List.length (createProbabilityTrendData transactions) = List.length transactions /\
  forall i tx,
    nth_error transactions i = Some tx ->
    nth_error (createProbabilityTrendData transactions) i
    = Some [("id", num (Z.of_nat i + 1)); ("value", getv "fraud_probability" tx)].
Proof.
  unfold createProbabilityTrendData. split; [apply trend_from_length|].
  intros i tx H. exact (trend_from_nth 0 transactions i tx H).
Qed.

(** ** The top transactions of a level *)

Lemma Qltb_true (x y : Q) : Qltb x y = true -> x < y.
Proof.
  unfold Qltb. intros H. apply Bool.negb_true_iff in H.
  apply Qnot_le_lt. intros Hle. apply Qle_bool_iff in Hle. congruence.
Qed.

Lemma Qltb_false (x y : Q) : Qltb x y = false -> y <= x.
Proof.
  unfold Qltb. intros H. apply Bool.negb_false_iff in H.
  apply Qle_bool_iff. exact H.
Qed.

Lemma firstn_incl {A} (n : nat) (l : list A) : incl (firstn n l) l.
Proof.
  intros x Hx. rewrite <- (firstn_skipn n l). apply in_or_app. left. exact Hx.
Qed.

Lemma slice_to_prefix {A} (limit : Z) (l : list A) :
  exists n, slice_to limit l = firstn n l.
Proof.
  unfold slice_to. destruct (0 <=? limit)%Z; eexists; reflexivity.
Qed.

Section TopTransactions.

Variable stringToNumber : string -> number.

Lemma insert_sorted_perm (cmp : obj -> obj -> number) (x : obj) (l : list obj) :
  Permutation (x :: l) (insert_sorted cmp x l).
Proof.
  induction l as [|y l IH]; cbn [insert_sorted]; [reflexivity|].
  destruct (num_lt (Fin 0) (cmp y x)); [reflexivity|].
  rewrite perm_swap. apply perm_skip. exact IH.
Qed.

Lemma sort_perm (cmp : obj -> obj -> number) (l : list obj) :
  Permutation l (sort cmp l).
Proof.
  unfold sort. rewrite <- (app_nil_r l) at 1. generalize (@nil obj) as acc.
  induction l as [|x l IH]; intros acc; cbn [fold_left app]; [reflexivity|].
  rewrite <- IH. rewrite Permutation_middle.
  apply Permutation_app_head. apply insert_sorted_perm.
Qed.

Lemma insert_sorted_sorted (x : obj) (l : list obj) :
  has_finite_probability x ->
  Forall has_finite_probability l ->
  StronglySorted prob_ge l ->
  StronglySorted prob_ge (insert_sorted (by_probability_desc stringToNumber) x l).
Proof.
  intros (qx & Hx) Hfin Hs. induction Hs as [|y l Hs IH Hy]; cbn [insert_sorted].
  - constructor; constructor.
  - inversion Hfin as [|? ? (qy & Hqy) Hfin']; subst.
    unfold by_probability_desc at 1. rewrite Hx, Hqy. cbn [to_number num_sub num_lt].
    destruct (Qltb 0 (qx - qy)) eqn:E.
    + apply Qltb_true in E. constructor; [constructor; assumption|].
      constructor.
      * exists qx, qy. repeat split; try assumption. lra.
      * eapply Forall_impl; [|exact Hy].
        intros z (qy' & qz & Hy' & Hz & Hle). rewrite Hqy in Hy'. inversion Hy'; subst.
        exists qx, qz. repeat split; try assumption. lra.
    + apply Qltb_false in E. constructor; [apply IH; exact Hfin'|].
      apply (Permutation_Forall (insert_sorted_perm _ x l)).
      constructor; [|exact Hy].
      exists qy, qx. repeat split; try assumption. lra.
Qed.

Lemma sort_sorted (l : list obj) :
  Forall has_finite_probability l ->
  StronglySorted prob_ge (sort (by_probability_desc stringToNumber) l).
Proof.
  unfold sort.
  assert (H : forall acc, Forall has_finite_probability acc ->
            StronglySorted prob_ge acc ->
            Forall has_finite_probability l ->
            StronglySorted prob_ge
              (fold_left (fun sorted x =>
                            insert_sorted (by_probability_desc stringToNumber) x sorted)
                 l acc)).
  { induction l as [|x l IH]; intros acc Hacc Hs Hl; cbn [fold_left]; [exact Hs|].
    inversion Hl; subst. apply IH; [| |assumption].
    - apply (Permutation_Forall (insert_sorted_perm _ x acc)). constructor; assumption.
    - apply insert_sorted_sorted; assumption. }
  intros Hl. apply H; [constructor|constructor|exact Hl].
Qed.

End TopTransactions.

(** X20.  [getTopTransactionsByRiskLevel] returns only transactions of the
    list given to it, each with exactly the requested [risk_level], and
    never more of them than the list holds at that level. *)
Theorem top_transactions_members (stringToNumber : string -> number)
    (transactions : list obj) (riskLevel : string) (limit : option Z) :
  (forall tx,
      In tx (getTopTransactionsByRiskLevel stringToNumber transactions riskLevel limit) ->
      In tx transactions /\ getv "risk_level" tx = VStr riskLevel) /\
  (List.length (getTopTransactionsByRiskLevel stringToNumber transactions riskLevel limit)
   <= List.length (filter (at_level riskLevel) transactions))%nat.
Proof.
  unfold getTopTransactionsByRiskLevel. fold (at_level riskLevel).
  destruct (slice_to_prefix (match limit with Some n => n | None => 5%Z end)
              (sort (by_probability_desc stringToNumber)
                 (filter (at_level riskLevel) transactions))) as (n & ->).
  split.
  - intros tx Hin. apply firstn_incl in Hin.
    apply (Permutation_in _ (Permutation_sym (sort_perm _ _))) in Hin.
    apply filter_In in Hin. destruct Hin as [Hin Hl]. split; [exact Hin|].
    unfold at_level in Hl.
    destruct (getv "risk_level" tx) as [| |b|[q|]|s0]; cbn in Hl; try discriminate.
    apply String.eqb_eq in Hl. subst. reflexivity.
  - rewrite length_firstn, <- (Permutation_length (sort_perm _ _)). lia.
Qed.

(** X21.  With a limit of zero or more, [getTopTransactionsByRiskLevel]
    returns exactly the smaller of the limit and the number of transactions
    at that level; without a limit it returns at most five; a negative
    limit instead drops that many transactions from the end of the sorted
    list. *)
Theorem top_transactions_size (stringToNumber : string -> number)
    (transactions : list obj) (riskLevel : string) (n : Z) :
  let count := List.length (filter (at_level riskLevel) transactions) in
  ((0 <= n)%Z ->
   List.length
     (getTopTransactionsByRiskLevel stringToNumber transactions riskLevel (Some n))
   = Nat.min (Z.to_nat n) count) /\
  List.length (getTopTransactionsByRiskLevel stringToNumber transactions riskLevel None)
  = Nat.min 5 count /\
  ((n < 0)%Z ->
   Z.of_nat
     (List.length
        (getTopTransactionsByRiskLevel stringToNumber transactions riskLevel (Some n)))
   = Z.max 0 (Z.of_nat count + n)).
Proof.
  intros count. unfold getTopTransactionsByRiskLevel, slice_to.
  fold (at_level riskLevel).
  assert (Hlen : List.length (sort (by_probability_desc stringToNumber)
                                (filter (at_level riskLevel) transactions)) = count)
    by (symmetry; apply Permutation_length, sort_perm).
  split; [|split].
  - intros Hn. apply Z.leb_le in Hn. rewrite Hn, length_firstn, Hlen. reflexivity.
  - cbn [Z.leb Z.compare]. rewrite length_firstn, Hlen. reflexivity.
  - intros Hn. apply Z.leb_gt in Hn. rewrite Hn, length_firstn, Hlen. lia.
Qed.

Lemma top_transactions_size_witness :
  List.length
    (getTopTransactionsByRiskLevel (fun _ => NaN)
       [[("risk_level", VStr "High")]; [("risk_level", VStr "Low")];
        [("risk_level", VStr "High")]; [("risk_level", VStr "High")]]
       "High" (Some 2%Z))
  = 2%nat.
Proof.
  apply (proj1 (top_transactions_size (fun _ => NaN)
                  [[("risk_level", VStr "High")]; [("risk_level", VStr "Low")];
                   [("risk_level", VStr "High")]; [("risk_level", VStr "High")]]
                  "High" 2%Z)).
  lia.
Defined.

(** X22.  When every transaction has a finite number as
    [fraud_probability], [getTopTransactionsByRiskLevel] returns the
    transactions of the level in descending order of probability, and they
    are the top ones: the transactions of the level it leaves out can be
    listed after them so that the whole stays in descending order. *)
Theorem top_transactions_descending (stringToNumber : string -> number)
    (transactions : list obj) (riskLevel : string) (limit : option Z) :
  Forall has_finite_probability transactions ->
  exists rest,
    Permutation
      (getTopTransactionsByRiskLevel stringToNumber transactions riskLevel limit ++ rest)
      (filter (at_level riskLevel) transactions) /\
    StronglySorted prob_ge
      (getTopTransactionsByRiskLevel stringToNumber transactions riskLevel limit ++ rest).
Proof.
  intros Hfin. unfold getTopTransactionsByRiskLevel. fold (at_level riskLevel).
  set (sorted := sort (by_probability_desc stringToNumber)
                   (filter (at_level riskLevel) transactions)).
  destruct (slice_to_prefix (match limit with Some n => n | None => 5%Z end) sorted)
    as (n & ->).
  exists (skipn n sorted). rewrite firstn_skipn. split.
  - apply Permutation_sym, sort_perm.
  - apply sort_sorted. apply Forall_forall. intros tx Htx.
    apply filter_In in Htx. rewrite Forall_forall in Hfin. apply Hfin, Htx.
Qed.

Lemma top_transactions_descending_witness :
  let txs := [[("risk_level", VStr "High"); ("fraud_probability", VNum (Fin 0.75))];
              [("risk_level", VStr "Low"); ("fraud_probability", VNum (Fin 0.1))];
              [("risk_level", VStr "High"); ("fraud_probability", VNum (Fin 0.9))]] in
  exists rest,
    Permutation
      (getTopTransactionsByRiskLevel (fun _ => NaN) txs "High" (Some 1%Z) ++ rest)
      (filter (at_level "High") txs) /\
    StronglySorted prob_ge
      (getTopTransactionsByRiskLevel (fun _ => NaN) txs "High" (Some 1%Z) ++ rest).
Proof.
  apply (top_transactions_descending (fun _ => NaN)
           [[("risk_level", VStr "High"); ("fraud_probability", VNum (Fin 0.75))];
            [("risk_level", VStr "Low"); ("fraud_probability", VNum (Fin 0.1))];
            [("risk_level", VStr "High"); ("fraud_probability", VNum (Fin 0.9))]]
           "High" (Some 1%Z)).
  repeat constructor; eexists; reflexivity.
Defined.

(** ** The demo transactions: what they hold *)

Lemma floor_times_3 (r : Q) :
  0 <= r -> r < 1 -> (0 <= floorZ (r * 3) < 3)%Z.
Proof.
  intros H0 H1. unfold floorZ. split.
  - pose proof (Qfloor_resp_le (inject_Z 0) (r * 3)) as H.
    rewrite Qfloor_Z in H. apply H. unfold inject_Z. lra.
  - pose proof (Qfloor_le (r * 3)) as Hf.
    assert (Hlt : inject_Z (Qfloor (r * 3)) < inject_Z 3).
    { unfold inject_Z at 2. lra. }
    rewrite <- Zlt_Qlt in Hlt. exact Hlt.
Qed.

Lemma floor_times_10 (r : Q) :
  0 <= r -> r < 1 -> (0 <= floorZ (r * 10) < 10)%Z.
Proof.
  intros H0 H1. unfold floorZ. split.
  - pose proof (Qfloor_resp_le (inject_Z 0) (r * 10)) as H.
    rewrite Qfloor_Z in H. apply H. unfold inject_Z. lra.
  - pose proof (Qfloor_le (r * 10)) as Hf.
    assert (Hlt : inject_Z (Qfloor (r * 10)) < inject_Z 10).
    { unfold inject_Z at 2. lra. }
    rewrite <- Zlt_Qlt in Hlt. exact Hlt.
Qed.

Lemma pick_riskLevels (r : Q) :
  0 <= r -> r < 1 ->
  pick riskLevels r = VStr "Low" \/ pick riskLevels r = VStr "Medium"
  \/ pick riskLevels r = VStr "High".
Proof.
  intros H0 H1. unfold pick.
  change (inject_Z (Z.of_nat (List.length riskLevels))) with 3.
  pose proof (floor_times_3 r H0 H1) as Hz.
  remember (floorZ (r * 3)) as z eqn:Ez. clear Ez.
  assert (Hc : z = 0%Z \/ z = 1%Z \/ z = 2%Z) by lia.
  destruct Hc as [-> |[-> | ->]]; cbn; tauto.
Qed.

Lemma pick_merchants (r : Q) :
  0 <= r -> r < 1 -> exists s, pick merchants r = VStr s /\ In s merchants.
Proof.
  intros H0 H1. unfold pick.
  change (inject_Z (Z.of_nat (List.length merchants))) with 10.
  pose proof (floor_times_10 r H0 H1) as Hz.
  remember (floorZ (r * 10)) as z eqn:Ez. clear Ez.
  assert (Hc : (z = 0 \/ z = 1 \/ z = 2 \/ z = 3 \/ z = 4 \/ z = 5 \/ z = 6 \/ z = 7
                \/ z = 8 \/ z = 9)%Z) by lia.
  repeat (destruct Hc as [-> |Hc]; [eexists; split; [reflexivity|simpl; tauto]|]).
  subst z. eexists; split; [reflexivity|simpl; tauto].
Qed.

Lemma round_cents_range (r : Q) :
  0 <= r -> r < 1 ->
  exists q, round_cents r = VNum (Fin q) /\ 0 <= q /\ q <= 1000.
Proof.
  intros H0 H1. unfold round_cents. eexists. split; [reflexivity|].
  assert (Hz : (0 <= floorZ (r * 1000 * 100 + 0.5) <= 100000)%Z).
  { unfold floorZ. split.
    - pose proof (Qfloor_resp_le (inject_Z 0) (r * 1000 * 100 + 0.5)) as H.
      rewrite Qfloor_Z in H. apply H. unfold inject_Z. lra.
    - pose proof (Qfloor_le (r * 1000 * 100 + 0.5)) as Hf.
      assert (Hlt : inject_Z (Qfloor (r * 1000 * 100 + 0.5)) < inject_Z 100001).
      { unfold inject_Z at 2. lra. }
      rewrite <- Zlt_Qlt in Hlt. lia. }
  remember (floorZ (r * 1000 * 100 + 0.5)) as z eqn:Ez. clear Ez.
  unfold Qle, Qdiv, Qmult, Qinv, inject_Z. cbn [Qnum Qden]. cbn. lia.
Qed.

Section Mock.

Variable host : Host.

Lemma mock_transaction_ok (i : nat) (g : rng) :
  rng_ok g ->
  exists tx g', mock_transaction host i g = (Ok tx, g') /\ mock_ok i tx /\ rng_ok g'.
Proof.
  intros Hg. unfold mock_transaction, bind, random, ret.
  eexists; eexists. split; [reflexivity|]. split.
  - unfold mock_ok. unfold getv at 1. cbn [get String.eqb Ascii.eqb Bool.eqb].
    split; [reflexivity|]. split; [|split; [|split]].
    + destruct (Hg 0%nat) as [H0 H1]. destruct (Hg 1%nat) as [H2 H3].
      change (rng_tail g 0%nat) with (g 1%nat).
      unfold level_in_band, getv. cbn [get String.eqb Ascii.eqb Bool.eqb].
      destruct (pick_riskLevels (g 0%nat) H0 H1) as [-> |[-> | ->]];
        cbn [strict_eq String.eqb Ascii.eqb Bool.eqb].
      * right; right. split; [reflexivity|]. eexists. split; [reflexivity|lra].
      * right; left. split; [reflexivity|]. eexists. split; [reflexivity|lra].
      * left. split; [reflexivity|]. eexists. split; [reflexivity|lra].
    + unfold getv. cbn [get String.eqb Ascii.eqb Bool.eqb].
      apply pick_merchants; apply (Hg 5%nat).
    + unfold getv. cbn [get String.eqb Ascii.eqb Bool.eqb].
      apply pick_merchants; apply (Hg 6%nat).
    + unfold getv. cbn [get String.eqb Ascii.eqb Bool.eqb].
      apply round_cents_range; apply (Hg 3%nat).
  - intros n. apply (Hg (7 + n)%nat).
Qed.

Lemma mapM_total_rng {A B} (f : A -> M B) (P : A -> B -> Prop) (xs : list A) :
  (forall x g, rng_ok g -> exists y g', f x g = (Ok y, g') /\ P x y /\ rng_ok g') ->
  forall g, rng_ok g ->
            exists ys g', mapM f xs g = (Ok ys, g') /\ Forall2 P xs ys.
Proof.
  intros Hf. induction xs as [|x xs IH]; intros g Hg; cbn [mapM].
  - exists [], g. split; [reflexivity|constructor].
  - destruct (Hf x g Hg) as (y & g1 & Ey & Hy & Hg1).
    destruct (IH g1 Hg1) as (ys & g2 & Eys & Hys).
    exists (y :: ys), g2. unfold bind. rewrite Ey, Eys.
    split; [reflexivity|constructor; assumption].
Qed.

End Mock.

(** X23.  For draws in [0, 1), [generateMockTransactions(count)] returns
    [count] transactions; number [i] has the id "TX-" followed by
    [1000 + i], one of the three levels with a probability in the band of
    that level (from 0.7 to 1, from 0.4 to 0.7, from 0 to 0.4, the ends
    included), a merchant of the fixed list, an amount from 0 to 1000, and,
    under [category_1], the name of a merchant rather than a flag. *)
Theorem mock_transactions_shape (host : Host) (count : nat) (g : rng) :
  rng_ok g ->
  exists txs g',
    generateMockTransactions host count g = (Ok txs, g') /\
    List.length txs = count /\
    Forall2 mock_ok (seq 0 count) txs.
Proof.
  intros Hg. unfold generateMockTransactions.
  destruct (mapM_total_rng (mock_transaction host) mock_ok (seq 0 count)
              (mock_transaction_ok host) g Hg) as (txs & g' & E & H).
  exists txs, g'. split; [exact E|]. split; [|exact H].
  rewrite <- (Forall2_length H). apply length_seq.
Qed.

Lemma mock_transactions_shape_witness :
  exists txs g',
    generateMockTransactions example_host 3 example_rng = (Ok txs, g') /\
    List.length txs = 3%nat /\
    Forall2 mock_ok (seq 0 3) txs.
Proof.
  apply (mock_transactions_shape example_host 3 example_rng).
  intros n. unfold example_rng, Qle, Qlt. simpl. lia.
Defined.

(** ** The batch preprocessor as a whole *)

(** X24.  The batches of [preprocessCSV] have no effect on its result: it
    normalizes the rows one after the other in their order, as one [map]
    over the whole list would, with the same draws and the same error; when
    it returns, it returns one normalized row per raw row. *)
Theorem batching_is_transparent (host : Host) (data : list obj) (g : rng) :
  preprocessCSV host data g = mapM (normalizeRow host) data g /\
  forall out g',
    preprocessCSV host data g = (Ok out, g') ->
    List.length out = List.length data /\
    Forall2 (fun row p => exists g0 g1, normalizeRow host row g0 = (Ok p, g1)) data out.
Proof.
  split; [apply preprocessCSV_mapM|].
  intros out g' H. split.
  - rewrite preprocessCSV_mapM in H. exact (mapM_length _ _ _ _ _ H).
  - exact (preprocessCSV_rows host data out g g' H).
Qed.

Lemma mapM_throws {A B} (f : A -> M B) (bad : A -> bool) (e : exn) (xs : list A) :
  (forall x g, bad x = false -> exists y g', f x g = (Ok y, g')) ->
  (forall x g, bad x = true -> exists g', f x g = (Throw e, g')) ->
  existsb bad xs = true ->
  forall g, exists g', mapM f xs g = (Throw e, g').
Proof.
  intros Hgood Hbad. induction xs as [|x xs IH]; cbn [existsb mapM]; [discriminate|].
  intros Hex g. unfold bind. destruct (bad x) eqn:E.
  - destruct (Hbad x g E) as (g' & ->). exists g'. reflexivity.
  - destruct (Hgood x g E) as (y & g1 & ->).
    destruct (IH Hex g1) as (g' & ->). exists g'. reflexivity.
Qed.

(** X25.  One raw row whose [trans_date_trans_time] is truthy and not a
    string makes the whole preprocessing throw the [TypeError] of [split]:
    no row is returned, and [processCSV] rejects with that error. *)
Theorem one_bad_row_fails_all (host : Host) (name : string) (data : list obj) (g : rng) :
  existsb (fun row => negb (string_or_falsy (getv "trans_date_trans_time" row))) data
  = true ->
  (List.length data <= ROW_LIMIT)%nat ->
  exists g',
    preprocessCSV host data g
    = (Throw (TypeError "row.trans_date_trans_time.split is not a function"), g') /\
    processCSV host (mkUpload name [Chunk data]) g
    = (Throw (TypeError "row.trans_date_trans_time.split is not a function"), g').
Proof.
  intros Hex Hlen.
  destruct (mapM_throws (normalizeRow host)
              (fun row => negb (string_or_falsy (getv "trans_date_trans_time" row)))
              (TypeError "row.trans_date_trans_time.split is not a function") data)
    with (g := g) as (g' & E).
  - intros x g0 Hx. apply Bool.negb_false_iff in Hx.
    exact (normalizeRow_returns host x g0 Hx).
  - intros x g0 Hx. apply Bool.negb_true_iff in Hx.
    exact (normalizeRow_throws host x g0 Hx).
  - exact Hex.
  - exists g'. rewrite preprocessCSV_mapM. split; [exact E|].
    unfold processCSV. cbn [upload_events parse_chunks app].
    replace (ROW_LIMIT <? List.length data)%nat with false
      by (symmetry; apply Nat.ltb_ge; exact Hlen).
    rewrite preprocessCSV_mapM. exact E.
Qed.

Lemma one_bad_row_fails_all_witness :
  exists g',
    preprocessCSV example_host
      [[("amt", VStr "1")]; [("trans_date_trans_time", VBool true)]] example_rng
    = (Throw (TypeError "row.trans_date_trans_time.split is not a function"), g') /\
    processCSV example_host
      (mkUpload "a.csv" [Chunk [[("amt", VStr "1")];
                                [("trans_date_trans_time", VBool true)]]])
      example_rng
    = (Throw (TypeError "row.trans_date_trans_time.split is not a function"), g').
Proof.
  apply (one_bad_row_fails_all example_host "a.csv"
           [[("amt", VStr "1")]; [("trans_date_trans_time", VBool true)]] example_rng).
  - reflexivity.
  - unfold ROW_LIMIT. simpl. lia.
Defined.

(** ** What the user is told when the request times out *)

(** X26.  When the rows were parsed and serialized to a non-empty text and
    the request is aborted by the timeout, [processTransactions] resolves
    with the uploaded rows, each with a random probability and level, and
    the error of status 500 whose message carries the timeout text. *)
Theorem timeout_outcome (host : Host) (file : Upload) (g g1 : rng)
    (data : list obj) (text : string) (e : exn) :
  processCSV host file g = (Ok data, g1) ->
  unparse host (keys (hd [] data)) data = Ok text ->
  String.eqb text "" = false ->
  fetch host (mkFile (upload_name file) text) = FetchRejected e ->
  String.eqb (exn_name e) "AbortError" = true ->
  exists out g',
    processTransactions host file g = (Ok out, g') /\
    Forall2 randomized data (processedTransactions out) /\
    error out =
      Some (mkApiError
              ("Apache Spark cluster error: " ++ timeout_message
               ++ ". Using Dask for local processing with simulated fraud probabilities.")
              500).
Proof.
  intros Hcsv Hun Htext Hfetch Hname.
  rewrite outer_handler_unused.
  destruct (guarded_pipeline_resolves host file g) as (out & g' & E & Hcases).
  exists out, g'. split; [exact E|].
  rewrite Hcsv, Hun in Hcases.
  assert (Hp : predictTransaction host (mkFile (upload_name file) text)
               = Throw (Error timeout_message)).
  { unfold predictTransaction, predict_body, file_size. cbn [file_text].
    destruct text as [|c text]; [discriminate|]. cbn [String.length Nat.eqb].
    rewrite Hfetch, Hname. reflexivity. }
  unfold prediction_stage, bind, lift in Hcases. rewrite Hp in Hcases.
  exact Hcases.
Qed.

Lemma timeout_outcome_witness :
  exists out g',
    processTransactions timeout_host (mkUpload "a.csv" [Chunk [[("id", VStr "r1")]]])
      example_rng = (Ok out, g') /\
    Forall2 randomized
      [normalized [("id", VStr "r1")]] (processedTransactions out) /\
    error out =
      Some (mkApiError
              ("Apache Spark cluster error: " ++ timeout_message
               ++ ". Using Dask for local processing with simulated fraud probabilities.")
              500).
Proof.
  apply (timeout_outcome timeout_host (mkUpload "a.csv" [Chunk [[("id", VStr "r1")]]])
           example_rng example_rng [normalized [("id", VStr "r1")]] "id"
           (mkExn "AbortError" "The user aborted a request.")).
  - vm_compute. reflexivity.
  - reflexivity.
  - reflexivity.
  - reflexivity.
  - reflexivity.
Defined.
